(** * ChatFarewell: a verification development for [main.py]

    The program is a Telegram bot that posts a farewell message when a member
    leaves, is kicked or is banned, and lets chat administrators customise the
    three message templates and their images.

    Modelling conventions.
    - A Python [str] is a [string]; every [ascii] stands for one position of
      the Python string (the code only indexes and compares characters).
    - A Python [int] is a [Z]; a JSON field read with [.get] is an [option].
    - The settings table of [BotDatabase] is a list of rows; [user_states] and
      the files on disk are finite maps.
    - Handlers run in a state-and-exception monad over the bot: an exception
      does not undo the effects that happened before it.
    - What the outside world answers (the Telegram gateway, whether sqlite and
      the disk work) is read from a [World] record. *)

From Stdlib Require Import ZArith Lia Ascii String List Sorting.Permutation Sorting.Sorted.
From stdpp Require Import gmap strings list sorting pretty.

Open Scope string_scope.
Open Scope Z_scope.

(** ** Python strings *)

Module PyStr.

Fixpoint take (n : nat) (s : string) : string :=
  match n, s with
  | O, _ => ""
  | S _, "" => ""
  | S n', String c s' => String c (take n' s')
  end.

Fixpoint drop (n : nat) (s : string) : string :=
  match n, s with
  | O, _ => s
  | S _, "" => ""
  | S n', String _ s' => drop n' s'
  end.

Definition len (s : string) : Z := Z.of_nat (String.length s).

(** The position a slice bound [i] denotes in a string of length [n]:
    negative bounds count from the end, and the result is clipped to
    [0..n]. *)
Definition bound (n i : Z) : Z :=
  let j := if i <? 0 then i + n else i in
  Z.max 0 (Z.min n j).

(** [s[lo:hi]]; an omitted bound is [None]. *)
Definition slice (s : string) (lo hi : option Z) : string :=
  let n := len s in
  let a := match lo with Some i => bound n i | None => 0 end in
  let b := match hi with Some i => bound n i | None => n end in
  take (Z.to_nat (b - a)) (drop (Z.to_nat a) s).

(** [s.startswith(p)] *)
Fixpoint startswith (p s : string) : bool :=
  match p, s with
  | "", _ => true
  | String _ _, "" => false
  | String a p', String b s' => if Ascii.eqb a b then startswith p' s' else false
  end.

(** [s.split(sep)] for a one-character separator. *)
Fixpoint split (sep : ascii) (s : string) : list string :=
  match s with
  | "" => [""]
  | String c s' =>
      if Ascii.eqb c sep then "" :: split sep s'
      else match split sep s' with
           | w :: ws => String c w :: ws
           | [] => [String c ""]
           end
  end.

(** Characters that [str.strip()] removes, among the code points below 256. *)
Definition is_space (c : ascii) : bool :=
  let n := nat_of_ascii c in
  ((9 <=? n) && (n <=? 13))%nat || ((28 <=? n) && (n <=? 32))%nat
  || (n =? 133)%nat || (n =? 160)%nat.

Fixpoint lstrip (s : string) : string :=
  match s with
  | "" => ""
  | String c s' => if is_space c then lstrip s' else s
  end.

Definition strip (s : string) : string :=
  String.rev (lstrip (String.rev (lstrip s))).

Definition is_lower (c : ascii) : bool :=
  let n := nat_of_ascii c in ((97 <=? n) && (n <=? 122))%nat.
Definition is_upper (c : ascii) : bool :=
  let n := nat_of_ascii c in ((65 <=? n) && (n <=? 90))%nat.
Definition to_upper (c : ascii) : ascii :=
  if is_lower c then ascii_of_nat (nat_of_ascii c - 32) else c.
Definition to_lower (c : ascii) : ascii :=
  if is_upper c then ascii_of_nat (nat_of_ascii c + 32) else c.

(** [s.title()] on ASCII letters: a letter that follows a letter is
    lowered, any other letter is raised. *)
Fixpoint title_go (previous_is_cased : bool) (s : string) : string :=
  match s with
  | "" => ""
  | String c s' =>
      let cased := is_lower c || is_upper c in
      String (if previous_is_cased then to_lower c else to_upper c)
             (title_go cased s')
  end.
Definition title (s : string) : string := title_go false s.

(** Truth value of a string: empty strings are false. *)
Definition truthy (s : string) : bool :=
  match s with "" => false | _ => true end.

End PyStr.

(** ** Message formatter: [parse_message_entities] *)

(** A formatting entity of an incoming message ([type], [offset], [length]). *)
Record Entity := {
  ent_type : option string;
  ent_offset : option Z;
  ent_length : option Z
}.

(** [entity.get('offset', 0)] and [entity.get('length', 0)] *)
Definition get_offset (entity : Entity) : Z := default 0 (ent_offset entity).
Definition get_length (entity : Entity) : Z := default 0 (ent_length entity).

(** [sorted(l, key=key, reverse=True)]: descending by key, and stable, so
    that elements with equal keys keep the order they had in [l]. *)
Fixpoint insert_reverse {A} (key : A -> Z) (x : A) (l : list A) : list A :=
  match l with
  | [] => [x]
  | y :: l' => if key y <=? key x then x :: y :: l' else y :: insert_reverse key x l'
  end.

Definition sorted_reverse {A} (key : A -> Z) (l : list A) : list A :=
  foldr (insert_reverse key) [] l.

(** [t[:offset] + opening + t[offset:offset+length] + closing + t[offset+length:]] *)
Definition wrap (formatted_text : string) (offset length : Z) (opening closing : string) : string :=
  PyStr.slice formatted_text None (Some offset) +:+ opening +:+
  PyStr.slice formatted_text (Some offset) (Some (offset + length)) +:+ closing +:+
  PyStr.slice formatted_text (Some (offset + length)) None.

(** One iteration of the loop of [parse_message_entities]. *)
Definition apply_entity (formatted_text : string) (entity : Entity) : string :=
  let entity_type := ent_type entity in
  let offset := get_offset entity in
  let length := get_length entity in
  if decide (entity_type = Some "bold") then wrap formatted_text offset length "<b>" "</b>"
  else if decide (entity_type = Some "italic") then wrap formatted_text offset length "<i>" "</i>"
  else if decide (entity_type = Some "underline") then wrap formatted_text offset length "<u>" "</u>"
  else if decide (entity_type = Some "strikethrough") then wrap formatted_text offset length "<s>" "</s>"
  else if decide (entity_type = Some "code") then wrap formatted_text offset length "<code>" "</code>"
  else formatted_text.

Definition parse_message_entities (text : string) (entities : list Entity) : string :=
  match entities with
  | [] => text
  | _ => fold_left apply_entity (sorted_reverse get_offset entities) text
  end.

(** *** What the formatter is expected to produce *)

(** The tags of the five supported kinds; a span of any other kind is left
    unmarked. *)
Definition tags (kind : option string) : string * string :=
  if decide (kind = Some "bold") then ("<b>", "</b>")
  else if decide (kind = Some "italic") then ("<i>", "</i>")
  else if decide (kind = Some "underline") then ("<u>", "</u>")
  else if decide (kind = Some "strikethrough") then ("<s>", "</s>")
  else if decide (kind = Some "code") then ("<code>", "</code>")
  else ("", "").

Definition span_end (e : Entity) : Z := get_offset e + get_length e.

(** The part of [text] between the positions [pos] and [stop], with every
    span of [spans] (listed from left to right) wrapped in its tags. *)
Fixpoint marked_up_to (text : string) (pos stop : Z) (spans : list Entity) : string :=
  match spans with
  | [] => PyStr.slice text (Some pos) (Some stop)
  | e :: rest =>
      PyStr.slice text (Some pos) (Some (get_offset e)) +:+ fst (tags (ent_type e)) +:+
      PyStr.slice text (Some (get_offset e)) (Some (span_end e)) +:+ snd (tags (ent_type e)) +:+
      marked_up_to text (span_end e) stop rest
  end.

(** The whole text with the spans wrapped. *)
Definition marked_up (text : string) (spans : list Entity) : string :=
  marked_up_to text 0 (PyStr.len text) spans.

(** A span addresses a substring of [text]. *)
Definition within (text : string) (e : Entity) : Prop :=
  0 <= get_offset e /\ 0 <= get_length e /\ span_end e <= PyStr.len text.

(** Two spans do not overlap: one ends where or before the other starts. *)
Definition non_overlapping (a b : Entity) : Prop :=
  span_end a <= get_offset b \/ span_end b <= get_offset a.

(** Spans in ascending order of offset. *)
Definition ascending (spans : list Entity) : Prop :=
  StronglySorted (fun a b => get_offset a <= get_offset b) spans.

(** ** Telegram payloads

    The fields the handlers read from an update; a field that may be missing
    is an [option]. *)

Record User := {
  user_username : option string;
  user_first_name : option string;
  user_last_name : option string
}.

(** [cm_user] is [None] when the ['user'] entry is missing or an empty dict,
    the two cases the handler cannot tell apart. *)
Record ChatMember := {
  cm_status : option string;
  cm_user : option User;
  cm_until_date : option Z
}.

Record ChatMemberUpdated := {
  cmu_chat_id : option Z;
  cmu_old_chat_member : option ChatMember;
  cmu_new_chat_member : option ChatMember
}.

Record PhotoSize := { photo_file_id : option string }.

Record Message := {
  msg_chat_id : option Z;
  msg_from_id : option Z;
  msg_text : option string;
  msg_message_id : option Z;
  msg_entities : option (list Entity);
  msg_photo : option (list PhotoSize)
}.

Record CallbackQuery := {
  cb_id : option string;
  cb_from_id : option Z;
  cb_chat_id : option Z;
  cb_message_id : option Z;
  cb_data : option string
}.

Record Update := {
  upd_update_id : option Z;
  upd_chat_member : option ChatMemberUpdated;
  upd_message : option Message;
  upd_callback_query : option CallbackQuery
}.

(** An identifier that passes [if not chat_id or not user_id: return]:
    present and not zero. *)
Definition usable_id (id : option Z) : option Z :=
  match id with
  | Some z => if z =? 0 then None else Some z
  | None => None
  end.

(** ** Settings store: the [settings] table of [BotDatabase]

    The column [created_at] is never read and is left out. *)

Module BotDatabase.

Record Row := {
  row_chat_id : Z;
  row_setting_type : string;
  row_content : string;
  row_image_path : option string
}.

Definition has_key (chat_id : Z) (message_type : string) (r : Row) : bool :=
  bool_decide (row_chat_id r = chat_id /\ row_setting_type r = message_type).

(** [INSERT OR REPLACE INTO settings (chat_id, setting_type, content,
    image_path)]: the rows that conflict on the primary key are deleted and
    the new row is added. *)
Definition set_message (table : list Row) (chat_id : Z) (message_type content : string)
    (image_path : option string) : list Row :=
  List.filter (fun r => negb (has_key chat_id message_type r)) table ++
  [ {| row_chat_id := chat_id; row_setting_type := message_type;
       row_content := content; row_image_path := image_path |} ].

(** [SELECT content, image_path ... WHERE chat_id = ? AND setting_type = ?],
    [fetchone()], and [(None, None)] when there is no row. *)
Definition get_message (table : list Row) (chat_id : Z) (message_type : string)
    : option string * option string :=
  match List.find (has_key chat_id message_type) table with
  | Some r => (Some (row_content r), row_image_path r)
  | None => (None, None)
  end.

(** [DELETE FROM settings WHERE chat_id = ?] *)
Definition delete_settings (table : list Row) (chat_id : Z) : list Row :=
  List.filter (fun r => negb (bool_decide (row_chat_id r = chat_id))) table.

(** The primary key [(chat_id, setting_type)]. *)
Definition row_key (r : Row) : Z * string := (row_chat_id r, row_setting_type r).
Definition primary_key_ok (table : list Row) : Prop := NoDup (List.map row_key table).

End BotDatabase.

(** ** The bot: its state and the world around it *)

Inductive Action := edit_message | upload_image.

(** An entry of [bot.user_states]. *)
Record UserState := {
  action : Action;
  message_type : string;
  state_chat_id : Z
}.

Record Button := { button_text : string; callback_data : string }.

(** A request sent to the Telegram gateway. *)
Inductive Outbound :=
| SendMessage (chat_id : Z) (text : string)
| SendPhoto (chat_id : Z) (photo_path caption : string)
| SendInlineKeyboard (chat_id : Z) (text : string) (keyboard : list (list Button))
| AnswerCallbackQuery (callback_query_id : option string) (text : string)
| EditMessage (chat_id : Z) (message_id : option Z) (text : string) (keyboard : list (list Button)).

Record Bot := {
  settings : list BotDatabase.Row;
  user_states : gmap Z UserState;
  files : gmap string (list Byte.byte);
  outbox : list Outbound
}.

(** The answer to [getChatMember]: the request raised, or it returned a
    status code, the [ok] flag and the member's status. *)
Inductive MemberReply :=
| MemberError
| MemberHttp (status_code : Z) (ok : bool) (status : option string).

(** What [download_file] does: it raises (a request failed), it returns
    [(None, None)], or it returns the content and the path on the server. *)
Inductive FileReply :=
| FileError
| FileUnavailable
| FileContent (content : list Byte.byte) (file_path : string).

(** The world during one handler call. [gateway] gives, for a request, the
    [ok] flag of the JSON answer, or [None] when the request raised (the
    [send_*] methods then return [None]). *)
Record World := {
  gateway : Outbound -> option bool;
  get_chat_member : Z -> Z -> MemberReply;
  get_file : string -> FileReply;
  storage_up : bool;
  disk_up : bool
}.

(** *** The handler monad *)

Inductive Outcome (A : Type) :=
| Returned (a : A)
| Raised.
Arguments Returned {A} a.
Arguments Raised {A}.

Definition M (A : Type) : Type := Bot -> Outcome A * Bot.

Definition ret {A} (a : A) : M A := fun b => (Returned a, b).
Definition raise {A} : M A := fun b => (Raised, b).
Definition bind {A B} (m : M A) (k : A -> M B) : M B :=
  fun b => match m b with
           | (Returned a, b') => k a b'
           | (Raised, b') => (Raised, b')
           end.

Notation "'do' x <- m ; k" := (bind m (fun x => k))
  (at level 10, x binder, m at level 100, k at level 200).
Notation "'do' ' p <- m ; k" := (bind m (fun x => match x with p => k end))
  (at level 10, p pattern, m at level 100, k at level 200).

(** [try: body / except Exception as e: logger.error(...)] *)
Definition try_except (body : M unit) : M unit :=
  fun b => match body b with
           | (Raised, b') => (Returned tt, b')
           | r => r
           end.

(** The bot a handler leaves behind. *)
Definition run (m : M unit) (b : Bot) : Bot := snd (m b).

Definition read {A} (f : Bot -> A) : M A := fun b => (Returned (f b), b).

Definition set_settings (t : list BotDatabase.Row) (b : Bot) : Bot :=
  {| settings := t; user_states := user_states b; files := files b; outbox := outbox b |}.
Definition set_user_states (s : gmap Z UserState) (b : Bot) : Bot :=
  {| settings := settings b; user_states := s; files := files b; outbox := outbox b |}.
Definition set_files (f : gmap string (list Byte.byte)) (b : Bot) : Bot :=
  {| settings := settings b; user_states := user_states b; files := f; outbox := outbox b |}.
Definition set_outbox (o : list Outbound) (b : Bot) : Bot :=
  {| settings := settings b; user_states := user_states b; files := files b; outbox := o |}.

Definition modify (f : Bot -> Bot) : M unit := fun b => (Returned tt, f b).

(** *** [TelegramBot]: the gateway methods *)

Module TelegramBot.

(** A request goes out and the world answers; an exception of the transport
    is caught inside the method, which then returns [None]. *)
Definition post (W : World) (request : Outbound) : M (option bool) :=
  fun b => (Returned (gateway W request), set_outbox (outbox b ++ [request]) b).

Definition send_message (W : World) (chat_id : Z) (text : string) : M (option bool) :=
  post W (SendMessage chat_id text).

(** [open(photo_path, 'rb')] fails inside the [try] when the file is missing. *)
Definition send_photo (W : World) (chat_id : Z) (photo_path caption : string) : M (option bool) :=
  do present <- read (fun b => bool_decide (is_Some (files b !! photo_path)));
  if (present : bool) then post W (SendPhoto chat_id photo_path caption) else ret None.

Definition send_inline_keyboard (W : World) (chat_id : Z) (text : string)
    (keyboard : list (list Button)) : M (option bool) :=
  post W (SendInlineKeyboard chat_id text keyboard).

Definition answer_callback_query (W : World) (callback_query_id : option string)
    (text : string) : M (option bool) :=
  post W (AnswerCallbackQuery callback_query_id text).

Definition edit_message (W : World) (chat_id : Z) (message_id : option Z) (text : string)
    (keyboard : list (list Button)) : M (option bool) :=
  post W (EditMessage chat_id message_id text keyboard).

(** [file_path.split('/')[-1]] *)
Definition last_segment (file_path : string) : string :=
  List.last (PyStr.split "/" file_path) "".

Definition download_file (W : World) (file_id : string)
    : M (option (list Byte.byte) * option string) :=
  match get_file W file_id with
  | FileError => raise
  | FileUnavailable => ret (None, None)
  | FileContent content file_path => ret (Some content, Some (last_segment file_path))
  end.

End TelegramBot.

(** [result and result.get('ok')] *)
Definition acknowledged (result : option bool) : bool :=
  match result with
  | Some true => true
  | _ => false
  end.

(** [os.path.exists(path)] *)
Definition path_exists (path : string) : M bool :=
  read (fun b => bool_decide (is_Some (files b !! path))).

(** [os.makedirs('images', exist_ok=True)] and
    [with open(image_path, 'wb') as f: f.write(file_content)] *)
Definition write_file (W : World) (image_path : string) (file_content : list Byte.byte) : M unit :=
  if disk_up W then modify (fun b => set_files (<[image_path := file_content]> (files b)) b)
  else raise.

(** *** [BotDatabase] as the handlers see it: an sqlite error is raised when
    the storage is down *)

Definition db_get_message (W : World) (chat_id : Z) (message_type : string)
    : M (option string * option string) :=
  if storage_up W then read (fun b => BotDatabase.get_message (settings b) chat_id message_type)
  else raise.

Definition db_set_message (W : World) (chat_id : Z) (message_type content : string)
    (image_path : option string) : M unit :=
  if storage_up W
  then modify (fun b => set_settings (BotDatabase.set_message (settings b) chat_id message_type content image_path) b)
  else raise.

Definition db_delete_settings (W : World) (chat_id : Z) : M unit :=
  if storage_up W
  then modify (fun b => set_settings (BotDatabase.delete_settings (settings b) chat_id) b)
  else raise.

(** ** Default messages *)

Definition default_leave : string :=
"<b>Awww… {username}, you're leaving?</b>

Well, it was <i>cute</i> while it lasted. Byeee~ 💋

I'm gonna miss you sooo much~ 💔 <i>(not really)</i>
But don’t come back crawling and crying afterwards.😘".

Definition default_kick : string :=
"<b>Oh? {username} got the boot? 👢</b>

Well, well, well... someone couldn’t behave~ 😏

<u>Bye bye~</u>
<b>You earned it, b*tch.</b> 😘
<i>Teehee~ 💋</i>".

Definition default_ban : string :=
"<b>Ooopsie! Thehehe... {username} got banned?!</b> 😢

I’m <i>devastated.</i> Truly.
Like… I’m totally gonna cry about it later… maybe… not. 💅

<i>Well, well... <u>that’s what happens when you don’t follow the rules~</u></i> 😤
<b>Gonna miss you sooo much…</b>
<i>Hihi~ 💋🖤</i> <b>no.</b> 😘💋".

(** The dict returned by [get_default_messages()], as a lookup. *)
Definition get_default_messages (message_type : string) : option string :=
  if decide (message_type = "leave") then Some default_leave
  else if decide (message_type = "kick") then Some default_kick
  else if decide (message_type = "ban") then Some default_ban
  else None.

(** ** Menu controller *)

Definition is_chat_admin (W : World) (chat_id user_id : Z) : bool :=
  match get_chat_member W chat_id user_id with
  | MemberError => false
  | MemberHttp status_code ok status =>
      if status_code =? 200
      then if ok then bool_decide (status = Some "creator" \/ status = Some "administrator")
           else false
      else false
  end.

Definition button (text data : string) : list Button :=
  [ {| button_text := text; callback_data := data |} ].

Definition settings_keyboard : list (list Button) :=
  [ button "📝 Edit Leave Message" "edit_leave";
    button "👢 Edit Kick Message" "edit_kick";
    button "🚫 Edit Ban Message" "edit_ban";
    button "🖼️ Change Leave Image" "image_leave";
    button "🖼️ Change Kick Image" "image_kick";
    button "🖼️ Change Ban Image" "image_ban";
    button "🔄 Reset to Default" "reset_default" ].

Definition settings_text : string :=
"⚙️ <b>Farewell Bot Settings</b>

Choose what you'd like to customize:".

Definition denial_text : string := "❌ Only group administrators can access settings.".

Definition back_keyboard : list (list Button) :=
  [ button "◀️ Back to Settings" "back_to_menu" ].

Definition newline : string := String "010" "".

Definition handle_settings_command (W : World) (chat_id user_id : Z) (message_id : option Z)
    : M unit :=
  if negb (is_chat_admin W chat_id user_id)
  then do _ <- TelegramBot.send_message W chat_id denial_text; ret tt
  else do _ <- TelegramBot.send_inline_keyboard W chat_id settings_text settings_keyboard; ret tt.

Definition handle_settings_command_edit (W : World) (chat_id user_id : Z) (message_id : option Z)
    : M unit :=
  do _ <- TelegramBot.edit_message W chat_id message_id settings_text settings_keyboard; ret tt.

(** [bot.user_states[user_id] = {...}] *)
Definition set_user_state (user_id : Z) (state : UserState) : M unit :=
  modify (fun b => set_user_states (<[user_id := state]> (user_states b)) b).

(** [del bot.user_states[user_id]], a [KeyError] when there is no entry. *)
Definition del_user_state (user_id : Z) : M unit :=
  fun b => match user_states b !! user_id with
           | Some _ => (Returned tt, set_user_states (delete user_id (user_states b)) b)
           | None => (Raised, b)
           end.

(** [data.split('_')[1]], an [IndexError] when there is no second piece. *)
Definition second_piece (data : string) : M string :=
  match PyStr.split "_" data with
  | _ :: piece :: _ => ret piece
  | _ => raise
  end.

Definition edit_prompt (message_type current_message : string) : string :=
  "📝 <b>Edit " +:+ PyStr.title message_type +:+ " Message</b>" +:+ newline +:+ newline +:+
  "<i>Current message:</i>" +:+ newline +:+ current_message +:+ newline +:+ newline +:+
  "💬 Send me the new message you want to use:".

Definition image_prompt (message_type : string) : string :=
  "🖼️ <b>Change " +:+ PyStr.title message_type +:+ " Image</b>" +:+ newline +:+ newline +:+
  "📷 Send me a photo that you want to use for " +:+ message_type +:+ " messages." +:+
  newline +:+ newline +:+ "Supported formats: JPG, PNG, GIF".

Definition reset_text : string :=
"✅ <b>Settings Reset</b>

All messages and images have been reset to default values.".

Definition handle_callback_query (W : World) (update : Update) : M unit :=
  try_except
    match upd_callback_query update with
    | None => ret tt
    | Some callback =>
        let message_id := cb_message_id callback in
        let data := default "" (cb_data callback) in
        let callback_id := cb_id callback in
        match usable_id (cb_chat_id callback), usable_id (cb_from_id callback) with
        | Some chat_id, Some user_id =>
            do _ <- TelegramBot.answer_callback_query W callback_id "";
            if negb (is_chat_admin W chat_id user_id)
            then do _ <- TelegramBot.answer_callback_query W callback_id "Only admins can change settings!";
                 ret tt
            else if PyStr.startswith "edit_" data then
              do message_type <- second_piece data;
              do '(current_message, _) <- db_get_message W chat_id message_type;
              let current_message :=
                match current_message with
                | Some m => if PyStr.truthy m then m
                            else default "Default message" (get_default_messages message_type)
                | None => default "Default message" (get_default_messages message_type)
                end in
              do _ <- TelegramBot.edit_message W chat_id message_id
                        (edit_prompt message_type current_message) back_keyboard;
              set_user_state user_id
                {| action := edit_message; message_type := message_type;
                   state_chat_id := chat_id |}
            else if PyStr.startswith "image_" data then
              do message_type <- second_piece data;
              do _ <- TelegramBot.edit_message W chat_id message_id
                        (image_prompt message_type) back_keyboard;
              set_user_state user_id
                {| action := upload_image; message_type := message_type;
                   state_chat_id := chat_id |}
            else if decide (data = "reset_default") then
              do _ <- db_delete_settings W chat_id;
              do _ <- TelegramBot.edit_message W chat_id message_id reset_text back_keyboard;
              ret tt
            else if decide (data = "back_to_menu") then
              handle_settings_command_edit W chat_id user_id message_id
            else ret tt
        | _, _ => ret tt
        end
    end.

(** ** Conversation state machine: [handle_user_input] and [handle_message] *)

Definition message_updated_text (message_type formatted_text : string) : string :=
  "✅ <b>" +:+ PyStr.title message_type +:+ " message updated!</b>" +:+ newline +:+ newline +:+
  "<i>New message:</i>" +:+ newline +:+ formatted_text.

Definition image_updated_text (message_type : string) : string :=
  "✅ <b>" +:+ PyStr.title message_type +:+ " image updated!</b>" +:+ newline +:+ newline +:+
  "📷 New image has been saved and will be used for " +:+ message_type +:+ " messages.".

(** [f"images/{message_type}_{chat_id}_{filename}"] *)
Definition image_path_for (message_type : string) (chat_id : Z) (filename : string) : string :=
  "images/" +:+ message_type +:+ "_" +:+ pretty chat_id +:+ "_" +:+ filename.

(** [current_message or get_default_messages().get(message_type, "")] *)
Definition template_to_keep (current_message : option string) (message_type : string) : string :=
  match current_message with
  | Some m => if PyStr.truthy m then m else default "" (get_default_messages message_type)
  | None => default "" (get_default_messages message_type)
  end.

(** The [upload_image] branch up to, and without, the final [del]. *)
Definition receive_photo (W : World) (chat_id : Z) (state : UserState) (message : Message)
    : M unit :=
  match msg_photo message with
  | Some photos =>
      match last photos with
      | None => raise
      | Some photo =>
          match photo_file_id photo with
          | Some file_id =>
              if PyStr.truthy file_id then
                do '(file_content, filename) <- TelegramBot.download_file W file_id;
                match file_content with
                | Some ((_ :: _) as file_content) =>
                    let message_type := message_type state in
                    let image_path := image_path_for message_type chat_id (default "" filename) in
                    do _ <- write_file W image_path file_content;
                    do '(current_message, _) <- db_get_message W chat_id message_type;
                    do _ <- db_set_message W chat_id message_type
                              (template_to_keep current_message message_type) (Some image_path);
                    do _ <- TelegramBot.send_inline_keyboard W chat_id
                              (image_updated_text message_type) back_keyboard;
                    ret tt
                | _ =>
                    do _ <- TelegramBot.send_message W chat_id
                              "❌ Failed to download image. Please try again.";
                    ret tt
                end
              else do _ <- TelegramBot.send_message W chat_id "❌ No image found. Please send a photo.";
                   ret tt
          | None =>
              do _ <- TelegramBot.send_message W chat_id "❌ No image found. Please send a photo.";
              ret tt
          end
      end
  | None =>
      do _ <- TelegramBot.send_message W chat_id "❌ Please send a photo, not text."; ret tt
  end.

(** The body of the [try] block of [handle_user_input]. *)
Definition handle_user_input_body (W : World) (chat_id user_id : Z) (text : string)
    (message : Message) : M unit :=
  do state <- read (fun b => user_states b !! user_id);
  match state with
  | None => ret tt
  | Some state =>
      match action state with
      | edit_message =>
          let entities := default [] (msg_entities message) in
          let formatted_text := parse_message_entities text entities in
          let message_type := message_type state in
          do _ <- db_set_message W chat_id message_type formatted_text None;
          do _ <- TelegramBot.send_inline_keyboard W chat_id
                    (message_updated_text message_type formatted_text) back_keyboard;
          del_user_state user_id
      | upload_image =>
          do _ <- receive_photo W chat_id state message;
          del_user_state user_id
      end
  end.

Definition handle_user_input (W : World) (chat_id user_id : Z) (text : string)
    (message : Message) : M unit :=
  try_except (handle_user_input_body W chat_id user_id text message).

Definition handle_message (W : World) (update : Update) : M unit :=
  try_except
    match upd_message update with
    | None => ret tt
    | Some message =>
        let text := default "" (msg_text message) in
        match usable_id (msg_chat_id message), usable_id (msg_from_id message) with
        | Some chat_id, Some user_id =>
            if bool_decide (text = "/edit" \/ text = "/edit@Yukira")
            then handle_settings_command W chat_id user_id (msg_message_id message)
            else
              do pending <- read (fun b => bool_decide (is_Some (user_states b !! user_id)));
              if (pending : bool) then handle_user_input W chat_id user_id text message
              else ret tt
        | _, _ => ret tt
        end
    end.

(** ** Event classifier and notifier: [handle_chat_member_update] *)

Definition empty_member : ChatMember :=
  {| cm_status := None; cm_user := None; cm_until_date := None |}.

(** The status test [status in [...]] *)
Definition status_in (status : option string) (allowed : list string) : bool :=
  match status with
  | Some s => bool_decide (s ∈ allowed)
  | None => false
  end.

(** Lines 561-573: the message type for a member who is gone. *)
Definition classify_status (new_member : ChatMember) : string :=
  let status := cm_status new_member in
  if decide (status = Some "left") then "leave"
  else if decide (status = Some "kicked") then
    let until_date := default 0 (cm_until_date new_member) in
    if (until_date =? 0) || (until_date >? 2147483647) then "ban" else "kick"
  else "kick".

(** Lines 544-573: the event, if any, that a membership change gives rise
    to: the chat, the user who is gone and the message type. *)
Definition classify (chat_member_update : ChatMemberUpdated) : option (Z * User * string) :=
  let old_member := default empty_member (cmu_old_chat_member chat_member_update) in
  let new_member := default empty_member (cmu_new_chat_member chat_member_update) in
  if negb (status_in (cm_status old_member) ["member"; "administrator"; "creator"]) then None
  else if status_in (cm_status new_member) ["left"; "kicked"; "banned"] then
    match cm_user old_member, usable_id (cmu_chat_id chat_member_update) with
    | Some user, Some chat_id => Some (chat_id, user, classify_status new_member)
    | _, _ => None
    end
  else None.

(** Lines 575-582: [@username], or the stripped full name. *)
Definition display_name (user : User) : string :=
  let full_name :=
    PyStr.strip (default "" (user_first_name user) +:+ " " +:+ default "" (user_last_name user)) in
  match user_username user with
  | Some username => if PyStr.truthy username then "@" +:+ username else full_name
  | None => full_name
  end.

Definition default_image : string := "assets/farewell_anime.svg".

Section Notifier.

(** [template.format(username=username)] of the Python runtime: the
    formatted text, or [None] when [str.format] raises. *)
Variable str_format : string -> string -> option string.

Definition format_username (template username : string) : M string :=
  match str_format template username with
  | Some message_text => ret message_text
  | None => raise
  end.

(** Lines 584-589: the text to send. *)
Definition resolve_text (custom_message : option string) (message_type username : string)
    : M string :=
  let use_default :=
    match get_default_messages message_type with
    | Some template => format_username template username
    | None => raise
    end in
  match custom_message with
  | Some template =>
      if PyStr.truthy template then format_username template username else use_default
  | None => use_default
  end.

(** Lines 593-613: image first, then the default image, then text only. *)
Definition deliver (W : World) (chat_id : Z) (custom_image : option string)
    (message_text : string) : M unit :=
  do image_sent <-
    match custom_image with
    | Some path =>
        if PyStr.truthy path then
          do present <- path_exists path;
          if (present : bool) then
            do result <- TelegramBot.send_photo W chat_id path message_text;
            ret (acknowledged result)
          else ret false
        else ret false
    | None => ret false
    end;
  do image_sent <-
    if (image_sent : bool) then ret true
    else
      do present <- path_exists default_image;
      if (present : bool) then
        do result <- TelegramBot.send_photo W chat_id default_image message_text;
        ret (acknowledged result)
      else ret false;
  if (image_sent : bool) then ret tt
  else do _ <- TelegramBot.send_message W chat_id message_text; ret tt.

(** Lines 575-613. *)
Definition notify (W : World) (chat_id : Z) (user : User) (message_type : string) : M unit :=
  let username := display_name user in
  do '(custom_message, custom_image) <- db_get_message W chat_id message_type;
  do message_text <- resolve_text custom_message message_type username;
  deliver W chat_id custom_image message_text.

Definition handle_chat_member_update (W : World) (update : Update) : M unit :=
  try_except
    match upd_chat_member update with
    | None => ret tt
    | Some chat_member_update =>
        match classify chat_member_update with
        | Some (chat_id, user, message_type) => notify W chat_id user message_type
        | None => ret tt
        end
    end.

(** One turn of the loop of [main]: an update goes to the first handler
    whose key it has. *)
Definition process_update (W : World) (update : Update) : M unit :=
  match upd_chat_member update, upd_message update, upd_callback_query update with
  | Some _, _, _ => handle_chat_member_update W update
  | None, Some _, _ => handle_message W update
  | None, None, Some _ => handle_callback_query W update
  | None, None, None => ret tt
  end.

(** The loop of [main] over the updates it receives, each one in the
    world of its time. *)
Fixpoint process_all (events : list (World * Update)) (b : Bot) : Bot :=
  match events with
  | [] => b
  | (W, update) :: rest => process_all rest (run (process_update W update) b)
  end.

End Notifier.

(** A [str.format] for templates whose replacement fields are all the plain
    [{username}]: two braces in a row stand for one, and any other use of a
    brace raises. *)
Fixpoint simple_format (template username : string) : option string :=
  match template with
  | "" => Some ""
  | String "{" (String "{" rest) => String "{" <$> simple_format rest username
  | String "}" (String "}" rest) => String "}" <$> simple_format rest username
  | String "{" (String "u" (String "s" (String "e" (String "r" (String "n"
      (String "a" (String "m" (String "e" (String "}" rest))))))))) =>
      (fun s => username +:+ s) <$> simple_format rest username
  | String "{" _ => None
  | String "}" _ => None
  | String c rest => String c <$> simple_format rest username
  end.

(** ** Notions used to state the properties *)

(** In the order in which the loop takes the spans, a span lies wholly
    before the ones taken earlier. *)
Definition follows (earlier later : Entity) : Prop :=
  span_end later <= get_offset earlier.

(** Spans that do not overlap and start at different positions. *)
Definition apart (a b : Entity) : Prop :=
  non_overlapping a b /\ get_offset a <> get_offset b.

Definition span (kind : string) (offset length : Z) : Entity :=
  {| ent_type := Some kind; ent_offset := Some offset; ent_length := Some length |}.

(** A bold span over the whole of [text]. *)
Definition bold_whole (text : string) : Entity := span "bold" 0 (PyStr.len text).

(** The three inputs of the classifier, as the handler reads them. *)
Definition old_status (u : ChatMemberUpdated) : option string :=
  cm_status (default empty_member (cmu_old_chat_member u)).
Definition new_status (u : ChatMemberUpdated) : option string :=
  cm_status (default empty_member (cmu_new_chat_member u)).
Definition until_timestamp (u : ChatMemberUpdated) : Z :=
  default 0 (cm_until_date (default empty_member (cmu_new_chat_member u))).

(** The kind of the event a membership change gives rise to, if any. *)
Definition event_kind (u : ChatMemberUpdated) : option string :=
  match classify u with
  | Some (_, _, message_type) => Some message_type
  | None => None
  end.

(** The template the notifier is expected to use: the custom one when there
    is one and it is not empty, else the default of the message type. *)
Definition effective_template (custom_message : option string) (message_type : string)
    : option string :=
  match custom_message with
  | Some template => if PyStr.truthy template then Some template
                     else get_default_messages message_type
  | None => get_default_messages message_type
  end.

Definition on_disk (b : Bot) (path : string) : bool :=
  bool_decide (is_Some (files b !! path)).

(** The requests the notifier is expected to make, in order: the custom
    image with the caption when there is one on disk; unless that was
    acknowledged, the default image with the caption when it is on disk;
    unless that was acknowledged, the text alone. *)
Definition delivery_attempts (W : World) (b : Bot) (chat_id : Z)
    (custom_image : option string) (message_text : string) : list Outbound :=
  let custom_attempt :=
    match custom_image with
    | Some path => if PyStr.truthy path && on_disk b path
                   then [SendPhoto chat_id path message_text] else []
    | None => []
    end in
  let default_attempt :=
    if on_disk b default_image then [SendPhoto chat_id default_image message_text] else [] in
  let succeeded (attempt : list Outbound) :=
    existsb (fun request => acknowledged (gateway W request)) attempt in
  if succeeded custom_attempt then custom_attempt
  else if succeeded default_attempt then custom_attempt ++ default_attempt
  else custom_attempt ++ default_attempt ++ [SendMessage chat_id message_text].

(** The same order of requests, with the success of an image request read
    off the answer of the gateway itself: an image request has succeeded
    when, and only when, the gateway answers it with the flag [ok] set. A
    stored image is tried when its path is not empty and the file exists;
    the default image is tried, unless the stored one succeeded, when its
    file exists; the text alone goes out unless an image succeeded. *)
Definition farewell_requests (W : World) (b : Bot) (chat_id : Z)
    (custom_image : option string) (caption : string) : list Outbound :=
  let ok_set (request : Outbound) := bool_decide (gateway W request = Some true) in
  let custom_photo :=
    match custom_image with
    | Some path => if PyStr.truthy path && on_disk b path
                   then [SendPhoto chat_id path caption] else []
    | None => []
    end in
  let default_photo :=
    if on_disk b default_image then [SendPhoto chat_id default_image caption] else [] in
  if existsb ok_set custom_photo then custom_photo
  else if existsb ok_set default_photo then custom_photo ++ default_photo
  else custom_photo ++ default_photo ++ [SendMessage chat_id caption].

(** Whether handling an input in the given conversation state runs into an
    exception: the storage is down when the template is written; or the
    message has an empty list of photo sizes, the download raises, or the
    disk or the storage is down when the image is saved. *)
Definition input_fails (W : World) (state : UserState) (message : Message) : bool :=
  match action state with
  | edit_message => negb (storage_up W)
  | upload_image =>
      match msg_photo message with
      | None => false
      | Some photos =>
          match last photos with
          | None => true
          | Some photo =>
              match photo_file_id photo with
              | None => false
              | Some file_id =>
                  if PyStr.truthy file_id then
                    match get_file W file_id with
                    | FileError => true
                    | FileUnavailable => false
                    | FileContent [] _ => false
                    | FileContent (_ :: _) _ => negb (disk_up W) || negb (storage_up W)
                    end
                  else false
              end
          end
      end
  end.

(** A message is the settings command. *)
Definition is_command (text : string) : Prop := text = "/edit" \/ text = "/edit@Yukira".

(** The text of a message as [handle_message] reads it. *)
Definition text_of (message : Message) : string := default "" (msg_text message).

(** A handler step that keeps the primary key of the settings table. *)
Definition keeps_primary_key {A} (m : M A) : Prop :=
  forall b, BotDatabase.primary_key_ok (settings b) ->
            BotDatabase.primary_key_ok (settings (snd (m b))).

(** ** Sample data used in the examples *)

(** A membership change of a known user in chat [-100]. *)
Definition transition (old new : string) (until_date : option Z) : ChatMemberUpdated :=
  {| cmu_chat_id := Some (-100);
     cmu_old_chat_member :=
       Some {| cm_status := Some old;
               cm_user := Some {| user_username := Some "theirhandle";
                                  user_first_name := Some "Their";
                                  user_last_name := None |};
               cm_until_date := None |};
     cmu_new_chat_member :=
       Some {| cm_status := Some new; cm_user := None; cm_until_date := until_date |} |}.

(** A world where everything works and the user is an administrator. *)
Definition sample_world : World :=
  {| gateway := fun _ => Some true;
     get_chat_member := fun _ _ => MemberHttp 200 true (Some "administrator");
     get_file := fun _ => FileContent [Byte.x89; Byte.x50] "photos/file_0.jpg";
     storage_up := true;
     disk_up := true |}.

(** The same world, except for what [download_file] does. *)
Definition world_with_download (reply : FileReply) : World :=
  {| gateway := gateway sample_world;
     get_chat_member := get_chat_member sample_world;
     get_file := fun _ => reply;
     storage_up := true;
     disk_up := true |}.

(** A world where the user is an ordinary member. *)
Definition member_world : World :=
  {| gateway := gateway sample_world;
     get_chat_member := fun _ _ => MemberHttp 200 true (Some "member");
     get_file := get_file sample_world;
     storage_up := true;
     disk_up := true |}.

Definition fresh_bot : Bot :=
  {| settings := []; user_states := ∅; files := ∅; outbox := [] |}.

(** A bot with one settings row and one user in a conversation. *)
Definition bot_with (row : list BotDatabase.Row) (user_id : Z) (state : UserState) : Bot :=
  {| settings := row; user_states := {[ user_id := state ]}; files := ∅; outbox := [] |}.

Definition awaiting_text : UserState :=
  {| action := edit_message; message_type := "leave"; state_chat_id := -100 |}.
Definition awaiting_photo : UserState :=
  {| action := upload_image; message_type := "leave"; state_chat_id := -100 |}.

Definition leave_row (content : string) (image_path : option string) : BotDatabase.Row :=
  {| BotDatabase.row_chat_id := -100; BotDatabase.row_setting_type := "leave";
     BotDatabase.row_content := content; BotDatabase.row_image_path := image_path |}.

(** A text message and a photo message of user 7 in chat [-100]. *)
Definition text_message (text : string) : Message :=
  {| msg_chat_id := Some (-100); msg_from_id := Some 7; msg_text := Some text;
     msg_message_id := Some 41; msg_entities := None; msg_photo := None |}.
Definition photo_message : Message :=
  {| msg_chat_id := Some (-100); msg_from_id := Some 7; msg_text := None;
     msg_message_id := Some 42; msg_entities := None;
     msg_photo := Some [ {| photo_file_id := Some "small" |};
                         {| photo_file_id := Some "large" |} ] |}.
Definition update_of (message : Message) : Update :=
  {| upd_update_id := Some 1; upd_chat_member := None; upd_message := Some message;
     upd_callback_query := None |}.

(** A press of a button of the menu by user 7 in chat [-100]. *)
Definition button_press (data : string) : Update :=
  {| upd_update_id := Some 2; upd_chat_member := None; upd_message := None;
     upd_callback_query :=
       Some {| cb_id := Some "query"; cb_from_id := Some 7; cb_chat_id := Some (-100);
               cb_message_id := Some 40; cb_data := Some data |} |}.

(** A row of another chat. *)
Definition other_row : BotDatabase.Row :=
  {| BotDatabase.row_chat_id := -200; BotDatabase.row_setting_type := "ban";
     BotDatabase.row_content := "Out, {username}."; BotDatabase.row_image_path := None |}.

(** A world whose gateway does not acknowledge photos. *)
Definition no_photo_world : World :=
  {| gateway := fun request =>
                  match request with
                  | SendPhoto _ _ _ => Some false
                  | _ => Some true
                  end;
     get_chat_member := get_chat_member sample_world;
     get_file := get_file sample_world;
     storage_up := true;
     disk_up := true |}.

(** The user [@theirhandle] leaves chat [-100]. *)
Definition leave_update : Update :=
  {| upd_update_id := Some 3; upd_chat_member := Some (transition "member" "left" None);
     upd_message := None; upd_callback_query := None |}.
Definition their_user : User :=
  {| user_username := Some "theirhandle"; user_first_name := Some "Their";
     user_last_name := None |}.

(** A bot with a custom leave message and both images on disk. *)
Definition customised_bot : Bot :=
  {| settings := [leave_row "Bye {username}" (Some "images/leave_-100_file_0.jpg")];
     user_states := ∅;
     files := {[ "images/leave_-100_file_0.jpg" := [Byte.x89];
                 "assets/farewell_anime.svg" := [Byte.x3c] ]};
     outbox := [] |}.

(** ** Notions used to state the further properties *)

(** The kinds of entity the formatter marks up. *)
Definition supported (kind : option string) : Prop :=
  kind = Some "bold" \/ kind = Some "italic" \/ kind = Some "underline"
  \/ kind = Some "strikethrough" \/ kind = Some "code".

(** The number of characters the tags of an entity add. *)
Definition tag_length (e : Entity) : Z :=
  PyStr.len (fst (tags (ent_type e))) + PyStr.len (snd (tags (ent_type e))).


(** The template the edit prompt shows as the current one. *)
Definition shown_template (table : list BotDatabase.Row) (chat_id : Z) (message_type : string)
    : string :=
  default "Default message"
    (effective_template (fst (BotDatabase.get_message table chat_id message_type))
       message_type).

(** Strings of ASCII characters only. The casing of [PyStr.title] is that
    of [str.title] on these; on other letters Python follows the Unicode
    tables, which [PyStr.title] does not. *)
Definition ascii_only (s : string) : Prop :=
  Forall (fun c => (nat_of_ascii c < 128)%nat) (list_ascii_of_string s).

(** A bot whose stored leave template is the empty string, as a photo sent
    in the awaiting-text state leaves it. *)
Definition emptied_bot : Bot :=
  {| settings := [leave_row "" None]; user_states := ∅; files := ∅; outbox := [] |}.

(** A bot whose stored leave template names a placeholder that
    [str.format] is not given. *)
Definition misnamed_bot : Bot :=
  {| settings := [leave_row "Bye {name}" None]; user_states := ∅; files := ∅;
     outbox := [] |}.

(** A world in which the storage is down. *)
Definition storage_down_world : World :=
  {| gateway := gateway sample_world;
     get_chat_member := get_chat_member sample_world;
     get_file := get_file sample_world;
     storage_up := false;
     disk_up := true |}.


(** The callback query inside [button_press]. *)
Definition pressed (data : string) : CallbackQuery :=
  {| cb_id := Some "query"; cb_from_id := Some 7; cb_chat_id := Some (-100);
     cb_message_id := Some 40; cb_data := Some data |}.


(** The reply with which an input in the awaiting-photo state is turned
    down, if it is: the message has no photo, the largest photo has no file
    id, or the download gives nothing. *)
Definition rejection (W : World) (message : Message) : option string :=
  match msg_photo message with
  | None => Some "❌ Please send a photo, not text."
  | Some photos =>
      match last photos with
      | None => None
      | Some photo =>
          match photo_file_id photo with
          | None => Some "❌ No image found. Please send a photo."
          | Some file_id =>
              if PyStr.truthy file_id then
                match get_file W file_id with
                | FileUnavailable | FileContent [] _ =>
                    Some "❌ Failed to download image. Please try again."
                | _ => None
                end
              else Some "❌ No image found. Please send a photo."
          end
      end
  end.


(** ** The [admins] table of [BotDatabase]

    The column [added_at] is never read and is left out. *)

Module AdminTable.

Record AdminRow := {
  admin_chat_id : Z;
  admin_user_id : Z
}.

Definition is_row (chat_id user_id : Z) (r : AdminRow) : bool :=
  bool_decide (admin_chat_id r = chat_id /\ admin_user_id r = user_id).

(** [INSERT OR IGNORE INTO admins (chat_id, user_id)]: a row that conflicts
    on the primary key is not inserted. *)
Definition add_admin (table : list AdminRow) (chat_id user_id : Z) : list AdminRow :=
  if existsb (is_row chat_id user_id) table then table
  else table ++ [ {| admin_chat_id := chat_id; admin_user_id := user_id |} ].

(** [SELECT 1 FROM admins WHERE chat_id = ? AND user_id = ?] and
    [result is not None]. *)
Definition is_admin (table : list AdminRow) (chat_id user_id : Z) : bool :=
  match List.find (is_row chat_id user_id) table with
  | Some _ => true
  | None => false
  end.

End AdminTable.

(** The user a message or a button press comes from. *)
Definition sender (update : Update) : option Z :=
  match upd_chat_member update, upd_message update, upd_callback_query update with
  | Some _, _, _ => None
  | None, Some message, _ => usable_id (msg_from_id message)
  | None, None, Some callback => usable_id (cb_from_id callback)
  | None, None, None => None
  end.

(** A handler step that leaves the conversation states of all users but
    [user_id] as they are. *)
Definition touches_only (user_id : option Z) {A} (m : M A) : Prop :=
  forall b v, Some v <> user_id -> user_states (snd (m b)) !! v = user_states b !! v.

(** The characters of a string. *)
Definition has_char (c : ascii) (s : string) : Prop := In c (list_ascii_of_string s).


(** A text message of user 7 in chat [-200]. *)
Definition text_message_elsewhere (text : string) : Message :=
  {| msg_chat_id := Some (-200); msg_from_id := Some 7; msg_text := Some text;
     msg_message_id := Some 43; msg_entities := None; msg_photo := None |}.

(** A world where the user is an administrator of chat [-100] only. *)
Definition admin_of_one_chat_world : World :=
  {| gateway := gateway sample_world;
     get_chat_member := fun chat_id _ =>
       MemberHttp 200 true (Some (if chat_id =? -100 then "administrator" else "member"));
     get_file := get_file sample_world;
     storage_up := true;
     disk_up := true |}.


(** * Verification *)

(** ** Settings store *)

Module BotDatabaseFacts.
Import BotDatabase.

Lemma find_app_l {A} (f : A -> bool) (l1 l2 : list A) :
  List.find f (l1 ++ l2) =
  match List.find f l1 with Some x => Some x | None => List.find f l2 end.
Proof.
  induction l1 as [|x l1 IH]; simpl; [reflexivity|].
  destruct (f x); [reflexivity|exact IH].
Qed.

Lemma find_filter_none {A} (f : A -> bool) (l : list A) :
  List.find f (List.filter (fun x => negb (f x)) l) = None.
Proof.
  induction l as [|x l IH]; simpl; [reflexivity|].
  destruct (f x) eqn:E; simpl; [exact IH|]. rewrite E. exact IH.
Qed.

Lemma find_filter_keep {A} (f g : A -> bool) (l : list A) :
  (forall x, f x = true -> g x = true) ->
  List.find f (List.filter g l) = List.find f l.
Proof.
  intros Hfg. induction l as [|x l IH]; simpl; [reflexivity|].
  destruct (f x) eqn:Ef.
  - rewrite (Hfg x Ef). simpl. rewrite Ef. reflexivity.
  - destruct (g x); simpl; [rewrite Ef|]; exact IH.
Qed.

Lemma has_key_true chat_id message_type r :
  has_key chat_id message_type r = true <-> row_key r = (chat_id, message_type).
Proof.
  unfold has_key, row_key. rewrite bool_decide_eq_true. split.
  - intros [-> ->]. reflexivity.
  - intros H. injection H as -> ->. split; reflexivity.
Qed.

Lemma has_key_other c k c' k' r :
  (c, k) <> (c', k') -> has_key c' k' r = true -> negb (has_key c k r) = true.
Proof.
  intros Hne H. apply has_key_true in H.
  destruct (has_key c k r) eqn:E; [|reflexivity].
  apply has_key_true in E. congruence.
Qed.

(** Reading back the key that was just written. *)
Lemma get_set_same table chat_id message_type content image_path :
  get_message (set_message table chat_id message_type content image_path)
    chat_id message_type = (Some content, image_path).
Proof.
  unfold get_message, set_message. rewrite find_app_l, find_filter_none. simpl.
  unfold has_key at 1. simpl. rewrite bool_decide_eq_true_2 by (split; reflexivity).
  reflexivity.
Qed.

(** A write leaves every other key as it was. *)
Lemma get_set_other table c k content image_path c' k' :
  (c, k) <> (c', k') ->
  get_message (set_message table c k content image_path) c' k' = get_message table c' k'.
Proof.
  intros Hne. unfold get_message, set_message. rewrite find_app_l.
  rewrite (find_filter_keep (has_key c' k') (fun r => negb (has_key c k r)))
    by (intros r; apply has_key_other; exact Hne).
  destruct (List.find (has_key c' k') table); [reflexivity|]. simpl.
  destruct (has_key c' k' _) eqn:E; [|reflexivity].
  apply has_key_true in E. unfold row_key in E. simpl in E. congruence.
Qed.

Lemma get_absent table chat_id message_type :
  (chat_id, message_type) ∉ List.map row_key table ->
  get_message table chat_id message_type = (None, None).
Proof.
  intros Hnot. unfold get_message.
  destruct (List.find (has_key chat_id message_type) table) as [r|] eqn:E; [|reflexivity].
  apply List.find_some in E as [Hin Hk]. apply has_key_true in Hk.
  exfalso. apply Hnot. rewrite <- Hk. apply list_elem_of_In, List.in_map, Hin.
Qed.

Lemma get_present table chat_id message_type content image_path :
  get_message table chat_id message_type = (Some content, image_path) ->
  (chat_id, message_type) ∈ List.map row_key table.
Proof.
  unfold get_message.
  destruct (List.find (has_key chat_id message_type) table) as [r|] eqn:E; [|discriminate].
  intros _. apply List.find_some in E as [Hin Hk]. apply has_key_true in Hk.
  rewrite <- Hk. apply list_elem_of_In, List.in_map, Hin.
Qed.

Lemma keys_filter (f : Row -> bool) table key :
  List.In key (List.map row_key (List.filter f table)) -> List.In key (List.map row_key table).
Proof.
  rewrite !List.in_map_iff. intros (r & <- & Hin).
  apply List.filter_In in Hin as [Hin _]. eauto.
Qed.

Lemma primary_key_filter (f : Row -> bool) table :
  primary_key_ok table -> primary_key_ok (List.filter f table).
Proof.
  unfold primary_key_ok. induction table as [|r table IH]; simpl; [auto|].
  intros H. apply NoDup_cons in H as [Hr Hrest]. destruct (f r); simpl; [|auto].
  apply NoDup_cons. split; [|auto].
  intros Hin. apply Hr. apply list_elem_of_In. apply list_elem_of_In in Hin.
  eapply keys_filter, Hin.
Qed.

(** [INSERT OR REPLACE] keeps the primary key unique. *)
Lemma primary_key_set_message table chat_id message_type content image_path :
  primary_key_ok table ->
  primary_key_ok (set_message table chat_id message_type content image_path).
Proof.
  intros H. unfold primary_key_ok, set_message. rewrite List.map_app. simpl.
  apply NoDup_app. split; [apply (primary_key_filter _ _ H)|]. split.
  - intros key Hin Hnew. apply list_elem_of_In in Hin.
    apply List.in_map_iff in Hin as (r & Hkey & Hin).
    apply List.filter_In in Hin as [_ Hneg]. apply list_elem_of_singleton in Hnew.
    subst key. unfold row_key at 2 in Hnew. simpl in Hnew.
    apply has_key_true in Hnew. rewrite Hnew in Hneg. discriminate.
  - apply NoDup_singleton.
Qed.

Lemma primary_key_delete_settings table chat_id :
  primary_key_ok table -> primary_key_ok (delete_settings table chat_id).
Proof. apply primary_key_filter. Qed.

Lemma elem_of_delete_settings table chat_id r :
  r ∈ delete_settings table chat_id <-> r ∈ table /\ row_chat_id r <> chat_id.
Proof.
  unfold delete_settings. rewrite !list_elem_of_In, List.filter_In.
  rewrite negb_true_iff, bool_decide_eq_false. reflexivity.
Qed.

Lemma get_delete_same table chat_id message_type :
  get_message (delete_settings table chat_id) chat_id message_type = (None, None).
Proof.
  unfold get_message.
  destruct (List.find _ _) as [r|] eqn:E; [|reflexivity].
  apply List.find_some in E as [Hin Hk]. apply list_elem_of_In in Hin.
  apply elem_of_delete_settings in Hin as [_ Hne].
  apply has_key_true in Hk. unfold row_key in Hk. congruence.
Qed.

Lemma get_delete_other table chat_id c message_type :
  c <> chat_id ->
  get_message (delete_settings table chat_id) c message_type = get_message table c message_type.
Proof.
  intros Hne. unfold get_message, delete_settings.
  rewrite find_filter_keep; [reflexivity|].
  intros r Hk. apply has_key_true in Hk. unfold row_key in Hk.
  rewrite negb_true_iff, bool_decide_eq_false. congruence.
Qed.

End BotDatabaseFacts.

(** C7. Round trip of the settings store: after [set_message] with no image,
    [get_message] on the same chat and message type returns the template and
    no image; and [get_message] on a key that has no row returns
    [(None, None)]. *)
Theorem settings_round_trip :
  forall (table : list BotDatabase.Row) (chat_id : Z) (message_type template : string),
    BotDatabase.get_message
      (BotDatabase.set_message table chat_id message_type template None)
      chat_id message_type = (Some template, None)
    /\ ((chat_id, message_type) ∉ List.map BotDatabase.row_key table ->
        BotDatabase.get_message table chat_id message_type = (None, None)).
Proof.
  intros. split.
  - apply BotDatabaseFacts.get_set_same.
  - apply BotDatabaseFacts.get_absent.
Qed.

(** ** Running the handlers *)

(** Unfolds the monad, so that a handler applied to a bot computes. *)
Ltac run_handler :=
  unfold run, try_except, bind, ret, raise, read, modify,
    TelegramBot.send_message, TelegramBot.send_inline_keyboard,
    TelegramBot.answer_callback_query, TelegramBot.edit_message, TelegramBot.post,
    db_get_message, db_set_message, db_delete_settings; simpl.

(** C8. Resetting a chat: when an administrator presses [reset_default] and
    the storage works, the rows of that chat are deleted, so that
    [get_message] returns [(None, None)] for every message type of the chat,
    and the rows of the other chats are as before. *)
Theorem reset_clears_chat :
  forall (W : World) (update : Update) (callback : CallbackQuery) (chat_id user_id : Z) (b : Bot),
    upd_callback_query update = Some callback ->
    usable_id (cb_chat_id callback) = Some chat_id ->
    usable_id (cb_from_id callback) = Some user_id ->
    cb_data callback = Some "reset_default" ->
    is_chat_admin W chat_id user_id = true ->
    storage_up W = true ->
    let b' := run (handle_callback_query W update) b in
    (forall message_type,
        BotDatabase.get_message (settings b') chat_id message_type = (None, None))
    /\ (forall r, r ∈ settings b' <-> r ∈ settings b /\ BotDatabase.row_chat_id r <> chat_id)
    /\ (forall c message_type, c <> chat_id ->
        BotDatabase.get_message (settings b') c message_type =
        BotDatabase.get_message (settings b) c message_type).
Proof.
  intros W update callback chat_id user_id b Hcb Hchat Huser Hdata Hadmin Hup b'.
  assert (Hb' : settings b' = BotDatabase.delete_settings (settings b) chat_id).
  { subst b'. unfold handle_callback_query. rewrite Hcb, Hchat, Huser, Hdata.
    run_handler. rewrite Hadmin, Hup. reflexivity. }
  rewrite Hb'. split; [|split].
  - intros k. apply BotDatabaseFacts.get_delete_same.
  - intros r. apply BotDatabaseFacts.elem_of_delete_settings.
  - intros c k Hne. apply BotDatabaseFacts.get_delete_other, Hne.
Qed.


(** ** Python strings: facts about slices *)

Module PyStrFacts.
Import PyStr.

Lemma app_cons c a b : String c a +:+ b = String c (a +:+ b).
Proof. reflexivity. Qed.

Lemma app_empty_l s : "" +:+ s = s.
Proof. reflexivity. Qed.

Lemma app_empty_r s : s +:+ "" = s.
Proof. induction s as [|c s IH]; [reflexivity|]. rewrite app_cons, IH. reflexivity. Qed.

Lemma app_assoc a b c : (a +:+ b) +:+ c = a +:+ (b +:+ c).
Proof. induction a as [|x a IH]; [reflexivity|]. rewrite !app_cons, IH. reflexivity. Qed.

Lemma length_app a b :
  String.length (a +:+ b) = (String.length a + String.length b)%nat.
Proof. induction a as [|x a IH]; [reflexivity|]. rewrite app_cons. simpl. rewrite IH. reflexivity. Qed.

Lemma take_drop n s : take n s +:+ drop n s = s.
Proof.
  revert s. induction n as [|n IH]; intros [|c s]; simpl; try reflexivity.
  rewrite app_cons, IH. reflexivity.
Qed.

Lemma length_take n s : String.length (take n s) = Nat.min n (String.length s).
Proof.
  revert s. induction n as [|n IH]; intros [|c s]; simpl; try reflexivity.
  rewrite IH. reflexivity.
Qed.

Lemma length_drop n s : String.length (drop n s) = (String.length s - n)%nat.
Proof.
  revert s. induction n as [|n IH]; intros [|c s]; simpl; try reflexivity. apply IH.
Qed.

Lemma take_all n s : (String.length s <= n)%nat -> take n s = s.
Proof.
  revert s. induction n as [|n IH]; intros [|c s]; simpl; intros H; try reflexivity.
  - lia.
  - rewrite IH by lia. reflexivity.
Qed.

Lemma drop_all n s : (String.length s <= n)%nat -> drop n s = "".
Proof.
  revert s. induction n as [|n IH]; intros [|c s]; simpl; intros H; try reflexivity.
  - lia.
  - apply IH. lia.
Qed.

Lemma take_app_le n a b : (n <= String.length a)%nat -> take n (a +:+ b) = take n a.
Proof.
  revert a. induction n as [|n IH]; intros [|c a]; simpl; intros H; try reflexivity.
  - lia.
  - rewrite ?app_cons; simpl. rewrite IH by lia. reflexivity.
Qed.

Lemma drop_app_le n a b : (n <= String.length a)%nat -> drop n (a +:+ b) = drop n a +:+ b.
Proof.
  revert a. induction n as [|n IH]; intros [|c a]; simpl; intros H; try reflexivity.
  - lia.
  - rewrite ?app_cons; simpl. apply IH. lia.
Qed.

Lemma take_take n m s : take n (take m s) = take (Nat.min n m) s.
Proof.
  revert m s. induction n as [|n IH]; intros [|m] [|c s]; simpl; try reflexivity.
  rewrite IH. reflexivity.
Qed.

Lemma drop_take n m s : drop n (take m s) = take (m - n) (drop n s).
Proof.
  revert m s. induction n as [|n IH]; intros [|m] [|c s]; simpl; try reflexivity.
  - destruct (m - n)%nat; reflexivity.
  - apply IH.
Qed.

Lemma take_split n m s :
  (n <= m)%nat -> take m s = take n s +:+ take (m - n) (drop n s).
Proof.
  revert m s. induction n as [|n IH]; intros m [|c s] H; simpl.
  - rewrite Nat.sub_0_r. reflexivity.
  - rewrite Nat.sub_0_r. reflexivity.
  - destruct m as [|m]; [reflexivity|]. destruct (S m - S n)%nat; reflexivity.
  - destruct m as [|m]; [lia|]. simpl. rewrite ?app_cons. f_equal. apply IH. lia.
Qed.

Lemma bound_in_range n i : 0 <= i <= n -> bound n i = i.
Proof. intros H. unfold bound. destruct (i <? 0) eqn:E; lia. Qed.

Lemma len_nonneg s : 0 <= len s.
Proof. unfold len. lia. Qed.

Lemma slice_to s b : 0 <= b <= len s -> slice s None (Some b) = take (Z.to_nat b) s.
Proof.
  intros H. unfold slice. rewrite bound_in_range by exact H.
  rewrite Z.sub_0_r. reflexivity.
Qed.

Lemma slice_between s a b :
  0 <= a <= b -> b <= len s ->
  slice s (Some a) (Some b) = take (Z.to_nat (b - a)) (drop (Z.to_nat a) s).
Proof.
  intros H1 H2. unfold slice. rewrite !bound_in_range by lia. reflexivity.
Qed.

Lemma slice_from s a : 0 <= a <= len s -> slice s (Some a) None = drop (Z.to_nat a) s.
Proof.
  intros H. unfold slice. rewrite bound_in_range by exact H.
  apply take_all. rewrite length_drop. unfold len. lia.
Qed.

Lemma slice_whole s : slice s (Some 0) (Some (len s)) = s.
Proof.
  pose proof (len_nonneg s). rewrite slice_between by lia. simpl.
  apply take_all. unfold len. lia.
Qed.

Lemma slice_empty s a : 0 <= a <= len s -> slice s (Some a) (Some a) = "".
Proof.
  intros H. rewrite slice_between by lia. rewrite Z.sub_diag. reflexivity.
Qed.

End PyStrFacts.

(** ** Message formatter *)

Module FormatterFacts.
Import PyStr PyStrFacts.

(** Wrapping a span that ends at or before [p], in a text whose first [p]
    characters are still those of [text]: the markup goes around the
    characters of the span, and what follows it is moved along. *)
Lemma wrap_prefix text p suffix o l opening closing :
  0 <= o -> 0 <= l -> o + l <= p -> p <= len text ->
  wrap (take (Z.to_nat p) text +:+ suffix) o l opening closing =
  take (Z.to_nat o) text +:+
  (opening +:+ slice text (Some o) (Some (o + l)) +:+ closing +:+
   slice text (Some (o + l)) (Some p) +:+ suffix).
Proof.
  intros Ho Hl Hp Htext. unfold wrap.
  set (F := take (Z.to_nat p) text +:+ suffix).
  assert (HlenP : String.length (take (Z.to_nat p) text) = Z.to_nat p).
  { rewrite length_take. unfold len in Htext. lia. }
  assert (HF : p <= len F).
  { unfold len, F. rewrite length_app, HlenP. lia. }
  rewrite slice_to by lia.
  rewrite (slice_between F) by lia.
  rewrite slice_from by lia.
  rewrite (slice_between text o) by lia.
  rewrite (slice_between text (o + l)) by lia.
  unfold F.
  rewrite take_app_le by lia. rewrite take_take.
  replace (Nat.min (Z.to_nat o) (Z.to_nat p)) with (Z.to_nat o) by lia.
  rewrite drop_app_le by lia.
  rewrite take_app_le by (rewrite length_drop; lia).
  rewrite drop_take, take_take.
  replace (Nat.min (Z.to_nat (o + l - o)) (Z.to_nat p - Z.to_nat o))
    with (Z.to_nat (o + l - o)) by lia.
  rewrite drop_app_le by lia. rewrite drop_take.
  replace (Z.to_nat p - Z.to_nat (o + l))%nat with (Z.to_nat (p - (o + l))) by lia.
  rewrite ?app_assoc. reflexivity.
Qed.

(** The same for one step of the loop, whatever the kind of the span. *)
Lemma apply_entity_prefix text p suffix e :
  within text e -> span_end e <= p -> p <= len text ->
  apply_entity (take (Z.to_nat p) text +:+ suffix) e =
  take (Z.to_nat (get_offset e)) text +:+
  (fst (tags (ent_type e)) +:+
   slice text (Some (get_offset e)) (Some (span_end e)) +:+ snd (tags (ent_type e)) +:+
   slice text (Some (span_end e)) (Some p) +:+ suffix).
Proof.
  intros (Ho & Hl & Hend) Hp Htext. unfold span_end in *.
  unfold apply_entity, tags.
  repeat (case_decide; [simpl; apply wrap_prefix; assumption|]).
  simpl. rewrite !app_empty_l.
  rewrite (slice_between text (get_offset e)) by lia.
  rewrite (slice_between text (get_offset e + get_length e)) by lia.
  rewrite (take_split (Z.to_nat (get_offset e + get_length e)) (Z.to_nat p)) by lia.
  rewrite (take_split (Z.to_nat (get_offset e)) (Z.to_nat (get_offset e + get_length e)))
    by lia.
  rewrite !app_assoc.
  replace (Z.to_nat (get_offset e + get_length e) - Z.to_nat (get_offset e))%nat
    with (Z.to_nat (get_offset e + get_length e - get_offset e)) by lia.
  replace (Z.to_nat p - Z.to_nat (get_offset e + get_length e))%nat
    with (Z.to_nat (p - (get_offset e + get_length e))) by lia.
  reflexivity.
Qed.

Lemma marked_up_to_snoc text pos stop spans e :
  marked_up_to text pos stop (spans ++ [e]) =
  marked_up_to text pos (get_offset e) spans +:+ fst (tags (ent_type e)) +:+
  slice text (Some (get_offset e)) (Some (span_end e)) +:+ snd (tags (ent_type e)) +:+
  slice text (Some (span_end e)) (Some stop).
Proof.
  revert pos. induction spans as [|a spans IH]; intros pos; simpl; [reflexivity|].
  rewrite IH, !app_assoc. reflexivity.
Qed.

(** The loop over spans sorted from right to left, each one lying before
    the ones already taken. *)
Lemma fold_descending spans :
  forall text p suffix,
    0 <= p <= len text ->
    Forall (fun e => within text e /\ span_end e <= p) spans ->
    StronglySorted follows spans ->
    fold_left apply_entity spans (take (Z.to_nat p) text +:+ suffix) =
    marked_up_to text 0 p (rev spans) +:+ suffix.
Proof.
  induction spans as [|e spans IH]; intros text p suffix Hp Hall Hsorted.
  - simpl. rewrite slice_between by lia. rewrite Z.sub_0_r. reflexivity.
  - apply Forall_cons in Hall as [[He Hep] Hall].
    apply StronglySorted_inv in Hsorted as [Hsorted Hfollow].
    simpl fold_left. rewrite apply_entity_prefix by (try assumption; lia).
    rewrite IH.
    + simpl rev. rewrite marked_up_to_snoc, !app_assoc. reflexivity.
    + destruct He as (? & ? & ?). unfold span_end in *. lia.
    + rewrite Forall_forall in Hall, Hfollow. apply Forall_forall.
      intros x Hx. split; [apply Hall, Hx|]. apply Hfollow, Hx.
    + exact Hsorted.
Qed.

Lemma insert_reverse_perm {A} (key : A -> Z) x l :
  Permutation (insert_reverse key x l) (x :: l).
Proof.
  induction l as [|y l IH]; simpl; [reflexivity|].
  destruct (key y <=? key x); [reflexivity|].
  rewrite IH. apply perm_swap.
Qed.

Lemma sorted_reverse_perm {A} (key : A -> Z) l : Permutation (sorted_reverse key l) l.
Proof.
  induction l as [|x l IH]; simpl; [reflexivity|].
  rewrite insert_reverse_perm, IH. reflexivity.
Qed.

Lemma insert_follows x spans :
  0 <= get_length x ->
  Forall (fun e => 0 <= get_length e) spans ->
  Forall (apart x) spans ->
  StronglySorted follows spans ->
  StronglySorted follows (insert_reverse get_offset x spans).
Proof.
  intros Hx. induction spans as [|y spans IH]; intros Hlen Hapart Hsorted; simpl.
  - repeat constructor.
  - apply Forall_cons in Hlen as [Hy Hlen]. apply Forall_cons in Hapart as [Hxy Hapart].
    apply StronglySorted_inv in Hsorted as [Hsorted Hfollow].
    destruct Hxy as [Hno Hne]. unfold non_overlapping, span_end in Hno.
    destruct (get_offset y <=? get_offset x) eqn:E.
    + apply Z.leb_le in E. constructor.
      * constructor; assumption.
      * constructor.
        -- unfold follows, span_end. lia.
        -- rewrite Forall_forall in Hfollow. apply Forall_forall. intros z Hz.
           specialize (Hfollow z Hz). unfold follows in *. lia.
    + apply Z.leb_gt in E. constructor.
      * apply IH; assumption.
      * rewrite (insert_reverse_perm get_offset x spans). constructor.
        -- unfold follows, span_end. lia.
        -- exact Hfollow.
Qed.

Lemma sorted_follows spans :
  Forall (fun e => 0 <= get_length e) spans ->
  ForallOrdPairs apart spans ->
  StronglySorted follows (sorted_reverse get_offset spans).
Proof.
  intros Hlen Hpairs. induction Hpairs as [|x spans Hx Hpairs IH]; simpl.
  - constructor.
  - apply Forall_cons in Hlen as [Hlx Hlen]. apply insert_follows.
    + exact Hlx.
    + rewrite sorted_reverse_perm. exact Hlen.
    + rewrite sorted_reverse_perm. exact Hx.
    + apply IH, Hlen.
Qed.

Lemma apart_of_distinct spans :
  ForallOrdPairs non_overlapping spans ->
  NoDup (List.map get_offset spans) ->
  ForallOrdPairs apart spans.
Proof.
  intros Hpairs. induction Hpairs as [|x spans Hx Hpairs IH]; simpl; intros Hnd.
  - constructor.
  - apply NoDup_cons in Hnd as [Hnotin Hnd]. constructor; [|apply IH, Hnd].
    rewrite Forall_forall in Hx. apply Forall_forall. intros y Hy. split; [apply Hx, Hy|].
    intros Heq. apply Hnotin. rewrite Heq.
    apply list_elem_of_In, List.in_map, list_elem_of_In, Hy.
Qed.

(** Spans that are not empty and do not overlap start at different
    positions. *)
Lemma distinct_of_positive spans :
  Forall (fun e => 0 < get_length e) spans ->
  ForallOrdPairs non_overlapping spans ->
  NoDup (List.map get_offset spans).
Proof.
  intros Hlen Hpairs. induction Hpairs as [|x spans Hx Hpairs IH]; simpl.
  - constructor.
  - apply Forall_cons in Hlen as [Hlx Hlen]. apply NoDup_cons. split; [|apply IH, Hlen].
    intros Hin. apply list_elem_of_In, List.in_map_iff in Hin as (y & Heq & Hy).
    rewrite Forall_forall in Hx, Hlen. apply list_elem_of_In in Hy.
    specialize (Hx y Hy). specialize (Hlen y Hy).
    unfold non_overlapping, span_end in Hx. lia.
Qed.

Lemma follows_ascending text spans :
  Forall (within text) spans ->
  StronglySorted follows spans ->
  ascending (rev spans).
Proof.
  intros Hall Hsorted. unfold ascending.
  induction Hsorted as [|e spans Hsorted IH Hfollow]; simpl; [constructor|].
  apply Forall_cons in Hall as [He Hall].
  apply StronglySorted_app. split; [|split].
  - intros a b Ha Hb. apply list_elem_of_singleton in Hb. subst b.
    rewrite list_elem_of_In, <- List.in_rev, <- list_elem_of_In in Ha.
    rewrite Forall_forall in Hall, Hfollow.
    specialize (Hall a Ha). specialize (Hfollow a Ha).
    destruct Hall as (? & ? & ?). unfold follows, span_end in *. lia.
  - apply IH, Hall.
  - repeat constructor.
Qed.

(** The formatter on spans that lie in the text, do not overlap and start
    at different positions: the text with the spans, from left to right,
    each wrapped in its tags. *)
Lemma formatter_correct text entities :
  Forall (within text) entities ->
  ForallOrdPairs non_overlapping entities ->
  NoDup (List.map get_offset entities) ->
  let spans := rev (sorted_reverse get_offset entities) in
  Permutation spans entities /\ ascending spans /\
  parse_message_entities text entities = marked_up text spans.
Proof.
  intros Hall Hpairs Hnd spans.
  assert (Hperm : Permutation (sorted_reverse get_offset entities) entities)
    by apply sorted_reverse_perm.
  assert (Hall' : Forall (within text) (sorted_reverse get_offset entities))
    by (rewrite Hperm; exact Hall).
  assert (Hsorted : StronglySorted follows (sorted_reverse get_offset entities)).
  { apply sorted_follows; [|apply apart_of_distinct; assumption].
    eapply Forall_impl; [exact Hall|]. intros e (? & ? & ?). assumption. }
  split; [|split].
  - subst spans. rewrite <- Hperm at 2. symmetry. apply Permutation_rev.
  - eapply follows_ascending; eassumption.
  - unfold marked_up. subst spans.
    pose proof (len_nonneg text) as Hlen.
    rewrite <- (app_empty_r (marked_up_to _ _ _ _)).
    rewrite <- fold_descending; try assumption; try lia.
    + rewrite (take_all (Z.to_nat (len text))) by (unfold len; lia).
      rewrite app_empty_r. destruct entities; reflexivity.
    + eapply Forall_impl; [exact Hall'|]. intros e He. split; [exact He|].
      destruct He as (? & ? & ?). assumption.
Qed.

(** A single bold span over the whole text. *)
Lemma bold_whole_text text :
  parse_message_entities text
    [bold_whole text] = "<b>" +:+ text +:+ "</b>".
Proof.
  pose proof (len_nonneg text) as Hlen.
  unfold parse_message_entities, bold_whole, span. simpl. unfold apply_entity. simpl.
  unfold wrap, get_offset, get_length. simpl. rewrite Z.add_0_l.
  rewrite slice_whole.
  rewrite slice_to by lia. rewrite slice_from by lia. simpl.
  rewrite drop_all by (unfold len; lia).
  rewrite app_empty_r. reflexivity.
Qed.


End FormatterFacts.


(** C4, as amended. For any text and any spans that lie in the text, do not
    overlap pairwise and start at pairwise different positions (as spans
    that are not empty and do not overlap always do), the formatter returns
    the text with every span, taken from left to right, wrapped in the tags
    of its kind around its own characters; and a single bold span over the
    whole text gives the text between [<b>] and [</b>]. *)
Theorem formatter_wraps_spans :
  forall text : string,
    (forall entities : list Entity,
        Forall (within text) entities ->
        ForallOrdPairs non_overlapping entities ->
        NoDup (List.map get_offset entities) ->
        exists spans,
          Permutation spans entities /\ ascending spans /\
          parse_message_entities text entities = marked_up text spans)
    /\ parse_message_entities text [bold_whole text] = "<b>" +:+ text +:+ "</b>".
Proof.
  intros text. split.
  - intros entities Hall Hpairs Hnd.
    exists (rev (sorted_reverse get_offset entities)).
    apply FormatterFacts.formatter_correct; assumption.
  - apply FormatterFacts.bold_whole_text.
Qed.

Lemma formatter_wraps_spans_witness :
  exists spans,
    Permutation spans [span "italic" 6 5; span "bold" 0 5] /\ ascending spans /\
    parse_message_entities "hello world" [span "italic" 6 5; span "bold" 0 5] =
    marked_up "hello world" spans.
Proof.
  apply (proj1 (formatter_wraps_spans "hello world")).
  - repeat constructor; vm_compute; congruence.
  - apply FOP_cons; [|repeat constructor]. apply List.Forall_cons; [|constructor].
    right. vm_compute. congruence.
  - apply (bool_decide_unpack _). vm_compute. exact I.
Defined.

(** The formatter on the sample of the witness. *)
Example formatter_two_spans :
  parse_message_entities "hello world" [span "italic" 6 5; span "bold" 0 5] =
  "<b>hello</b> <i>world</i>".
Proof. reflexivity. Qed.

(** Without entities the text is returned as it is. *)
Example formatter_no_entities : forall text, parse_message_entities text [] = text.
Proof. reflexivity. Qed.

(** Without the condition on the positions the property fails: an empty
    span listed before a span that starts at the same position is taken
    first, and the second markup lands inside the first. The two spans lie
    in the text and do not overlap, and the output is the wrapped text for
    neither order of the spans. *)
Lemma formatter_same_offset_counterexample :
  let text := "a" in
  let entities := [span "bold" 0 0; span "italic" 0 1] in
  Forall (within text) entities /\
  ForallOrdPairs non_overlapping entities /\
  parse_message_entities text entities = "<i><</i>b></b>a" /\
  ~ (exists spans,
        Permutation spans entities /\ ascending spans /\
        parse_message_entities text entities = marked_up text spans).
Proof.
  intros text entities. split; [|split; [|split]].
  - repeat constructor; vm_compute; congruence.
  - apply FOP_cons; [|repeat constructor]. apply List.Forall_cons; [|constructor].
    left. vm_compute. congruence.
  - reflexivity.
  - intros (spans & Hperm & _ & Heq).
    apply Permutation_sym, Permutation_length_2_inv in Hperm.
    destruct Hperm as [-> | ->]; vm_compute in Heq; discriminate.
Qed.


(** ** Event classifier *)

Lemma status_in_true status allowed :
  status_in status allowed = true <-> exists s, status = Some s /\ s ∈ allowed.
Proof.
  unfold status_in. destruct status as [s|].
  - rewrite bool_decide_eq_true. split; [eauto|]. intros (s' & [= <-] & H). exact H.
  - split; [discriminate|]. intros (s & [=] & _).
Qed.

(** The classifier only ever produces the three message types. *)
Lemma classify_kinds u chat_id user message_type :
  classify u = Some (chat_id, user, message_type) ->
  message_type = "leave" \/ message_type = "kick" \/ message_type = "ban".
Proof.
  unfold classify. repeat case_match; try discriminate.
  intros [= _ _ <-]. unfold classify_status. repeat case_match; auto.
Qed.

(** C1. The classifier, on [(old_status, new_status, until_timestamp)]:
    there is no event unless the old status is [member], [administrator] or
    [creator]; when there is one, [left] gives [leave], [kicked] gives [ban]
    if the timestamp is 0 or above 2147483647 and [kick] otherwise, and the
    remaining status the handler reacts to ([banned]) gives [kick]. An event
    is produced for these old and new statuses whenever the update names the
    user and the chat. *)
Theorem classifier_rule :
  forall u : ChatMemberUpdated,
    (forall s, old_status u = Some s ->
               s <> "member" -> s <> "administrator" -> s <> "creator" ->
               event_kind u = None)
    /\ (old_status u = None -> event_kind u = None)
    /\ (forall message_type, event_kind u = Some message_type ->
          (new_status u = Some "left" -> message_type = "leave")
          /\ (new_status u = Some "kicked" ->
              (until_timestamp u = 0 \/ until_timestamp u > 2147483647 ->
               message_type = "ban")
              /\ (until_timestamp u <> 0 -> until_timestamp u <= 2147483647 ->
                  message_type = "kick"))
          /\ (new_status u <> Some "left" -> new_status u <> Some "kicked" ->
              new_status u = Some "banned" /\ message_type = "kick"))
    /\ (forall s s' user chat_id,
          old_status u = Some s -> s ∈ ["member"; "administrator"; "creator"] ->
          new_status u = Some s' -> s' ∈ ["left"; "kicked"; "banned"] ->
          cm_user (default empty_member (cmu_old_chat_member u)) = Some user ->
          usable_id (cmu_chat_id u) = Some chat_id ->
          is_Some (event_kind u)).
Proof.
  intros u. unfold event_kind, classify, old_status, new_status, until_timestamp.
  set (old_member := default empty_member (cmu_old_chat_member u)).
  set (new_member := default empty_member (cmu_new_chat_member u)).
  split; [|split; [|split]].
  - intros s Hs H1 H2 H3. rewrite Hs. simpl.
    rewrite bool_decide_eq_false_2; [reflexivity|].
    rewrite !elem_of_cons, elem_of_nil. tauto.
  - intros ->. reflexivity.
  - intros message_type.
    destruct (negb (status_in (cm_status old_member) _)); [discriminate|].
    destruct (status_in (cm_status new_member) _) eqn:Hnew; [|discriminate].
    destruct (cm_user old_member); [|discriminate].
    destruct (usable_id (cmu_chat_id u)); [|discriminate].
    intros [= <-]. unfold classify_status.
    apply status_in_true in Hnew as (s' & Hs' & Hin).
    rewrite !elem_of_cons, elem_of_nil in Hin.
    split; [|split].
    + intros H. rewrite decide_True by exact H. reflexivity.
    + intros H. rewrite decide_False by (rewrite H; discriminate).
      rewrite decide_True by exact H. split.
      * intros [H0 | Hbig].
        -- rewrite H0. reflexivity.
        -- destruct (_ =? 0); [reflexivity|]. simpl.
           destruct (Z.gtb_spec (default 0 (cm_until_date new_member)) 2147483647);
             [reflexivity|lia].
      * intros Hne Hle.
        destruct (Z.eqb_spec (default 0 (cm_until_date new_member)) 0); [contradiction|].
        destruct (Z.gtb_spec (default 0 (cm_until_date new_member)) 2147483647);
          [lia|reflexivity].
    + intros H1 H2. rewrite !decide_False by assumption. split; [|reflexivity].
      rewrite Hs' in *. destruct Hin as [-> | [-> | [-> | []]]]; congruence.
  - intros s s' user chat_id Hs Hin Hs' Hin' Huser Hchat.
    rewrite Hs, Hs', Huser, Hchat. simpl.
    rewrite !bool_decide_eq_true_2 by assumption. simpl. eauto.
Qed.

Lemma classifier_rule_witness :
  is_Some (event_kind (transition "member" "kicked" (Some 1700000000))).
Proof.
  refine (proj2 (proj2 (proj2 (classifier_rule
            (transition "member" "kicked" (Some 1700000000)))))
            "member" "kicked" _ (-100) _ _ _ _ _ _).
  - reflexivity.
  - apply (bool_decide_unpack _). vm_compute. exact I.
  - reflexivity.
  - apply (bool_decide_unpack _). vm_compute. exact I.
  - reflexivity.
  - reflexivity.
Defined.

(** The examples of the classifier. *)
Example classifier_left : event_kind (transition "member" "left" (Some 0)) = Some "leave".
Proof. reflexivity. Qed.
Example classifier_ban_zero : event_kind (transition "member" "kicked" (Some 0)) = Some "ban".
Proof. reflexivity. Qed.
Example classifier_ban_absent : event_kind (transition "member" "kicked" None) = Some "ban".
Proof. reflexivity. Qed.
Example classifier_ban_far :
  event_kind (transition "member" "kicked" (Some 2147483648)) = Some "ban".
Proof. reflexivity. Qed.
Example classifier_kick_limit :
  event_kind (transition "member" "kicked" (Some 2147483647)) = Some "kick".
Proof. reflexivity. Qed.
Example classifier_kick :
  event_kind (transition "member" "kicked" (Some 1700000000)) = Some "kick".
Proof. reflexivity. Qed.
Example classifier_banned : event_kind (transition "creator" "banned" None) = Some "kick".
Proof. reflexivity. Qed.
Example classifier_not_a_member : event_kind (transition "left" "kicked" (Some 0)) = None.
Proof. reflexivity. Qed.
Example classifier_restricted : event_kind (transition "member" "restricted" None) = None.
Proof. reflexivity. Qed.


(** ** Menu controller *)

Lemma is_chat_admin_true W chat_id user_id :
  is_chat_admin W chat_id user_id = true <->
  exists s, get_chat_member W chat_id user_id = MemberHttp 200 true (Some s)
            /\ (s = "creator" \/ s = "administrator").
Proof.
  unfold is_chat_admin. destruct (get_chat_member W chat_id user_id) as [|code ok status].
  - split; [discriminate|]. intros (s & [=] & _).
  - destruct (Z.eqb_spec code 200) as [->|Hcode].
    + destruct ok.
      * rewrite bool_decide_eq_true. split.
        -- intros [-> | ->]; eauto.
        -- intros (s & [= ->] & [-> | ->]); auto.
      * split; [discriminate|]. intros (s & [=] & _).
    + split; [discriminate|]. intros (s & [= -> _ _] & _). contradiction.
Qed.

(** C9. The settings command: the authorization is the answer of the
    gateway to a member lookup and passes exactly for the statuses
    [creator] and [administrator]; when it passes, the menu with the seven
    actions is sent; when it fails, the denial notice is sent and nothing
    else; in both cases the conversation states and the settings are
    untouched. [/edit] and [/edit@Yukira] are the two spellings of the
    command. *)
Theorem settings_command_authorization :
  forall (W : World) (chat_id user_id : Z) (message_id : option Z) (b : Bot),
    let after := handle_settings_command W chat_id user_id message_id b in
    (is_chat_admin W chat_id user_id = true <->
       exists s, get_chat_member W chat_id user_id = MemberHttp 200 true (Some s)
                 /\ (s = "creator" \/ s = "administrator"))
    /\ (is_chat_admin W chat_id user_id = true ->
        outbox (snd after) =
        (outbox b ++ [SendInlineKeyboard chat_id settings_text settings_keyboard])%list)
    /\ (is_chat_admin W chat_id user_id = false ->
        outbox (snd after) = (outbox b ++ [SendMessage chat_id denial_text])%list)
    /\ user_states (snd after) = user_states b
    /\ settings (snd after) = settings b
    /\ List.map callback_data (concat settings_keyboard) =
       ["edit_leave"; "edit_kick"; "edit_ban"; "image_leave"; "image_kick"; "image_ban";
        "reset_default"]
    /\ (forall update message text,
          upd_message update = Some message ->
          usable_id (msg_chat_id message) = Some chat_id ->
          usable_id (msg_from_id message) = Some user_id ->
          msg_message_id message = message_id ->
          msg_text message = Some text ->
          text = "/edit" \/ text = "/edit@Yukira" ->
          handle_message W update b = after).
Proof.
  intros W chat_id user_id message_id b after.
  split; [apply is_chat_admin_true|].
  subst after. unfold handle_settings_command.
  repeat split.
  - intros ->. reflexivity.
  - intros ->. reflexivity.
  - destruct (is_chat_admin W chat_id user_id); reflexivity.
  - destruct (is_chat_admin W chat_id user_id); reflexivity.
  - intros update message text Hmsg Hchat Huser Hid Htext Hcmd.
    unfold handle_message. rewrite Hmsg, Hchat, Huser, Htext, Hid. simpl.
    rewrite bool_decide_eq_true_2 by exact Hcmd.
    unfold handle_settings_command, try_except.
    destruct (is_chat_admin W chat_id user_id); reflexivity.
Qed.


(** ** Notifier *)

Lemma classify_has_default u chat_id user message_type :
  classify u = Some (chat_id, user, message_type) ->
  is_Some (get_default_messages message_type).
Proof.
  intros H. apply classify_kinds in H as [-> | [-> | ->]]; vm_compute; eauto.
Qed.

(** What [deliver] does to the bot. *)
Lemma deliver_attempts W chat_id custom_image message_text b :
  deliver W chat_id custom_image message_text b =
  (Returned tt,
   set_outbox (outbox b ++ delivery_attempts W b chat_id custom_image message_text) b).
Proof.
  assert (Hnil : b = set_outbox (outbox b ++ []) b).
  { rewrite app_nil_r. destruct b; reflexivity. }
  unfold deliver, delivery_attempts, path_exists, TelegramBot.send_photo,
    TelegramBot.send_message, TelegramBot.post, on_disk, bind, read, ret.
  destruct (bool_decide (is_Some (files b !! default_image))) eqn:E2;
    destruct (gateway W (SendPhoto chat_id default_image message_text)) as [[|]|] eqn:G2;
    (destruct custom_image as [path|];
     [destruct (PyStr.truthy path);
      [destruct (bool_decide (is_Some (files b !! path))) eqn:E1;
       destruct (gateway W (SendPhoto chat_id path message_text)) as [[|]|] eqn:G1|]|]);
    repeat (simpl; rewrite ?E1, ?E2, ?G1, ?G2);
    rewrite <- ?app_assoc; simpl; try reflexivity; try exact Hnil.
Qed.

(** The text alone is among the requests exactly when no image request was
    acknowledged. *)
Lemma text_is_last_resort W b chat_id custom_image message_text :
  let attempts := delivery_attempts W b chat_id custom_image message_text in
  In (SendMessage chat_id message_text) attempts <->
  (forall path, In (SendPhoto chat_id path message_text) attempts ->
                acknowledged (gateway W (SendPhoto chat_id path message_text)) = false).
Proof.
  unfold delivery_attempts.
  destruct (on_disk b default_image);
    destruct (acknowledged (gateway W (SendPhoto chat_id default_image message_text))) eqn:G2;
    (destruct custom_image as [path|];
     [destruct (PyStr.truthy path); destruct (on_disk b path);
      destruct (acknowledged (gateway W (SendPhoto chat_id path message_text))) eqn:G1|]);
    simpl; rewrite ?G1, ?G2; simpl; rewrite ?G2; simpl;
    (split;
     [ intros Htext p Hp;
       repeat (destruct Hp as [Hp | Hp]; [try discriminate Hp|]);
       try contradiction;
       try (injection Hp as <-; assumption);
       exfalso; clear -Htext; intuition discriminate
     | intros Hall;
       try (specialize (Hall _ (or_introl eq_refl)); congruence);
       try (specialize (Hall _ (or_intror (or_introl eq_refl))); congruence);
       auto 6 ]).
Qed.

(** The answer of the gateway carries a set [ok] flag exactly when the
    handler takes the request as acknowledged. *)
Lemma acknowledged_ok_set W request :
  bool_decide (gateway W request = Some true) = acknowledged (gateway W request).
Proof.
  destruct (gateway W request) as [[|]|]; reflexivity.
Qed.

Lemma farewell_requests_attempts W b chat_id custom_image caption :
  farewell_requests W b chat_id custom_image caption =
  delivery_attempts W b chat_id custom_image caption.
Proof.
  unfold farewell_requests, delivery_attempts.
  destruct custom_image as [path|];
    [destruct (PyStr.truthy path && on_disk b path)|];
    destruct (on_disk b default_image); simpl;
    rewrite ?acknowledged_ok_set; reflexivity.
Qed.

(** C3. The notifier on a classified event, whatever the world answers.
    The template is the stored one when there is one and it is not empty,
    else the default of the kind of the event. When the settings cannot be
    read or [str.format] raises on the template, nothing is sent. Otherwise
    [str.format] puts the display name in the place of the placeholder and
    the requests that go out are exactly [farewell_requests]: the stored
    image with the caption (when its path is not empty and the file
    exists); unless the gateway answered that with [ok] set, the default
    image with the caption (when the file exists); unless the gateway
    answered that with [ok] set, the text alone. So the text alone is sent
    exactly when no image request was answered with [ok] set. Settings,
    conversation states and files stay as they are. *)
Theorem notifier_delivery :
  forall (str_format : string -> string -> option string) (W : World) (update : Update)
         (u : ChatMemberUpdated) (chat_id : Z) (user : User) (message_type : string) (b : Bot)
         (custom_message custom_image : option string),
    upd_chat_member update = Some u ->
    classify u = Some (chat_id, user, message_type) ->
    BotDatabase.get_message (settings b) chat_id message_type = (custom_message, custom_image) ->
    let b' := run (handle_chat_member_update str_format W update) b in
    exists template,
      effective_template custom_message message_type = Some template
      /\ (storage_up W = false \/ str_format template (display_name user) = None ->
          outbox b' = outbox b)
      /\ (storage_up W = true ->
          forall caption,
            str_format template (display_name user) = Some caption ->
            let requests := farewell_requests W b chat_id custom_image caption in
            outbox b' = (outbox b ++ requests)%list
            /\ (In (SendMessage chat_id caption) requests <->
                forall path, In (SendPhoto chat_id path caption) requests ->
                             gateway W (SendPhoto chat_id path caption) <> Some true))
      /\ settings b' = settings b /\ user_states b' = user_states b /\ files b' = files b.
Proof.
  intros fmt W update u chat_id user k b custom_message custom_image Hupd Hclass Hget b'.
  destruct (classify_has_default _ _ _ _ Hclass) as [default_template Hdefault].
  assert (Htemplate : exists template, effective_template custom_message k = Some template).
  { unfold effective_template. rewrite Hdefault.
    destruct custom_message as [t|]; [destruct (PyStr.truthy t)|]; eauto. }
  destruct Htemplate as [template Htemplate]. exists template.
  split; [exact Htemplate|].
  assert (Htext : resolve_text fmt custom_message k (display_name user) =
                  format_username fmt template (display_name user)).
  { unfold resolve_text, effective_template in *.
    destruct custom_message as [t|]; [destruct (PyStr.truthy t)|].
    - injection Htemplate as ->. reflexivity.
    - rewrite Htemplate. reflexivity.
    - rewrite Htemplate. reflexivity. }
  assert (Hrun : handle_chat_member_update fmt W update b =
                 (Returned tt,
                  if storage_up W then
                    match fmt template (display_name user) with
                    | Some caption =>
                        set_outbox
                          (outbox b ++ farewell_requests W b chat_id custom_image caption) b
                    | None => b
                    end
                  else b)).
  { unfold handle_chat_member_update, try_except. rewrite Hupd, Hclass.
    unfold notify, db_get_message. destruct (storage_up W); [|reflexivity].
    unfold bind at 1, read. rewrite Hget. rewrite Htext. unfold bind at 1, format_username.
    destruct (fmt template (display_name user)) as [caption|]; [|reflexivity].
    unfold ret at 1. rewrite deliver_attempts, farewell_requests_attempts. reflexivity. }
  subst b'. unfold run. rewrite Hrun. simpl.
  split; [|split].
  - intros [Hdown | Hraise].
    + rewrite Hdown. reflexivity.
    + rewrite Hraise. destruct (storage_up W); reflexivity.
  - intros Hup caption Hfmt. rewrite Hup, Hfmt. simpl.
    split; [reflexivity|]. rewrite farewell_requests_attempts.
    etransitivity; [apply text_is_last_resort|].
    split; intros Hall path Hin.
    + specialize (Hall path Hin). intros Hok. rewrite Hok in Hall. discriminate Hall.
    + specialize (Hall path Hin).
      destruct (gateway W (SendPhoto chat_id path caption)) as [[|]|];
        [contradiction|reflexivity|reflexivity].
  - destruct (storage_up W); [destruct (fmt template (display_name user))|];
      repeat split; reflexivity.
Qed.

(** A stored template that is the empty string is a custom template that is
    present, and [str.format] gives the empty text for it; yet the default
    text is what goes out. And with a stored template on which [str.format]
    raises, the event is classified and nothing is attempted at all. *)
Lemma notifier_delivery_counterexample :
  event_kind (transition "member" "left" None) = Some "leave"
  /\ BotDatabase.get_message (settings emptied_bot) (-100) "leave" = (Some "", None)
  /\ simple_format "" (display_name their_user) = Some ""
  /\ outbox (run (handle_chat_member_update simple_format sample_world leave_update)
                 emptied_bot) =
     [ SendMessage (-100) ("<b>Awww… @theirhandle" +:+ PyStr.drop 21 default_leave) ]
  /\ outbox (run (handle_chat_member_update simple_format sample_world leave_update)
                 emptied_bot) <> [ SendMessage (-100) "" ]
  /\ BotDatabase.get_message (settings misnamed_bot) (-100) "leave" = (Some "Bye {name}", None)
  /\ outbox (run (handle_chat_member_update simple_format sample_world leave_update)
                 misnamed_bot) = [].
Proof.
  repeat split; try reflexivity. vm_compute. discriminate.
Qed.


(** ** Conversation state machine *)

(** A handler body that ends with [del bot.user_states[user_id]] and
    returns has removed the entry. *)
Lemma returned_after_del {A} (m : M A) user_id b :
  fst ((do _ <- m; del_user_state user_id) b) = Returned tt ->
  user_states (snd ((do _ <- m; del_user_state user_id) b)) !! user_id = None.
Proof.
  unfold bind, del_user_state. destruct (m b) as [[a|] b1]; simpl; [|discriminate].
  destruct (user_states b1 !! user_id); simpl; [|discriminate].
  intros _. apply lookup_delete_eq.
Qed.

Lemma bind_assoc {A B C} (m : M A) (f : A -> M B) (g : B -> M C) b :
  (do y <- (do x <- m; f x); g y) b = (do x <- m; do y <- f x; g y) b.
Proof. unfold bind. destruct (m b) as [[a|] b1]; reflexivity. Qed.

(** The body of [handle_user_input] for a user with a state. *)
Lemma body_with_state W chat_id user_id text message state b :
  user_states b !! user_id = Some state ->
  handle_user_input_body W chat_id user_id text message b =
  match action state with
  | edit_message =>
      let formatted_text := parse_message_entities text (default [] (msg_entities message)) in
      do _ <- (do _ <- db_set_message W chat_id (message_type state) formatted_text None;
               TelegramBot.send_inline_keyboard W chat_id
                 (message_updated_text (message_type state) formatted_text) back_keyboard);
      del_user_state user_id
  | upload_image =>
      do _ <- receive_photo W chat_id state message; del_user_state user_id
  end b.
Proof.
  intros Hstate. unfold handle_user_input_body. unfold bind at 1. unfold read.
  rewrite Hstate. destruct (action state); [|reflexivity].
  simpl. rewrite bind_assoc. reflexivity.
Qed.

Lemma body_cleared W chat_id user_id text message state b :
  user_states b !! user_id = Some state ->
  fst (handle_user_input_body W chat_id user_id text message b) = Returned tt ->
  user_states (snd (handle_user_input_body W chat_id user_id text message b)) !! user_id
  = None.
Proof.
  intros Hstate. rewrite (body_with_state _ _ _ _ _ state) by exact Hstate.
  destruct (action state); apply returned_after_del.
Qed.

(** The gateway methods leave the conversation states as they are. *)
Lemma post_user_states W request b :
  user_states (snd (TelegramBot.post W request b)) = user_states b
  /\ fst (TelegramBot.post W request b) = Returned (gateway W request).
Proof. split; reflexivity. Qed.

(** When the handler of an input returns and when it raises. *)
Lemma body_outcome W chat_id user_id text message state b :
  user_states b !! user_id = Some state ->
  fst (handle_user_input_body W chat_id user_id text message b) =
  if input_fails W state message then Raised else Returned tt.
Proof.
  intros Hstate. rewrite (body_with_state _ _ _ _ _ state) by exact Hstate.
  unfold input_fails. destruct (action state).
  - unfold db_set_message, TelegramBot.send_inline_keyboard, TelegramBot.post, del_user_state,
      bind, modify. destruct (storage_up W); simpl; [|reflexivity].
    rewrite Hstate. reflexivity.
  - unfold receive_photo.
    assert (Hsend : forall s,
      fst ((do _ <- (do _ <- TelegramBot.send_message W chat_id s; ret tt);
            del_user_state user_id) b) = Returned tt).
    { intros s. unfold TelegramBot.send_message, TelegramBot.post, del_user_state, bind, ret.
      simpl. rewrite Hstate. reflexivity. }
    destruct (msg_photo message) as [photos|]; [|apply Hsend].
    destruct (last photos) as [photo|]; [|reflexivity].
    destruct (photo_file_id photo) as [file_id|]; [|apply Hsend].
    destruct (PyStr.truthy file_id); [|apply Hsend].
    unfold TelegramBot.download_file.
    destruct (get_file W file_id) as [| |content file_path]; [reflexivity|apply Hsend|].
    destruct content as [|c content]; [apply Hsend|].
    unfold write_file, db_get_message, db_set_message, TelegramBot.send_inline_keyboard,
      TelegramBot.post, del_user_state, bind, modify, read, ret.
    destruct (disk_up W); simpl; [|reflexivity].
    destruct (storage_up W); simpl; [|reflexivity].
    destruct (BotDatabase.get_message _ _ _). simpl. rewrite Hstate. reflexivity.
Qed.

(** Without a conversation state, a message that is not the command does
    nothing. *)
Lemma handle_message_idle W update message user_id b :
  upd_message update = Some message ->
  usable_id (msg_from_id message) = Some user_id ->
  ~ is_command (text_of message) ->
  user_states b !! user_id = None ->
  handle_message W update b = (Returned tt, b).
Proof.
  intros Hmsg Huser Hcmd Hstate. unfold handle_message, try_except. rewrite Hmsg, Huser.
  destruct (usable_id (msg_chat_id message)); [|reflexivity].
  unfold is_command, text_of in Hcmd. rewrite bool_decide_eq_false_2 by exact Hcmd.
  unfold bind, read. rewrite Hstate. reflexivity.
Qed.

(** A message that is not the command, from a user with a conversation
    state, is handed to [handle_user_input]. *)
Lemma handle_message_pending W update message chat_id user_id b :
  upd_message update = Some message ->
  usable_id (msg_chat_id message) = Some chat_id ->
  usable_id (msg_from_id message) = Some user_id ->
  ~ is_command (text_of message) ->
  is_Some (user_states b !! user_id) ->
  handle_message W update b = handle_user_input W chat_id user_id (text_of message) message b.
Proof.
  intros Hmsg Hchat Huser Hcmd Hstate. unfold handle_message. rewrite Hmsg, Hchat, Huser.
  unfold is_command, text_of in *. rewrite bool_decide_eq_false_2 by exact Hcmd.
  unfold bind, read, try_except. rewrite bool_decide_eq_true_2 by exact Hstate.
  unfold handle_user_input, try_except.
  destruct (handle_user_input_body _ _ _ _ _ b) as [[|] ?]; reflexivity.
Qed.

(** C2, as amended. For a user with a pending conversation state, when the
    next input of the user is consumed and its handling runs to the end,
    the state is cleared, whether the action succeeded or ended in one of
    the failures the handler reports (no photo, no file id, nothing
    downloaded) or in a send that the gateway did not acknowledge; and a
    later input of the same user is then a no-op. *)
Theorem consume_clears_state :
  forall (W : World) (update : Update) (message : Message) (chat_id user_id : Z)
         (state : UserState) (b : Bot),
    upd_message update = Some message ->
    usable_id (msg_chat_id message) = Some chat_id ->
    usable_id (msg_from_id message) = Some user_id ->
    ~ is_command (text_of message) ->
    user_states b !! user_id = Some state ->
    input_fails W state message = false ->
    let b' := run (handle_message W update) b in
    user_states b' !! user_id = None
    /\ (forall (W' : World) (update' : Update) (message' : Message),
          upd_message update' = Some message' ->
          usable_id (msg_from_id message') = Some user_id ->
          ~ is_command (text_of message') ->
          handle_message W' update' b' = (Returned tt, b')).
Proof.
  intros W update message chat_id user_id state b Hmsg Hchat Huser Hcmd Hstate Hok b'.
  assert (Hcleared : user_states b' !! user_id = None).
  { subst b'. unfold run.
    rewrite (handle_message_pending W update message chat_id user_id) by eauto.
    pose proof (body_outcome W chat_id user_id (text_of message) message state b Hstate)
      as Hout.
    rewrite Hok in Hout.
    pose proof (body_cleared W chat_id user_id (text_of message) message state b Hstate Hout)
      as Hclear.
    unfold handle_user_input, try_except.
    destruct (handle_user_input_body _ _ _ _ _ b) as [[[]|] b1]; simpl in *;
      [exact Hclear|discriminate]. }
  split; [exact Hcleared|].
  intros W' update' message' Hmsg' Huser' Hcmd'.
  eapply handle_message_idle; eassumption.
Qed.


Lemma consume_clears_state_witness :
  user_states
    (run (handle_message (world_with_download FileUnavailable) (update_of photo_message))
         (bot_with [] 7 awaiting_photo)) !! 7 = None.
Proof.
  refine (proj1 (consume_clears_state (world_with_download FileUnavailable)
                   (update_of photo_message) photo_message (-100) 7 awaiting_photo
                   (bot_with [] 7 awaiting_photo) _ _ _ _ _ _)).
  - reflexivity.
  - reflexivity.
  - reflexivity.
  - intros [H | H]; discriminate H.
  - reflexivity.
  - reflexivity.
Defined.

(** As stated, with "unconditionally", the property fails: when the download
    of the photo raises, the handler logs the exception and returns before
    the state is deleted, so the user is still awaiting a photo after the
    input was consumed. *)
Lemma consume_keeps_state_counterexample :
  let W := world_with_download FileError in
  let b := bot_with [] 7 awaiting_photo in
  user_states b !! 7 = Some awaiting_photo
  /\ ~ is_command (text_of photo_message)
  /\ handle_message W (update_of photo_message) b =
     handle_user_input W (-100) 7 "" photo_message b
  /\ user_states (run (handle_message W (update_of photo_message)) b) !! 7
     = Some awaiting_photo.
Proof.
  intros W b. split; [reflexivity|]. split; [intros [H | H]; discriminate H|].
  split; reflexivity.
Qed.

(** The store after a template is consumed. *)
Lemma edit_consumed W chat_id user_id text message state b :
  user_states b !! user_id = Some state ->
  action state = edit_message ->
  storage_up W = true ->
  let formatted_text := parse_message_entities text (default [] (msg_entities message)) in
  handle_user_input W chat_id user_id text message b =
  (Returned tt,
   {| settings := BotDatabase.set_message (settings b) chat_id (message_type state)
                    formatted_text None;
      user_states := delete user_id (user_states b);
      files := files b;
      outbox := outbox b ++
                [SendInlineKeyboard chat_id
                   (message_updated_text (message_type state) formatted_text) back_keyboard]
   |}).
Proof.
  intros Hstate Haction Hup formatted_text. unfold handle_user_input, try_except.
  rewrite (body_with_state _ _ _ _ _ state) by exact Hstate. rewrite Haction.
  unfold db_set_message, TelegramBot.send_inline_keyboard, TelegramBot.post, del_user_state,
    bind, modify. rewrite Hup. simpl. rewrite Hstate. reflexivity.
Qed.

(** The store after a photo is consumed and saved. *)
Lemma photo_consumed W chat_id user_id text message state b photos photo file_id c content
    file_path :
  user_states b !! user_id = Some state ->
  action state = upload_image ->
  msg_photo message = Some photos ->
  last photos = Some photo ->
  photo_file_id photo = Some file_id ->
  PyStr.truthy file_id = true ->
  get_file W file_id = FileContent (c :: content) file_path ->
  disk_up W = true ->
  storage_up W = true ->
  let image_path :=
    image_path_for (message_type state) chat_id (TelegramBot.last_segment file_path) in
  handle_user_input W chat_id user_id text message b =
  (Returned tt,
   {| settings :=
        BotDatabase.set_message (settings b) chat_id (message_type state)
          (template_to_keep
             (fst (BotDatabase.get_message (settings b) chat_id (message_type state)))
             (message_type state))
          (Some image_path);
      user_states := delete user_id (user_states b);
      files := <[image_path := c :: content]> (files b);
      outbox := outbox b ++
                [SendInlineKeyboard chat_id (image_updated_text (message_type state))
                   back_keyboard]
   |}).
Proof.
  intros Hstate Haction Hphotos Hlast Hid Htruthy Hfile Hdisk Hup image_path.
  unfold handle_user_input, try_except.
  rewrite (body_with_state _ _ _ _ _ state) by exact Hstate. rewrite Haction.
  unfold receive_photo. rewrite Hphotos, Hlast, Hid, Htruthy.
  unfold TelegramBot.download_file. rewrite Hfile.
  unfold write_file, db_get_message, db_set_message, TelegramBot.send_inline_keyboard,
    TelegramBot.post, del_user_state, bind, modify, read, ret.
  rewrite Hdisk, Hup. simpl.
  destruct (BotDatabase.get_message (settings b) chat_id (message_type state)) as [m i].
  simpl. rewrite Hstate. reflexivity.
Qed.


(** ** The primary key of the settings table is kept by every handler *)

Section PrimaryKey.

Lemma keeps_ret {A} (a : A) : keeps_primary_key (ret a).
Proof. intros b H. exact H. Qed.

Lemma keeps_raise {A} : keeps_primary_key (@raise A).
Proof. intros b H. exact H. Qed.

Lemma keeps_read {A} (f : Bot -> A) : keeps_primary_key (read f).
Proof. intros b H. exact H. Qed.

Lemma keeps_bind {A B} (m : M A) (k : A -> M B) :
  keeps_primary_key m -> (forall a, keeps_primary_key (k a)) ->
  keeps_primary_key (bind m k).
Proof.
  intros Hm Hk b H. unfold bind. specialize (Hm b H).
  destruct (m b) as [[a|] b1]; simpl in *; [apply Hk, Hm|exact Hm].
Qed.

Lemma keeps_try_except (m : M unit) : keeps_primary_key m -> keeps_primary_key (try_except m).
Proof.
  intros Hm b H. unfold try_except. specialize (Hm b H).
  destruct (m b) as [[a|] b1]; exact Hm.
Qed.

Lemma keeps_post W request : keeps_primary_key (TelegramBot.post W request).
Proof. intros b H. exact H. Qed.

Lemma keeps_send_photo W chat_id path caption :
  keeps_primary_key (TelegramBot.send_photo W chat_id path caption).
Proof.
  unfold TelegramBot.send_photo. apply keeps_bind; [apply keeps_read|].
  intros []; [apply keeps_post|apply keeps_ret].
Qed.

Lemma keeps_download_file W file_id : keeps_primary_key (TelegramBot.download_file W file_id).
Proof.
  unfold TelegramBot.download_file.
  destruct (get_file W file_id); [apply keeps_raise|apply keeps_ret|apply keeps_ret].
Qed.

Lemma keeps_write_file W path content : keeps_primary_key (write_file W path content).
Proof. unfold write_file. destruct (disk_up W); intros b H; exact H. Qed.

Lemma keeps_set_user_state user_id state : keeps_primary_key (set_user_state user_id state).
Proof. intros b H. exact H. Qed.

Lemma keeps_del_user_state user_id : keeps_primary_key (del_user_state user_id).
Proof. intros b H. unfold del_user_state. destruct (user_states b !! user_id); exact H. Qed.

Lemma keeps_db_get_message W chat_id k : keeps_primary_key (db_get_message W chat_id k).
Proof. unfold db_get_message. destruct (storage_up W); intros b H; exact H. Qed.

Lemma keeps_db_set_message W chat_id k content image :
  keeps_primary_key (db_set_message W chat_id k content image).
Proof.
  unfold db_set_message. destruct (storage_up W); intros b H; simpl; [|exact H].
  apply BotDatabaseFacts.primary_key_set_message, H.
Qed.

Lemma keeps_db_delete_settings W chat_id : keeps_primary_key (db_delete_settings W chat_id).
Proof.
  unfold db_delete_settings. destruct (storage_up W); intros b H; simpl; [|exact H].
  apply BotDatabaseFacts.primary_key_delete_settings, H.
Qed.

Lemma keeps_second_piece data : keeps_primary_key (second_piece data).
Proof.
  unfold second_piece. destruct (PyStr.split "_" data) as [|? [|? ?]];
    [apply keeps_raise|apply keeps_raise|apply keeps_ret].
Qed.

(** Takes a handler apart along its control flow. *)
Ltac keeps :=
  repeat first
    [ apply keeps_try_except
    | apply keeps_bind; [|intros ?]
    | apply keeps_ret | apply keeps_raise | apply keeps_read | apply keeps_post
    | apply keeps_send_photo | apply keeps_download_file | apply keeps_write_file
    | apply keeps_set_user_state | apply keeps_del_user_state
    | apply keeps_db_get_message | apply keeps_db_set_message
    | apply keeps_db_delete_settings | apply keeps_second_piece
    | progress unfold TelegramBot.send_message, TelegramBot.send_inline_keyboard,
        TelegramBot.answer_callback_query, TelegramBot.edit_message, path_exists
    | case_match ].

Lemma keeps_handle_settings_command W chat_id user_id message_id :
  keeps_primary_key (handle_settings_command W chat_id user_id message_id).
Proof. unfold handle_settings_command. keeps. Qed.

Lemma keeps_handle_callback_query W update : keeps_primary_key (handle_callback_query W update).
Proof. unfold handle_callback_query, handle_settings_command_edit. keeps. Qed.

Lemma keeps_handle_user_input W chat_id user_id text message :
  keeps_primary_key (handle_user_input W chat_id user_id text message).
Proof. unfold handle_user_input, handle_user_input_body, receive_photo. keeps. Qed.

Lemma keeps_handle_message W update : keeps_primary_key (handle_message W update).
Proof.
  unfold handle_message. apply keeps_try_except.
  repeat case_match; try apply keeps_ret.
  - apply keeps_handle_settings_command.
  - apply keeps_bind; [apply keeps_read|].
    intros []; [apply keeps_handle_user_input|apply keeps_ret].
Qed.

Variable str_format : string -> string -> option string.

Lemma keeps_handle_chat_member_update W update :
  keeps_primary_key (handle_chat_member_update str_format W update).
Proof.
  unfold handle_chat_member_update, notify, resolve_text, format_username, deliver. keeps.
Qed.

Lemma keeps_process_update W update : keeps_primary_key (process_update str_format W update).
Proof.
  unfold process_update. repeat case_match;
    auto using keeps_handle_chat_member_update, keeps_handle_message,
      keeps_handle_callback_query, keeps_ret.
Qed.

(** Whatever updates arrive, in whatever worlds, the table never holds
    two rows for one chat and message type. *)
Lemma primary_key_always events :
  forall b, BotDatabase.primary_key_ok (settings b) ->
            BotDatabase.primary_key_ok (settings (process_all str_format events b)).
Proof.
  induction events as [|[W update] events IH]; intros b H; simpl; [exact H|].
  apply IH. apply keeps_process_update, H.
Qed.

End PrimaryKey.


(** ** Editing a template and uploading an image *)

Lemma one_row_after_set table chat_id message_type content image_path :
  List.filter (BotDatabase.has_key chat_id message_type)
    (BotDatabase.set_message table chat_id message_type content image_path) =
  [ {| BotDatabase.row_chat_id := chat_id; BotDatabase.row_setting_type := message_type;
       BotDatabase.row_content := content; BotDatabase.row_image_path := image_path |} ].
Proof.
  unfold BotDatabase.set_message. rewrite List.filter_app. simpl.
  rewrite (proj2 (BotDatabaseFacts.has_key_true chat_id message_type _)) by reflexivity.
  replace (List.filter _ (List.filter _ table)) with (@nil BotDatabase.Row); [reflexivity|].
  symmetry. induction table as [|r table IH]; simpl; [reflexivity|].
  destruct (BotDatabase.has_key chat_id message_type r) eqn:E; simpl; [exact IH|].
  rewrite E. exact IH.
Qed.

(** C5. A template edit replaces the whole row of its chat and message
    type: whatever template and image were stored, after a template is
    consumed in the awaiting-text state, [get_message] returns the new
    template and no image, there is exactly one row for the key, the other
    keys read as before, and no run of the bot ever leaves two rows for one
    key. The row that is written is the one of the chat the input arrived
    in. *)
Theorem template_edit_replaces_row :
  forall (str_format : string -> string -> option string) (W : World) (chat_id user_id : Z)
         (text : string) (message : Message) (state : UserState) (b : Bot),
    user_states b !! user_id = Some state ->
    action state = edit_message ->
    storage_up W = true ->
    let b' := run (handle_user_input W chat_id user_id text message) b in
    BotDatabase.get_message (settings b') chat_id (message_type state) =
      (Some (parse_message_entities text (default [] (msg_entities message))), None)
    /\ length (List.filter (BotDatabase.has_key chat_id (message_type state)) (settings b'))
       = 1%nat
    /\ (forall c k, (chat_id, message_type state) <> (c, k) ->
          BotDatabase.get_message (settings b') c k = BotDatabase.get_message (settings b) c k)
    /\ (forall events b0,
          BotDatabase.primary_key_ok (settings b0) ->
          BotDatabase.primary_key_ok (settings (process_all str_format events b0))).
Proof.
  intros fmt W chat_id user_id text message state b Hstate Haction Hup b'.
  subst b'. unfold run. rewrite (edit_consumed W chat_id user_id text message state b) by assumption.
  simpl. split; [|split; [|split]].
  - apply BotDatabaseFacts.get_set_same.
  - rewrite one_row_after_set. reflexivity.
  - intros c k Hne. apply BotDatabaseFacts.get_set_other, Hne.
  - intros events b0. apply primary_key_always.
Qed.

Lemma template_edit_replaces_row_witness :
  BotDatabase.get_message
    (settings (run (handle_user_input sample_world (-100) 7 "Bye {username}"
                      (text_message "Bye {username}"))
                   (bot_with [leave_row "Old text" (Some "images/leave_-100_old.jpg")] 7
                      awaiting_text)))
    (-100) "leave" = (Some "Bye {username}", None).
Proof.
  refine (proj1 (template_edit_replaces_row simple_format sample_world (-100) 7 "Bye {username}"
                   (text_message "Bye {username}") awaiting_text
                   (bot_with [leave_row "Old text" (Some "images/leave_-100_old.jpg")] 7
                      awaiting_text) _ _ _)); reflexivity.
Defined.

(** The row that an edit writes is the one of the chat the input arrives
    in; the chat recorded in the conversation state is not read. *)
Example edit_lands_in_chat_of_input :
  let b := run (handle_user_input sample_world (-200) 7 "Bye" (text_message "Bye"))
               (bot_with [] 7 awaiting_text) in
  state_chat_id awaiting_text = -100
  /\ BotDatabase.get_message (settings b) (-200) "leave" = (Some "Bye", None)
  /\ BotDatabase.get_message (settings b) (-100) "leave" = (None, None).
Proof. repeat split; reflexivity. Qed.

(** C6, as amended. When a photo is consumed in the awaiting-photo state
    and the download succeeds (it returns a content, which the handler
    tests for not being empty; the disk and the storage work), the bytes
    are stored under [images/<message type>_<chat>_<file name>], and
    afterwards [get_message] returns the new image path together with the
    template that was stored before if there was one and it was not the
    empty string, and with the default template of the message type
    otherwise (the empty string for a message type without default). *)
Theorem photo_upload_keeps_template :
  forall (W : World) (chat_id user_id : Z) (text : string) (message : Message)
         (state : UserState) (b : Bot) (photos : list PhotoSize) (photo : PhotoSize)
         (file_id : string) (c : Byte.byte) (content : list Byte.byte) (file_path : string),
    user_states b !! user_id = Some state ->
    action state = upload_image ->
    msg_photo message = Some photos ->
    last photos = Some photo ->
    photo_file_id photo = Some file_id ->
    file_id <> "" ->
    get_file W file_id = FileContent (c :: content) file_path ->
    disk_up W = true ->
    storage_up W = true ->
    let k := message_type state in
    let image_path :=
      "images/" +:+ k +:+ "_" +:+ pretty chat_id +:+ "_" +:+
      TelegramBot.last_segment file_path in
    let b' := run (handle_user_input W chat_id user_id text message) b in
    files b' !! image_path = Some (c :: content)
    /\ (forall template image,
          BotDatabase.get_message (settings b) chat_id k = (Some template, image) ->
          template <> "" ->
          BotDatabase.get_message (settings b') chat_id k = (Some template, Some image_path))
    /\ (fst (BotDatabase.get_message (settings b) chat_id k) = None
        \/ fst (BotDatabase.get_message (settings b) chat_id k) = Some "" ->
        BotDatabase.get_message (settings b') chat_id k =
        (Some (default "" (get_default_messages k)), Some image_path)).
Proof.
  intros W chat_id user_id text message state b photos photo file_id c content file_path
    Hstate Haction Hphotos Hlast Hid Hne Hfile Hdisk Hup k image_path b'.
  assert (Htruthy : PyStr.truthy file_id = true) by (destruct file_id; [contradiction|reflexivity]).
  subst b'. unfold run.
  rewrite (photo_consumed W chat_id user_id text message state b photos photo file_id c content
             file_path) by assumption.
  simpl. split; [|split].
  - apply lookup_insert_eq.
  - intros template image Hget Hnonempty. rewrite BotDatabaseFacts.get_set_same.
    fold k. rewrite Hget. simpl. unfold template_to_keep.
    destruct template; [contradiction|reflexivity].
  - intros Hget. rewrite BotDatabaseFacts.get_set_same. fold k.
    destruct Hget as [-> | ->]; reflexivity.
Qed.

Lemma photo_upload_keeps_template_witness :
  BotDatabase.get_message
    (settings (run (handle_user_input sample_world (-100) 7 "" photo_message)
                   (bot_with [leave_row "Bye {username}" None] 7 awaiting_photo)))
    (-100) "leave" = (Some "Bye {username}", Some "images/leave_-100_file_0.jpg").
Proof.
  refine (proj1 (proj2 (photo_upload_keeps_template sample_world (-100) 7 "" photo_message
                          awaiting_photo
                          (bot_with [leave_row "Bye {username}" None] 7 awaiting_photo)
                          _ {| photo_file_id := Some "large" |} "large" _ _ "photos/file_0.jpg"
                          _ _ _ _ _ _ _ _ _))
                 "Bye {username}" None _ _); try reflexivity; discriminate.
Defined.

(** As stated, the property fails for a stored template that is the empty
    string (the template that a photo sent in the awaiting-text state
    leaves behind): the upload does not keep it but writes the default
    template in its place. *)
Lemma photo_upload_empty_template_counterexample :
  let b := bot_with [leave_row "" None] 7 awaiting_photo in
  let b' := run (handle_user_input sample_world (-100) 7 "" photo_message) b in
  BotDatabase.get_message (settings b) (-100) "leave" = (Some "", None)
  /\ BotDatabase.get_message (settings b') (-100) "leave" =
     (Some default_leave, Some "images/leave_-100_file_0.jpg")
  /\ fst (BotDatabase.get_message (settings b') (-100) "leave")
     <> fst (BotDatabase.get_message (settings b) (-100) "leave").
Proof.
  intros b b'. split; [reflexivity|]. split; [reflexivity|]. discriminate.
Qed.

(** C10. A message without a text field (a photo, say, which carries no
    entities either) from a user in the awaiting-text state is consumed as
    the empty template: the empty string is stored for the chat and the
    message type with no image, and the conversation state is cleared. *)
Theorem missing_text_stores_empty_template :
  forall (W : World) (update : Update) (message : Message) (chat_id user_id : Z)
         (state : UserState) (b : Bot),
    upd_message update = Some message ->
    usable_id (msg_chat_id message) = Some chat_id ->
    usable_id (msg_from_id message) = Some user_id ->
    msg_text message = None ->
    default [] (msg_entities message) = [] ->
    user_states b !! user_id = Some state ->
    action state = edit_message ->
    storage_up W = true ->
    let b' := run (handle_message W update) b in
    BotDatabase.get_message (settings b') chat_id (message_type state) = (Some "", None)
    /\ user_states b' !! user_id = None.
Proof.
  intros W update message chat_id user_id state b Hmsg Hchat Huser Htext Hent Hstate Haction Hup b'.
  subst b'. unfold run.
  assert (Htext_of : text_of message = "") by (unfold text_of; rewrite Htext; reflexivity).
  rewrite (handle_message_pending W update message chat_id user_id); try eassumption.
  - rewrite (edit_consumed W chat_id user_id (text_of message) message state b) by assumption.
    simpl. rewrite Htext_of, Hent. simpl. split.
    + apply BotDatabaseFacts.get_set_same.
    + apply lookup_delete_eq.
  - rewrite Htext_of. intros [H | H]; discriminate H.
  - rewrite Hstate. eauto.
Qed.

Lemma missing_text_stores_empty_template_witness :
  BotDatabase.get_message
    (settings (run (handle_message sample_world (update_of photo_message))
                   (bot_with [leave_row "Old text" (Some "images/leave_-100_old.jpg")] 7
                      awaiting_text)))
    (-100) "leave" = (Some "", None).
Proof.
  refine (proj1 (missing_text_stores_empty_template sample_world (update_of photo_message)
                   photo_message (-100) 7 awaiting_text
                   (bot_with [leave_row "Old text" (Some "images/leave_-100_old.jpg")] 7
                      awaiting_text) _ _ _ _ _ _ _ _)); reflexivity.
Defined.

(** ** Witnesses of the remaining properties *)

Lemma settings_round_trip_witness :
  BotDatabase.get_message [other_row] 1 "leave" = (None, None).
Proof.
  refine (proj2 (settings_round_trip [other_row] 1 "leave" "X") _).
  apply (bool_decide_unpack _). vm_compute. exact I.
Defined.

Example store_round_trip_sample :
  BotDatabase.get_message (BotDatabase.set_message [] 1 "leave" "X" None) 1 "leave"
  = (Some "X", None).
Proof. reflexivity. Qed.

Lemma reset_clears_chat_witness :
  BotDatabase.get_message
    (settings (run (handle_callback_query sample_world (button_press "reset_default"))
                   (bot_with [leave_row "Bye" None; other_row] 7 awaiting_text)))
    (-100) "leave" = (None, None).
Proof.
  refine (proj1 (reset_clears_chat sample_world (button_press "reset_default") _ (-100) 7
                   (bot_with [leave_row "Bye" None; other_row] 7 awaiting_text)
                   _ _ _ _ _ _) "leave"); reflexivity.
Defined.

(** The reset leaves the other chat alone. *)
Example reset_other_chat :
  BotDatabase.get_message
    (settings (run (handle_callback_query sample_world (button_press "reset_default"))
                   (bot_with [leave_row "Bye" None; other_row] 7 awaiting_text)))
    (-200) "ban" = (Some "Out, {username}.", None).
Proof. reflexivity. Qed.

Lemma settings_command_authorization_witness :
  outbox (snd (handle_settings_command member_world (-100) 7 (Some 41) fresh_bot)) =
  [SendMessage (-100) denial_text].
Proof.
  refine (proj1 (proj2 (proj2 (settings_command_authorization member_world (-100) 7 (Some 41)
                                 fresh_bot))) _).
  reflexivity.
Defined.

Example settings_menu_for_administrator :
  outbox (run (handle_message sample_world (update_of (text_message "/edit"))) fresh_bot) =
  [SendInlineKeyboard (-100) settings_text settings_keyboard]
  /\ length settings_keyboard = 7%nat.
Proof. split; reflexivity. Qed.


(** With an acknowledging gateway the stored image is the only request. *)
Lemma notifier_delivery_witness :
  outbox (run (handle_chat_member_update simple_format sample_world leave_update)
              customised_bot) =
  [ SendPhoto (-100) "images/leave_-100_file_0.jpg" "Bye @theirhandle" ].
Proof.
  destruct (notifier_delivery simple_format sample_world leave_update
              (transition "member" "left" None) (-100) their_user "leave" customised_bot
              (Some "Bye {username}") (Some "images/leave_-100_file_0.jpg")
              eq_refl eq_refl eq_refl) as (template & Htemplate & _ & Hsent & _).
  injection Htemplate as <-.
  exact (proj1 (Hsent eq_refl "Bye @theirhandle" eq_refl)).
Defined.

(** When the gateway does not acknowledge photos, all three requests are
    made, in order. *)
Example notifier_all_attempts :
  outbox (run (handle_chat_member_update simple_format no_photo_world leave_update)
              customised_bot) =
  [ SendPhoto (-100) "images/leave_-100_file_0.jpg" "Bye @theirhandle";
    SendPhoto (-100) "assets/farewell_anime.svg" "Bye @theirhandle";
    SendMessage (-100) "Bye @theirhandle" ].
Proof. reflexivity. Qed.

(** Without customisation and without images, the default leave message
    goes out as text, with the handle in the place of the placeholder. *)
Example notifier_default_text :
  outbox (run (handle_chat_member_update simple_format sample_world leave_update) fresh_bot) =
  [ SendMessage (-100)
      ("<b>Awww… @theirhandle" +:+ PyStr.drop 21 default_leave) ].
Proof. reflexivity. Qed.

(** The awaiting states are entered by the buttons of the menu. *)
Example begin_edit :
  user_states (run (handle_callback_query sample_world (button_press "edit_leave")) fresh_bot)
  !! 7 = Some awaiting_text.
Proof. reflexivity. Qed.

Example begin_image :
  user_states (run (handle_callback_query sample_world (button_press "image_leave")) fresh_bot)
  !! 7 = Some awaiting_photo.
Proof. reflexivity. Qed.

(** The conversation of the specification: begin, consume, and a further
    input is a no-op. *)
Example conversation_round :
  let b1 := run (handle_callback_query sample_world (button_press "edit_leave")) fresh_bot in
  let b2 := run (handle_message sample_world (update_of (text_message "hello"))) b1 in
  user_states b2 !! 7 = None
  /\ BotDatabase.get_message (settings b2) (-100) "leave" = (Some "hello", None)
  /\ run (handle_message sample_world (update_of (text_message "anything"))) b2 = b2.
Proof. repeat split; reflexivity. Qed.

(** * Further properties *)

(** ** Message formatter: bounds, lengths and order *)

Module FormatterBounds.
Import PyStr PyStrFacts.

Lemma take_clip n s : take (Nat.min n (String.length s)) s = take n s.
Proof.
  destruct (Nat.le_ge_cases n (String.length s)) as [H | H].
  - rewrite Nat.min_l by exact H. reflexivity.
  - rewrite Nat.min_r by exact H. rewrite !take_all by lia. reflexivity.
Qed.

Lemma bound_nonneg n i : 0 <= n -> 0 <= i -> bound n i = Z.min n i.
Proof. intros Hn Hi. unfold bound. destruct (i <? 0) eqn:E; lia. Qed.

(** Slices with bounds that are not negative, whatever their size: Python
    clips them to the end of the string, as [take] and [drop] do. *)
Lemma slice_to_clipped s b : 0 <= b -> slice s None (Some b) = take (Z.to_nat b) s.
Proof.
  intros Hb. unfold slice. pose proof (len_nonneg s) as Hn.
  rewrite bound_nonneg by assumption. rewrite Z.sub_0_r.
  rewrite <- (take_clip (Z.to_nat b)). f_equal. unfold len. lia.
Qed.

Lemma slice_from_clipped s a : 0 <= a -> slice s (Some a) None = drop (Z.to_nat a) s.
Proof.
  intros Ha. unfold slice. pose proof (len_nonneg s) as Hn.
  rewrite bound_nonneg by assumption.
  destruct (Z.le_ge_cases a (len s)) as [H | H].
  - rewrite Z.min_r by exact H. apply take_all. rewrite length_drop. unfold len. lia.
  - rewrite Z.min_l by exact H. rewrite Z.sub_diag. simpl.
    rewrite drop_all by (unfold len in H; lia). reflexivity.
Qed.

Lemma slice_between_clipped s a l :
  0 <= a -> 0 <= l ->
  slice s (Some a) (Some (a + l)) = take (Z.to_nat l) (drop (Z.to_nat a) s).
Proof.
  intros Ha Hl. unfold slice. pose proof (len_nonneg s) as Hn.
  rewrite !bound_nonneg by lia.
  destruct (Z.le_ge_cases (len s) a) as [H | H].
  - rewrite !Z.min_l by lia. rewrite Z.sub_diag. simpl.
    rewrite !drop_all by (unfold len in H; lia). destruct (Z.to_nat l); reflexivity.
  - rewrite (Z.min_r (len s) a) by exact H.
    destruct (Z.le_ge_cases (a + l) (len s)) as [H' | H'].
    + rewrite Z.min_r by exact H'. f_equal. lia.
    + rewrite Z.min_l by exact H'.
      rewrite !take_all by (rewrite length_drop; unfold len in *; lia). reflexivity.
Qed.

Lemma drop_drop n m s : drop n (drop m s) = drop (m + n) s.
Proof.
  revert s. induction m as [|m IH]; intros [|c s]; simpl; try reflexivity.
  - destruct n; reflexivity.
  - apply IH.
Qed.

(** [wrap] at a position that is not negative. *)
Lemma wrap_clipped t o l opening closing :
  0 <= o -> 0 <= l ->
  wrap t o l opening closing =
  take (Z.to_nat o) t +:+ opening +:+ take (Z.to_nat l) (drop (Z.to_nat o) t) +:+ closing +:+
  drop (Z.to_nat o + Z.to_nat l) t.
Proof.
  intros Ho Hl. unfold wrap.
  rewrite slice_to_clipped, slice_between_clipped, slice_from_clipped by lia.
  replace (Z.to_nat (o + l)) with (Z.to_nat o + Z.to_nat l)%nat by lia. reflexivity.
Qed.

Lemma apply_entity_tags t e :
  0 <= get_offset e -> 0 <= get_length e ->
  apply_entity t e =
  take (Z.to_nat (get_offset e)) t +:+ fst (tags (ent_type e)) +:+
  take (Z.to_nat (get_length e)) (drop (Z.to_nat (get_offset e)) t) +:+
  snd (tags (ent_type e)) +:+
  drop (Z.to_nat (get_offset e) + Z.to_nat (get_length e)) t.
Proof.
  intros Ho Hl. unfold apply_entity, tags.
  repeat (case_decide; [simpl; apply wrap_clipped; assumption|]).
  simpl. rewrite !app_empty_l. rewrite <- drop_drop.
  rewrite take_drop, take_drop. reflexivity.
Qed.

Lemma apply_entity_unsupported t e : ~ supported (ent_type e) -> apply_entity t e = t.
Proof.
  intros Hno. unfold apply_entity, supported in *.
  repeat (case_decide; [exfalso; apply Hno; tauto|]). reflexivity.
Qed.

Lemma length_apply_entity t e :
  0 <= get_offset e -> 0 <= get_length e ->
  len (apply_entity t e) = len t + tag_length e.
Proof.
  intros Ho Hl. rewrite apply_entity_tags by assumption.
  unfold tag_length, len. rewrite !length_app, !length_take, !length_drop. lia.
Qed.

Lemma insert_reverse_sorted {A} (key : A -> Z) x l :
  StronglySorted (fun a b => key b <= key a) l ->
  StronglySorted (fun a b => key b <= key a) (insert_reverse key x l).
Proof.
  induction l as [|y l IH]; intros Hs; simpl.
  - repeat constructor.
  - apply StronglySorted_inv in Hs as [Hs Hy].
    destruct (key y <=? key x) eqn:E.
    + apply Z.leb_le in E. constructor; [constructor; assumption|].
      constructor; [exact E|]. eapply Forall_impl; [exact Hy|]. simpl. intros z Hz. lia.
    + apply Z.leb_gt in E. constructor; [apply IH, Hs|].
      rewrite (FormatterFacts.insert_reverse_perm key x l). constructor; [lia|exact Hy].
Qed.

Lemma sorted_reverse_sorted {A} (key : A -> Z) l :
  StronglySorted (fun a b => key b <= key a) (sorted_reverse key l).
Proof.
  induction l as [|x l IH]; simpl; [constructor|]. apply insert_reverse_sorted, IH.
Qed.

Lemma key_determines {A} (key : A -> Z) l a b :
  NoDup (List.map key l) -> a ∈ l -> b ∈ l -> key a = key b -> a = b.
Proof.
  intros Hnd Ha Hb Hk. induction l as [|x l IH]; [inversion Ha|].
  simpl in Hnd. apply NoDup_cons in Hnd as [Hx Hnd].
  apply elem_of_cons in Ha as [-> | Ha]; apply elem_of_cons in Hb as [-> | Hb];
    try reflexivity.
  - exfalso. apply Hx. rewrite Hk. apply list_elem_of_In, List.in_map, list_elem_of_In, Hb.
  - exfalso. apply Hx. rewrite <- Hk.
    apply list_elem_of_In, List.in_map, list_elem_of_In, Ha.
  - apply IH; assumption.
Qed.

(** With keys that are all different, the sorted list does not depend on
    the order of the input. *)
Lemma sorted_reverse_permutation {A} (key : A -> Z) l l' :
  NoDup (List.map key l) -> Permutation l l' ->
  sorted_reverse key l = sorted_reverse key l'.
Proof.
  intros Hnd Hperm.
  apply (StronglySorted_unique_strong (fun a b => key b <= key a)).
  - intros a b Ha Hb H1 H2.
    rewrite (FormatterFacts.sorted_reverse_perm key l) in Ha.
    rewrite (FormatterFacts.sorted_reverse_perm key l'), <- Hperm in Hb.
    apply (key_determines key l); [assumption..|lia].
  - apply sorted_reverse_sorted.
  - apply sorted_reverse_sorted.
  - rewrite !FormatterFacts.sorted_reverse_perm. exact Hperm.
Qed.

Lemma fold_unsupported entities t :
  Forall (fun e => ~ supported (ent_type e)) entities ->
  fold_left apply_entity entities t = t.
Proof.
  revert t. induction entities as [|e entities IH]; intros t Hall; simpl; [reflexivity|].
  apply Forall_cons in Hall as [He Hall]. rewrite apply_entity_unsupported by exact He.
  apply IH, Hall.
Qed.

Lemma fold_length entities t :
  Forall (fun e => 0 <= get_offset e /\ 0 <= get_length e) entities ->
  len (fold_left apply_entity entities t) =
  len t + foldr (fun e n => tag_length e + n) 0 entities.
Proof.
  revert t. induction entities as [|e entities IH]; intros t Hall; simpl; [lia|].
  apply Forall_cons in Hall as [[Ho Hl] Hall]. rewrite IH by exact Hall.
  rewrite length_apply_entity by assumption. lia.
Qed.

Lemma tag_total_permutation l l' :
  Permutation l l' ->
  foldr (fun e n => tag_length e + n) 0 l = foldr (fun e n => tag_length e + n) 0 l'.
Proof. induction 1; simpl; lia. Qed.

End FormatterBounds.

(** X1. Entities of kinds other than the five supported ones (links,
    mentions, hashtags, ...) leave the text exactly as it is, wherever they
    point. *)
Theorem formatter_ignores_other_kinds :
  forall (text : string) (entities : list Entity),
    Forall (fun e => ~ supported (ent_type e)) entities ->
    parse_message_entities text entities = text.
Proof.
  intros text entities Hall. unfold parse_message_entities.
  destruct entities as [|e entities]; [reflexivity|].
  apply FormatterBounds.fold_unsupported.
  rewrite FormatterFacts.sorted_reverse_perm. exact Hall.
Qed.

Lemma formatter_ignores_other_kinds_witness :
  parse_message_entities "see https://example.org @bob"
    [span "url" 4 19; span "mention" 24 4] = "see https://example.org @bob".
Proof.
  apply formatter_ignores_other_kinds.
  repeat constructor; unfold supported; simpl; intros H;
    repeat (destruct H as [H | H]; try discriminate H); discriminate H.
Defined.

(** X2. When the entities start at pairwise different offsets, the result
    does not depend on the order in which the message lists them. *)
Theorem formatter_order_independent :
  forall (text : string) (entities entities' : list Entity),
    NoDup (List.map get_offset entities) ->
    Permutation entities entities' ->
    parse_message_entities text entities = parse_message_entities text entities'.
Proof.
  intros text entities entities' Hnd Hperm. unfold parse_message_entities.
  rewrite (FormatterBounds.sorted_reverse_permutation get_offset entities entities')
    by assumption.
  destruct entities as [|e entities].
  - apply Permutation_nil in Hperm. subst. reflexivity.
  - destruct entities' as [|e' entities']; [|reflexivity].
    apply Permutation_sym, Permutation_nil in Hperm. discriminate Hperm.
Qed.

Lemma formatter_order_independent_witness :
  parse_message_entities "hello world" [span "italic" 6 5; span "bold" 0 5] =
  parse_message_entities "hello world" [span "bold" 0 5; span "italic" 6 5].
Proof.
  apply formatter_order_independent.
  - apply (bool_decide_unpack _). vm_compute. exact I.
  - apply perm_swap.
Defined.

(** With equal offsets the order of the list does matter. *)
Example formatter_order_matters_at_equal_offsets :
  parse_message_entities "a" [span "bold" 0 0; span "italic" 0 1] = "<i><</i>b></b>a"
  /\ parse_message_entities "a" [span "italic" 0 1; span "bold" 0 0] = "<b></b><i>a</i>".
Proof. split; reflexivity. Qed.

(** X3. A single entity whose offset and length are not negative never
    raises, however far it reaches: the slices are clipped to the text. The
    tags go around the characters from the offset up to the end of the span
    or of the text, and an entity that starts at or after the end of the
    text appends an empty pair of tags. *)
Theorem formatter_clips_to_text :
  forall (text : string) (e : Entity),
    0 <= get_offset e -> 0 <= get_length e ->
    parse_message_entities text [e] =
      PyStr.take (Z.to_nat (get_offset e)) text +:+ fst (tags (ent_type e)) +:+
      PyStr.take (Z.to_nat (get_length e)) (PyStr.drop (Z.to_nat (get_offset e)) text) +:+
      snd (tags (ent_type e)) +:+
      PyStr.drop (Z.to_nat (get_offset e) + Z.to_nat (get_length e)) text
    /\ (PyStr.len text <= get_offset e ->
        parse_message_entities text [e] =
        text +:+ fst (tags (ent_type e)) +:+ snd (tags (ent_type e)))
    /\ (get_offset e <= PyStr.len text <= get_offset e + get_length e ->
        parse_message_entities text [e] =
        PyStr.take (Z.to_nat (get_offset e)) text +:+ fst (tags (ent_type e)) +:+
        PyStr.drop (Z.to_nat (get_offset e)) text +:+ snd (tags (ent_type e))).
Proof.
  intros text e Ho Hl.
  assert (H : parse_message_entities text [e] = apply_entity text e) by reflexivity.
  rewrite H, FormatterBounds.apply_entity_tags by assumption.
  split; [reflexivity|]. split.
  - intros Hend. unfold PyStr.len in Hend.
    rewrite PyStrFacts.take_all by lia.
    rewrite !PyStrFacts.drop_all by lia.
    assert (Hnil : forall n, PyStr.take n "" = "") by (intros []; reflexivity).
    rewrite Hnil, PyStrFacts.app_empty_r. reflexivity.
  - intros [Hstart Hend]. unfold PyStr.len in *.
    rewrite (PyStrFacts.take_all (Z.to_nat (get_length e)))
      by (rewrite PyStrFacts.length_drop; lia).
    rewrite (PyStrFacts.drop_all (Z.to_nat (get_offset e) + Z.to_nat (get_length e))) by lia.
    rewrite PyStrFacts.app_empty_r. reflexivity.
Qed.

Lemma formatter_clips_to_text_witness :
  parse_message_entities "hi" [span "bold" 5 3] = "hi" +:+ "<b>" +:+ "</b>".
Proof.
  refine (proj1 (proj2 (formatter_clips_to_text "hi" (span "bold" 5 3) _ _)) _);
    vm_compute; discriminate.
Defined.

Example formatter_span_runs_past_end :
  parse_message_entities "hello" [span "code" 3 10] = "hel<code>lo</code>".
Proof. reflexivity. Qed.

(** X4. The formatter only adds tags: whenever the offsets and lengths are
    not negative (the spans may overlap or reach past the end), the length
    of the result is the length of the text plus the lengths of the tags of
    all entities. *)
Theorem formatter_adds_only_tags :
  forall (text : string) (entities : list Entity),
    Forall (fun e => 0 <= get_offset e /\ 0 <= get_length e) entities ->
    PyStr.len (parse_message_entities text entities) =
    PyStr.len text + foldr (fun e n => tag_length e + n) 0 entities.
Proof.
  intros text entities Hall. unfold parse_message_entities.
  destruct entities as [|e entities]; [simpl; lia|].
  rewrite FormatterBounds.fold_length
    by (rewrite FormatterFacts.sorted_reverse_perm; exact Hall).
  f_equal. apply FormatterBounds.tag_total_permutation, FormatterFacts.sorted_reverse_perm.
Qed.

Lemma formatter_adds_only_tags_witness :
  PyStr.len (parse_message_entities "hello world" [span "bold" 0 7; span "italic" 3 20]) =
  PyStr.len "hello world"
  + foldr (fun e n => tag_length e + n) 0 [span "bold" 0 7; span "italic" 3 20].
Proof.
  apply formatter_adds_only_tags.
  repeat constructor; vm_compute; discriminate.
Defined.

(** ** Menu controller: what a button press does *)

Module CallbackFacts.

Lemma startswith_prefix p s :
  PyStr.startswith p s = true <-> exists rest, s = p +:+ rest.
Proof.
  revert s. induction p as [|a p IH]; intros s; simpl.
  - split; [intros _; exists s; reflexivity|reflexivity].
  - destruct s as [|c s].
    + split; [discriminate|]. intros (rest & H). discriminate H.
    + destruct (Ascii.eqb_spec a c) as [<- | Hne].
      * rewrite IH. split.
        -- intros (rest & ->). exists rest. reflexivity.
        -- intros (rest & H). injection H as ->. exists rest. reflexivity.
      * split; [discriminate|]. intros (rest & H). injection H as -> _. contradiction.
Qed.

Lemma split_nonempty sep s : exists w ws, PyStr.split sep s = w :: ws.
Proof.
  destruct s as [|c s]; simpl; [eauto|].
  destruct (Ascii.eqb c sep); [eauto|].
  destruct (PyStr.split sep s); eauto.
Qed.

(** A token with the prefix [edit_] always has a second piece. *)
Lemma split_edit data :
  PyStr.startswith "edit_" data = true ->
  exists k pieces, PyStr.split "_" data = "edit" :: k :: pieces.
Proof.
  intros H. apply startswith_prefix in H as (rest & ->).
  destruct (split_nonempty "_" rest) as (k & pieces & Hsplit).
  exists k, pieces. change ("edit_" +:+ rest) with
    (String "e" (String "d" (String "i" (String "t" (String "_" rest))))).
  simpl. rewrite Hsplit. reflexivity.
Qed.

Lemma split_image data :
  PyStr.startswith "image_" data = true ->
  exists k pieces, PyStr.split "_" data = "image" :: k :: pieces.
Proof.
  intros H. apply startswith_prefix in H as (rest & ->).
  destruct (split_nonempty "_" rest) as (k & pieces & Hsplit).
  exists k, pieces. change ("image_" +:+ rest) with
    (String "i" (String "m" (String "a" (String "g" (String "e" (String "_" rest)))))).
  simpl. rewrite Hsplit. reflexivity.
Qed.

(** The handler up to the dispatch on the token, for a press with usable
    identifiers. *)
Lemma callback_start W update callback chat_id user_id b :
  upd_callback_query update = Some callback ->
  usable_id (cb_chat_id callback) = Some chat_id ->
  usable_id (cb_from_id callback) = Some user_id ->
  handle_callback_query W update b =
  try_except
    (do _ <- TelegramBot.answer_callback_query W (cb_id callback) "";
     if negb (is_chat_admin W chat_id user_id)
     then do _ <- TelegramBot.answer_callback_query W (cb_id callback)
                    "Only admins can change settings!";
          ret tt
     else
       let data := default "" (cb_data callback) in
       if PyStr.startswith "edit_" data then
         do message_type <- second_piece data;
         do '(current_message, _) <- db_get_message W chat_id message_type;
         let current_message :=
           match current_message with
           | Some m => if PyStr.truthy m then m
                       else default "Default message" (get_default_messages message_type)
           | None => default "Default message" (get_default_messages message_type)
           end in
         do _ <- TelegramBot.edit_message W chat_id (cb_message_id callback)
                   (edit_prompt message_type current_message) back_keyboard;
         set_user_state user_id
           {| action := edit_message; message_type := message_type;
              state_chat_id := chat_id |}
       else if PyStr.startswith "image_" data then
         do message_type <- second_piece data;
         do _ <- TelegramBot.edit_message W chat_id (cb_message_id callback)
                   (image_prompt message_type) back_keyboard;
         set_user_state user_id
           {| action := upload_image; message_type := message_type;
              state_chat_id := chat_id |}
       else if decide (data = "reset_default") then
         do _ <- db_delete_settings W chat_id;
         do _ <- TelegramBot.edit_message W chat_id (cb_message_id callback) reset_text
                   back_keyboard;
         ret tt
       else if decide (data = "back_to_menu") then
         handle_settings_command_edit W chat_id user_id (cb_message_id callback)
       else ret tt) b.
Proof.
  intros Hcb Hchat Huser. unfold handle_callback_query. rewrite Hcb, Hchat, Huser.
  reflexivity.
Qed.

End CallbackFacts.

(** X5. A button press by someone who is not an administrator of the chat
    changes nothing: the press is answered, then answered again with the
    refusal, and settings, conversation states and files stay as they
    are, whatever the token. *)
Theorem callback_needs_admin :
  forall (W : World) (update : Update) (callback : CallbackQuery) (chat_id user_id : Z)
         (b : Bot),
    upd_callback_query update = Some callback ->
    usable_id (cb_chat_id callback) = Some chat_id ->
    usable_id (cb_from_id callback) = Some user_id ->
    is_chat_admin W chat_id user_id = false ->
    let b' := run (handle_callback_query W update) b in
    outbox b' =
      (outbox b ++ [AnswerCallbackQuery (cb_id callback) "";
                    AnswerCallbackQuery (cb_id callback) "Only admins can change settings!"])%list
    /\ settings b' = settings b /\ user_states b' = user_states b /\ files b' = files b.
Proof.
  intros W update callback chat_id user_id b Hcb Hchat Huser Hadmin b'.
  subst b'. unfold run.
  rewrite (CallbackFacts.callback_start W update callback chat_id user_id) by assumption.
  rewrite Hadmin. run_handler. rewrite <- app_assoc. repeat split; reflexivity.
Qed.

Lemma callback_needs_admin_witness :
  user_states (run (handle_callback_query member_world (button_press "edit_leave")) fresh_bot)
  = user_states fresh_bot.
Proof.
  refine (proj1 (proj2 (proj2 (callback_needs_admin member_world (button_press "edit_leave") _
                                 (-100) 7 fresh_bot _ _ _ _)))); reflexivity.
Defined.

(** X6. An administrator pressing a button whose token starts with [edit_]
    (storage working): the token always has a second piece [k]; the press
    is answered and the message it came with is edited, once, into a prompt
    with the back keyboard; and the user's conversation state becomes
    awaiting-text for [k] and this chat, replacing any state the user had;
    the states of other users, the settings and the files are untouched.
    For a [k] of ASCII characters the prompt is [edit_prompt], which shows
    the current template of [k] (the custom one if it is not empty, else
    the default, else "Default message"); for other tokens the casing of
    the title in the prompt is left open. *)
Theorem callback_begins_edit :
  forall (W : World) (update : Update) (callback : CallbackQuery) (chat_id user_id : Z)
         (data : string) (b : Bot),
    upd_callback_query update = Some callback ->
    usable_id (cb_chat_id callback) = Some chat_id ->
    usable_id (cb_from_id callback) = Some user_id ->
    cb_data callback = Some data ->
    PyStr.startswith "edit_" data = true ->
    is_chat_admin W chat_id user_id = true ->
    storage_up W = true ->
    exists k pieces prompt,
      PyStr.split "_" data = "edit" :: k :: pieces
      /\ let b' := run (handle_callback_query W update) b in
         user_states b' =
           <[user_id := {| action := edit_message; message_type := k;
                           state_chat_id := chat_id |}]> (user_states b)
         /\ outbox b' =
            (outbox b ++
             [AnswerCallbackQuery (cb_id callback) "";
              EditMessage chat_id (cb_message_id callback) prompt back_keyboard])%list
         /\ (ascii_only k ->
             prompt = edit_prompt k (shown_template (settings b) chat_id k))
         /\ settings b' = settings b /\ files b' = files b.
Proof.
  intros W update callback chat_id user_id data b Hcb Hchat Huser Hdata Hprefix Hadmin Hup.
  destruct (CallbackFacts.split_edit data Hprefix) as (k & pieces & Hsplit).
  exists k, pieces, (edit_prompt k (shown_template (settings b) chat_id k)).
  split; [exact Hsplit|]. intros b'. subst b'. unfold run.
  rewrite (CallbackFacts.callback_start W update callback chat_id user_id) by assumption.
  rewrite Hadmin, Hdata. change (default "" (Some data)) with data. cbv zeta.
  change (negb true) with false. cbv iota. rewrite Hprefix.
  unfold second_piece. rewrite Hsplit. run_handler. rewrite Hup.
  unfold shown_template, effective_template, set_user_state, modify. simpl.
  destruct (BotDatabase.get_message (settings b) chat_id k) as [[m|] image]; simpl;
    [destruct (PyStr.truthy m)|]; simpl; rewrite <- app_assoc; repeat split; reflexivity.
Qed.

Lemma callback_begins_edit_witness :
  exists k pieces prompt,
    PyStr.split "_" "edit_kick" = "edit" :: k :: pieces
    /\ let b' := run (handle_callback_query sample_world (button_press "edit_kick"))
                     (bot_with [] 7 awaiting_photo) in
       user_states b' =
         <[7 := {| action := edit_message; message_type := k; state_chat_id := -100 |}]>
           (user_states (bot_with [] 7 awaiting_photo))
       /\ outbox b' =
          (outbox (bot_with [] 7 awaiting_photo) ++
           [AnswerCallbackQuery (Some "query") "";
            EditMessage (-100) (Some 40) prompt back_keyboard])%list
       /\ (ascii_only k -> prompt = edit_prompt k (shown_template [] (-100) k))
       /\ settings b' = [] /\ files b' = ∅.
Proof.
  apply (callback_begins_edit sample_world (button_press "edit_kick") (pressed "edit_kick")
           (-100) 7 "edit_kick" (bot_with [] 7 awaiting_photo)); reflexivity.
Defined.

(** X7. An administrator pressing a button whose token starts with
    [image_]: the press is answered and the message it came with is edited,
    once, into a prompt with the back keyboard, and the user's conversation
    state becomes awaiting-photo for the second piece [k] of the token and
    this chat, replacing any state the user had; no storage access is
    needed and nothing else changes. For a [k] of ASCII characters the
    prompt is [image_prompt]; for other tokens the casing of the title in
    the prompt is left open. *)
Theorem callback_begins_image :
  forall (W : World) (update : Update) (callback : CallbackQuery) (chat_id user_id : Z)
         (data : string) (b : Bot),
    upd_callback_query update = Some callback ->
    usable_id (cb_chat_id callback) = Some chat_id ->
    usable_id (cb_from_id callback) = Some user_id ->
    cb_data callback = Some data ->
    PyStr.startswith "image_" data = true ->
    is_chat_admin W chat_id user_id = true ->
    exists k pieces prompt,
      PyStr.split "_" data = "image" :: k :: pieces
      /\ let b' := run (handle_callback_query W update) b in
         user_states b' =
           <[user_id := {| action := upload_image; message_type := k;
                           state_chat_id := chat_id |}]> (user_states b)
         /\ outbox b' =
            (outbox b ++
             [AnswerCallbackQuery (cb_id callback) "";
              EditMessage chat_id (cb_message_id callback) prompt back_keyboard])%list
         /\ (ascii_only k -> prompt = image_prompt k)
         /\ settings b' = settings b /\ files b' = files b.
Proof.
  intros W update callback chat_id user_id data b Hcb Hchat Huser Hdata Hprefix Hadmin.
  destruct (CallbackFacts.split_image data Hprefix) as (k & pieces & Hsplit).
  exists k, pieces, (image_prompt k).
  split; [exact Hsplit|]. intros b'. subst b'. unfold run.
  rewrite (CallbackFacts.callback_start W update callback chat_id user_id) by assumption.
  rewrite Hadmin, Hdata. change (default "" (Some data)) with data. cbv zeta.
  change (negb true) with false. cbv iota.
  assert (Hnot_edit : PyStr.startswith "edit_" data = false).
  { apply CallbackFacts.startswith_prefix in Hprefix as (rest & ->). reflexivity. }
  rewrite Hnot_edit, Hprefix. unfold second_piece. rewrite Hsplit. run_handler.
  unfold set_user_state, modify. simpl. rewrite <- app_assoc. repeat split; reflexivity.
Qed.

Lemma callback_begins_image_witness :
  exists k pieces prompt,
    PyStr.split "_" "image_ban" = "image" :: k :: pieces
    /\ let b' := run (handle_callback_query storage_down_world (button_press "image_ban"))
                     (bot_with [] 7 awaiting_text) in
       user_states b' =
         <[7 := {| action := upload_image; message_type := k; state_chat_id := -100 |}]>
           (user_states (bot_with [] 7 awaiting_text))
       /\ outbox b' =
          (outbox (bot_with [] 7 awaiting_text) ++
           [AnswerCallbackQuery (Some "query") "";
            EditMessage (-100) (Some 40) prompt back_keyboard])%list
       /\ (ascii_only k -> prompt = image_prompt k)
       /\ settings b' = [] /\ files b' = ∅.
Proof.
  apply (callback_begins_image storage_down_world (button_press "image_ban")
           (pressed "image_ban") (-100) 7 "image_ban" (bot_with [] 7 awaiting_text));
    reflexivity.
Defined.

(** X8. When sqlite raises, an administrator's [edit_...] or
    [reset_default] press is answered and then dropped: no prompt or
    confirmation is shown, no conversation state is created and the
    settings stay as they are. *)
Theorem callback_storage_failure :
  forall (W : World) (update : Update) (callback : CallbackQuery) (chat_id user_id : Z)
         (data : string) (b : Bot),
    upd_callback_query update = Some callback ->
    usable_id (cb_chat_id callback) = Some chat_id ->
    usable_id (cb_from_id callback) = Some user_id ->
    cb_data callback = Some data ->
    PyStr.startswith "edit_" data = true \/ data = "reset_default" ->
    is_chat_admin W chat_id user_id = true ->
    storage_up W = false ->
    let b' := run (handle_callback_query W update) b in
    outbox b' = (outbox b ++ [AnswerCallbackQuery (cb_id callback) ""])%list
    /\ settings b' = settings b /\ user_states b' = user_states b /\ files b' = files b.
Proof.
  intros W update callback chat_id user_id data b Hcb Hchat Huser Hdata Hcase Hadmin Hdown b'.
  subst b'. unfold run.
  rewrite (CallbackFacts.callback_start W update callback chat_id user_id) by assumption.
  rewrite Hadmin, Hdata. change (default "" (Some data)) with data. cbv zeta.
  change (negb true) with false. cbv iota.
  destruct Hcase as [Hprefix | ->].
  - destruct (CallbackFacts.split_edit data Hprefix) as (k & pieces & Hsplit).
    rewrite Hprefix. unfold second_piece. rewrite Hsplit. run_handler. rewrite Hdown.
    simpl. repeat split; reflexivity.
  - run_handler. rewrite Hdown. simpl. repeat split; reflexivity.
Qed.

Lemma callback_storage_failure_witness :
  user_states (run (handle_callback_query storage_down_world (button_press "edit_leave"))
                   fresh_bot) = ∅.
Proof.
  refine (proj1 (proj2 (proj2 (callback_storage_failure storage_down_world
                                 (button_press "edit_leave") (pressed "edit_leave") (-100) 7
                                 "edit_leave" fresh_bot _ _ _ _ _ _ _)))); try reflexivity.
  left. reflexivity.
Defined.

(** X9. The remaining tokens never touch settings, conversation states or
    files: [back_to_menu] edits the pressed message back into the settings
    menu (no new message is sent, and a pending edit is not cancelled), and
    any other token is answered and ignored. *)
Theorem callback_navigation :
  forall (W : World) (update : Update) (callback : CallbackQuery) (chat_id user_id : Z)
         (b : Bot),
    upd_callback_query update = Some callback ->
    usable_id (cb_chat_id callback) = Some chat_id ->
    usable_id (cb_from_id callback) = Some user_id ->
    is_chat_admin W chat_id user_id = true ->
    PyStr.startswith "edit_" (default "" (cb_data callback)) = false ->
    PyStr.startswith "image_" (default "" (cb_data callback)) = false ->
    default "" (cb_data callback) <> "reset_default" ->
    let b' := run (handle_callback_query W update) b in
    outbox b' =
      (outbox b ++
       AnswerCallbackQuery (cb_id callback) "" ::
       (if decide (default "" (cb_data callback) = "back_to_menu")
        then [EditMessage chat_id (cb_message_id callback) settings_text settings_keyboard]
        else []))%list
    /\ settings b' = settings b /\ user_states b' = user_states b /\ files b' = files b.
Proof.
  intros W update callback chat_id user_id b Hcb Hchat Huser Hadmin Hedit Himage Hreset b'.
  subst b'. unfold run.
  rewrite (CallbackFacts.callback_start W update callback chat_id user_id) by assumption.
  rewrite Hadmin. cbv zeta. change (negb true) with false. cbv iota.
  rewrite Hedit, Himage. rewrite (decide_False _ _ Hreset).
  destruct (decide (default "" (cb_data callback) = "back_to_menu")).
  - unfold handle_settings_command_edit. run_handler. rewrite <- app_assoc.
    repeat split; reflexivity.
  - run_handler. repeat split; reflexivity.
Qed.

Lemma callback_navigation_witness :
  outbox (run (handle_callback_query sample_world (button_press "back_to_menu"))
              (bot_with [] 7 awaiting_text)) =
  [AnswerCallbackQuery (Some "query") "";
   EditMessage (-100) (Some 40) settings_text settings_keyboard].
Proof.
  refine (proj1 (callback_navigation sample_world (button_press "back_to_menu")
                   (pressed "back_to_menu") (-100) 7 (bot_with [] 7 awaiting_text)
                   _ _ _ _ _ _ _)); try reflexivity.
  discriminate.
Defined.

(** ** Dispatch and conversation: what is ignored, rejected or left behind *)

(** X10. Updates that lack what the handlers need are dropped without any
    effect and without any request to the gateway: a message or a button
    press without a chat id or a user id (or with the id 0), and a
    membership change that the classifier turns down. *)
Theorem unusable_updates_are_ignored :
  forall (str_format : string -> string -> option string) (W : World) (update : Update)
         (b : Bot),
    (forall message,
        upd_message update = Some message ->
        usable_id (msg_chat_id message) = None \/ usable_id (msg_from_id message) = None ->
        handle_message W update b = (Returned tt, b))
    /\ (forall callback,
          upd_callback_query update = Some callback ->
          usable_id (cb_chat_id callback) = None \/ usable_id (cb_from_id callback) = None ->
          handle_callback_query W update b = (Returned tt, b))
    /\ (forall u,
          upd_chat_member update = Some u ->
          classify u = None ->
          handle_chat_member_update str_format W update b = (Returned tt, b)).
Proof.
  intros fmt W update b. split; [|split].
  - intros message Hmsg Hids. unfold handle_message, try_except. rewrite Hmsg.
    destruct Hids as [-> | ->]; [reflexivity|].
    destruct (usable_id (msg_chat_id message)); reflexivity.
  - intros callback Hcb Hids. unfold handle_callback_query, try_except. rewrite Hcb.
    destruct Hids as [-> | ->]; [reflexivity|].
    destruct (usable_id (cb_chat_id callback)); reflexivity.
  - intros u Hu Hclass. unfold handle_chat_member_update, try_except.
    rewrite Hu, Hclass. reflexivity.
Qed.

Lemma unusable_updates_are_ignored_witness :
  handle_message sample_world
    (update_of {| msg_chat_id := Some 0; msg_from_id := Some 7; msg_text := Some "/edit";
                  msg_message_id := None; msg_entities := None; msg_photo := None |})
    (bot_with [] 7 awaiting_text)
  = (Returned tt, bot_with [] 7 awaiting_text).
Proof.
  refine (proj1 (unusable_updates_are_ignored simple_format sample_world _ _) _ _ _).
  - reflexivity.
  - left. reflexivity.
Defined.

(** X11. The settings command does not consume a pending conversation
    state: after the command (granted or denied) the state is still there,
    and the next message of the user that is not the command is stored as
    the template. *)
Theorem command_keeps_pending_state :
  forall (W1 W2 : World) (update1 update2 : Update) (message1 message2 : Message)
         (chat1 chat2 user_id : Z) (state : UserState) (b : Bot),
    upd_message update1 = Some message1 ->
    usable_id (msg_chat_id message1) = Some chat1 ->
    usable_id (msg_from_id message1) = Some user_id ->
    is_command (text_of message1) ->
    upd_message update2 = Some message2 ->
    usable_id (msg_chat_id message2) = Some chat2 ->
    usable_id (msg_from_id message2) = Some user_id ->
    ~ is_command (text_of message2) ->
    user_states b !! user_id = Some state ->
    action state = edit_message ->
    storage_up W2 = true ->
    let b1 := run (handle_message W1 update1) b in
    let b2 := run (handle_message W2 update2) b1 in
    user_states b1 = user_states b /\ settings b1 = settings b
    /\ BotDatabase.get_message (settings b2) chat2 (message_type state) =
       (Some (parse_message_entities (text_of message2) (default [] (msg_entities message2))),
        None)
    /\ user_states b2 !! user_id = None.
Proof.
  intros W1 W2 update1 update2 message1 message2 chat1 chat2 user_id state b
    Hm1 Hc1 Hu1 Hcmd1 Hm2 Hc2 Hu2 Hcmd2 Hstate Haction Hup b1 b2.
  assert (Hb1 : user_states b1 = user_states b /\ settings b1 = settings b).
  { subst b1. unfold run, handle_message, try_except. rewrite Hm1, Hc1, Hu1.
    unfold is_command, text_of in Hcmd1. rewrite bool_decide_eq_true_2 by exact Hcmd1.
    unfold handle_settings_command.
    destruct (is_chat_admin W1 chat1 user_id); split; reflexivity. }
  destruct Hb1 as [Hstates Hsettings]. split; [exact Hstates|]. split; [exact Hsettings|].
  assert (Hstate1 : user_states b1 !! user_id = Some state) by (rewrite Hstates; exact Hstate).
  subst b2. unfold run.
  rewrite (handle_message_pending W2 update2 message2 chat2 user_id) by eauto.
  rewrite (edit_consumed W2 chat2 user_id (text_of message2) message2 state b1) by assumption.
  simpl. split; [apply BotDatabaseFacts.get_set_same|apply lookup_delete_eq].
Qed.

Lemma command_keeps_pending_state_witness :
  let b1 := run (handle_message member_world (update_of (text_message "/edit")))
                (bot_with [] 7 awaiting_text) in
  let b2 := run (handle_message sample_world (update_of (text_message "Bye"))) b1 in
  user_states b1 = user_states (bot_with [] 7 awaiting_text)
  /\ settings b1 = settings (bot_with [] 7 awaiting_text)
  /\ BotDatabase.get_message (settings b2) (-100) "leave" = (Some "Bye", None)
  /\ user_states b2 !! 7 = None.
Proof.
  refine (command_keeps_pending_state member_world sample_world
            (update_of (text_message "/edit")) (update_of (text_message "Bye"))
            (text_message "/edit") (text_message "Bye") (-100) (-100) 7 awaiting_text
            (bot_with [] 7 awaiting_text) _ _ _ _ _ _ _ _ _ _ _); try reflexivity.
  - left. reflexivity.
  - intros [H | H]; discriminate H.
Defined.

(** X12. An input in the awaiting-photo state that is turned down (no
    photo in the message, no file id on the largest photo, or nothing
    downloaded) costs the conversation state and changes nothing else: the
    user is told why in one message, the state is cleared, and settings and
    files stay as they are. *)
Theorem photo_rejected :
  forall (W : World) (chat_id user_id : Z) (text : string) (message : Message)
         (state : UserState) (b : Bot) (reply : string),
    user_states b !! user_id = Some state ->
    action state = upload_image ->
    rejection W message = Some reply ->
    let b' := run (handle_user_input W chat_id user_id text message) b in
    outbox b' = (outbox b ++ [SendMessage chat_id reply])%list
    /\ user_states b' = delete user_id (user_states b)
    /\ settings b' = settings b /\ files b' = files b.
Proof.
  intros W chat_id user_id text message state b reply Hstate Haction Hrej b'.
  assert (Hrun : handle_user_input W chat_id user_id text message b =
                 (Returned tt,
                  set_user_states (delete user_id (user_states b))
                    (set_outbox (outbox b ++ [SendMessage chat_id reply]) b))).
  { unfold handle_user_input, try_except.
    rewrite (body_with_state _ _ _ _ _ state) by exact Hstate. rewrite Haction.
    unfold rejection in Hrej. unfold receive_photo.
    destruct (msg_photo message) as [photos|];
      [destruct (last photos) as [photo|]; [|discriminate];
       destruct (photo_file_id photo) as [file_id|];
       [destruct (PyStr.truthy file_id);
        [unfold TelegramBot.download_file;
         destruct (get_file W file_id) as [| |[|c content] file_path]; try discriminate|]|]|];
      injection Hrej as <-;
      unfold TelegramBot.send_message, TelegramBot.post, del_user_state, bind, ret; simpl;
      rewrite Hstate; reflexivity. }
  subst b'. unfold run. rewrite Hrun. simpl. repeat split; reflexivity.
Qed.

Lemma photo_rejected_witness :
  outbox (run (handle_user_input sample_world (-100) 7 "hello" (text_message "hello"))
              (bot_with [leave_row "Bye" None] 7 awaiting_photo))
  = [SendMessage (-100) "❌ Please send a photo, not text."].
Proof.
  refine (proj1 (photo_rejected sample_world (-100) 7 "hello" (text_message "hello")
                   awaiting_photo (bot_with [leave_row "Bye" None] 7 awaiting_photo)
                   "❌ Please send a photo, not text." _ _ _)); reflexivity.
Defined.

(** X13. When the handling of an input raises (see [input_fails]), the user
    gets no reply at all, the conversation state is kept, so that the next
    message of the user is consumed again, and the settings are untouched;
    at most the downloaded image has already been written to disk. *)
Theorem failed_input_is_silent :
  forall (W : World) (chat_id user_id : Z) (text : string) (message : Message)
         (state : UserState) (b : Bot),
    user_states b !! user_id = Some state ->
    input_fails W state message = true ->
    let b' := run (handle_user_input W chat_id user_id text message) b in
    outbox b' = outbox b /\ user_states b' = user_states b /\ settings b' = settings b
    /\ (files b' = files b \/ exists path content, files b' = <[path := content]> (files b)).
Proof.
  intros W chat_id user_id text message state b Hstate Hfails b'.
  subst b'. unfold run, handle_user_input, try_except.
  rewrite (body_with_state _ _ _ _ _ state) by exact Hstate.
  unfold input_fails in Hfails. destruct (action state).
  - unfold db_set_message, bind. destruct (storage_up W); [discriminate|].
    simpl. auto.
  - unfold receive_photo.
    destruct (msg_photo message) as [photos|]; [|discriminate].
    destruct (last photos) as [photo|]; [|simpl; auto].
    destruct (photo_file_id photo) as [file_id|]; [|discriminate].
    destruct (PyStr.truthy file_id); [|discriminate].
    unfold TelegramBot.download_file.
    destruct (get_file W file_id) as [| |[|c content] file_path]; try discriminate;
      [simpl; auto|].
    unfold write_file, db_get_message, db_set_message, bind, modify.
    destruct (disk_up W); [|simpl; auto].
    destruct (storage_up W); [discriminate|]. simpl. eauto 10.
Qed.

Lemma failed_input_is_silent_witness :
  outbox (run (handle_user_input (world_with_download FileError) (-100) 7 "" photo_message)
              (bot_with [] 7 awaiting_photo)) = [].
Proof.
  refine (proj1 (failed_input_is_silent (world_with_download FileError) (-100) 7 ""
                   photo_message awaiting_photo (bot_with [] 7 awaiting_photo) _ _));
    reflexivity.
Defined.



(** ** Notifier: frame, failures and how it composes with the menu *)

Module NotifierFacts.

Lemma resolve_text_effective fmt custom_message k name b :
  resolve_text fmt custom_message k name b =
  match effective_template custom_message k with
  | Some template =>
      match fmt template name with
      | Some message_text => (Returned message_text, b)
      | None => (Raised, b)
      end
  | None => (Raised, b)
  end.
Proof.
  unfold resolve_text, effective_template, format_username.
  destruct custom_message as [t|]; [destruct (PyStr.truthy t)|];
    repeat case_match; reflexivity.
Qed.

(** The handler on a classified event, in all its cases. *)
Lemma chat_member_update_run fmt W update u chat_id user k b :
  upd_chat_member update = Some u ->
  classify u = Some (chat_id, user, k) ->
  handle_chat_member_update fmt W update b =
  (Returned tt,
   if storage_up W then
     match effective_template (fst (BotDatabase.get_message (settings b) chat_id k)) k with
     | Some template =>
         match fmt template (display_name user) with
         | Some message_text =>
             set_outbox
               (outbox b ++
                delivery_attempts W b chat_id
                  (snd (BotDatabase.get_message (settings b) chat_id k)) message_text) b
         | None => b
         end
     | None => b
     end
   else b).
Proof.
  intros Hupd Hclass. unfold handle_chat_member_update, try_except. rewrite Hupd, Hclass.
  unfold notify, db_get_message. destruct (storage_up W); [|reflexivity].
  unfold bind at 1, read.
  destruct (BotDatabase.get_message (settings b) chat_id k) as [custom_message custom_image].
  unfold bind at 1. rewrite resolve_text_effective. simpl.
  destruct (effective_template custom_message k) as [template|]; [|reflexivity].
  destruct (fmt template (display_name user)) as [message_text|]; [|reflexivity].
  rewrite deliver_attempts. reflexivity.
Qed.


Lemma delivery_attempts_length W b chat_id custom_image message_text :
  (1 <= length (delivery_attempts W b chat_id custom_image message_text) <= 3)%nat.
Proof.
  unfold delivery_attempts.
  destruct custom_image as [path|];
    [destruct (PyStr.truthy path && on_disk b path)|];
    destruct (on_disk b default_image); simpl;
    repeat (match goal with |- context [acknowledged ?x] => destruct (acknowledged x) end;
            simpl); lia.
Qed.

End NotifierFacts.

(** X15. Whatever the update and whatever the world answers, the handler of
    membership changes only sends: settings, conversation states and files
    are never touched, it never raises, and it makes at most three
    requests. *)
Theorem notifier_only_sends :
  forall (str_format : string -> string -> option string) (W : World) (update : Update)
         (b : Bot),
    exists sent,
      handle_chat_member_update str_format W update b =
        (Returned tt, set_outbox (outbox b ++ sent) b)
      /\ (length sent <= 3)%nat.
Proof.
  intros fmt W update b.
  assert (Hsame : b = set_outbox (outbox b ++ []) b).
  { rewrite app_nil_r. destruct b; reflexivity. }
  assert (Hnone : exists sent,
             (Returned tt, b) = (Returned tt, set_outbox (outbox b ++ sent) b)
             /\ (length sent <= 3)%nat).
  { exists []. split; [rewrite <- Hsame; reflexivity|simpl; lia]. }
  destruct (upd_chat_member update) as [u|] eqn:Hupd.
  - destruct (classify u) as [[[chat_id user] k]|] eqn:Hclass.
    + rewrite (NotifierFacts.chat_member_update_run fmt W update u chat_id user k b)
        by assumption.
      destruct (storage_up W); [|exact Hnone].
      destruct (effective_template _ k) as [template|]; [|exact Hnone].
      destruct (fmt template (display_name user)) as [message_text|]; [|exact Hnone].
      eexists. split; [reflexivity|]. apply NotifierFacts.delivery_attempts_length.
    + unfold handle_chat_member_update, try_except. rewrite Hupd, Hclass. exact Hnone.
  - unfold handle_chat_member_update, try_except. rewrite Hupd. exact Hnone.
Qed.

(** X16. A farewell can fail silently: when sqlite raises, or when
    [str.format] rejects the template in use (a custom template with a
    stray brace, say), nothing is sent at all for the event, not even the
    default text. *)
Theorem notifier_silent_on_failure :
  forall (str_format : string -> string -> option string) (W : World) (update : Update)
         (u : ChatMemberUpdated) (chat_id : Z) (user : User) (message_type : string) (b : Bot),
    upd_chat_member update = Some u ->
    classify u = Some (chat_id, user, message_type) ->
    storage_up W = false
    \/ (exists template,
          effective_template
            (fst (BotDatabase.get_message (settings b) chat_id message_type)) message_type
          = Some template
          /\ str_format template (display_name user) = None) ->
    handle_chat_member_update str_format W update b = (Returned tt, b).
Proof.
  intros fmt W update u chat_id user k b Hupd Hclass Hfail.
  rewrite (NotifierFacts.chat_member_update_run fmt W update u chat_id user k b)
    by assumption.
  destruct Hfail as [-> | (template & -> & ->)]; [reflexivity|].
  destruct (storage_up W); reflexivity.
Qed.

Lemma notifier_silent_on_failure_witness :
  handle_chat_member_update simple_format sample_world leave_update
    (bot_with [leave_row "Bye {name}" None] 7 awaiting_text)
  = (Returned tt, bot_with [leave_row "Bye {name}" None] 7 awaiting_text).
Proof.
  refine (notifier_silent_on_failure simple_format sample_world leave_update
            (transition "member" "left" None) (-100) their_user "leave"
            (bot_with [leave_row "Bye {name}" None] 7 awaiting_text) _ _ _).
  - reflexivity.
  - reflexivity.
  - right. exists "Bye {name}". split; reflexivity.
Defined.



(** X18. Reset, then farewell: after an administrator has reset a chat, an
    event in that chat is announced with the default template of its
    message type and without custom image, whatever was stored before. *)
Theorem reset_then_notify :
  forall (str_format : string -> string -> option string) (W1 W2 : World)
         (update1 update2 : Update) (callback : CallbackQuery) (chat_id user_id : Z)
         (b : Bot) (u : ChatMemberUpdated) (departed : User) (message_type : string)
         (template caption : string),
    upd_callback_query update1 = Some callback ->
    usable_id (cb_chat_id callback) = Some chat_id ->
    usable_id (cb_from_id callback) = Some user_id ->
    cb_data callback = Some "reset_default" ->
    is_chat_admin W1 chat_id user_id = true ->
    storage_up W1 = true ->
    upd_chat_member update2 = Some u ->
    classify u = Some (chat_id, departed, message_type) ->
    storage_up W2 = true ->
    get_default_messages message_type = Some template ->
    str_format template (display_name departed) = Some caption ->
    let b1 := run (handle_callback_query W1 update1) b in
    let b2 := run (handle_chat_member_update str_format W2 update2) b1 in
    outbox b2 = (outbox b1 ++ delivery_attempts W2 b1 chat_id None caption)%list.
Proof.
  intros fmt W1 W2 update1 update2 callback chat_id user_id b u departed k template caption
    Hcb Hchat Huser Hdata Hadmin Hup1 Hupd Hclass Hup2 Hdefault Hfmt b1 b2.
  assert (Hget : BotDatabase.get_message (settings b1) chat_id k = (None, None)).
  { assert (Hb1 : settings b1 = BotDatabase.delete_settings (settings b) chat_id).
    { subst b1. unfold handle_callback_query. rewrite Hcb, Hchat, Huser, Hdata.
      run_handler. rewrite Hadmin, Hup1. reflexivity. }
    rewrite Hb1. apply BotDatabaseFacts.get_delete_same. }
  subst b2. unfold run.
  rewrite (NotifierFacts.chat_member_update_run fmt W2 update2 u chat_id departed k b1)
    by assumption.
  rewrite Hup2, Hget. simpl. rewrite Hdefault, Hfmt. reflexivity.
Qed.

Lemma reset_then_notify_witness :
  let b1 := run (handle_callback_query sample_world (button_press "reset_default"))
                customised_bot in
  outbox (run (handle_chat_member_update simple_format sample_world leave_update) b1)
  = (outbox b1 ++
     delivery_attempts sample_world b1 (-100) None
       ("<b>Awww… @theirhandle" +:+ PyStr.drop 21 default_leave))%list.
Proof.
  refine (reset_then_notify simple_format sample_world sample_world
            (button_press "reset_default") leave_update (pressed "reset_default") (-100) 7
            customised_bot (transition "member" "left" None) their_user "leave"
            default_leave _ _ _ _ _ _ _ _ _ _ _ _); reflexivity.
Defined.



(** ** Settings store and admin table: how writes compose *)


(** X21. A write adds at most one row: on a table with a sound primary key
    the number of rows grows by one when the key is new and stays the same
    when the key exists. *)
Theorem set_message_row_count :
  forall (table : list BotDatabase.Row) (chat_id : Z) (message_type content : string)
         (image_path : option string),
    BotDatabase.primary_key_ok table ->
    length (BotDatabase.set_message table chat_id message_type content image_path) =
    match BotDatabase.get_message table chat_id message_type with
    | (Some _, _) => length table
    | (None, _) => S (length table)
    end.
Proof.
  intros table chat_id k content image_path Hpk.
  unfold BotDatabase.set_message, BotDatabase.get_message.
  rewrite length_app. simpl.
  induction table as [|r table IH]; simpl; [reflexivity|].
  unfold BotDatabase.primary_key_ok in Hpk. simpl in Hpk.
  apply NoDup_cons in Hpk as [Hr Hpk]. specialize (IH Hpk).
  destruct (BotDatabase.has_key chat_id k r) eqn:E; simpl.
  - apply BotDatabaseFacts.has_key_true in E.
    assert (Hnone : List.find (BotDatabase.has_key chat_id k) table = None).
    { destruct (List.find _ table) as [r'|] eqn:F; [|reflexivity].
      apply List.find_some in F as [Hin Hk]. apply BotDatabaseFacts.has_key_true in Hk.
      exfalso. apply Hr. rewrite E, <- Hk. apply list_elem_of_In, List.in_map, Hin. }
    rewrite Hnone in IH. lia.
  - destruct (List.find _ table); simpl in *; lia.
Qed.

Lemma set_message_row_count_witness :
  length (BotDatabase.set_message [leave_row "Bye" None; other_row] (-100) "leave" "Ciao" None)
  = 2%nat.
Proof.
  refine (set_message_row_count [leave_row "Bye" None; other_row] (-100) "leave" "Ciao" None _).
  apply (bool_decide_unpack _). vm_compute. exact I.
Defined.

Module AdminTableFacts.
Import AdminTable.

Lemma is_row_true c u r :
  is_row c u r = true <-> r = {| admin_chat_id := c; admin_user_id := u |}.
Proof.
  unfold is_row. rewrite bool_decide_eq_true. destruct r as [c' u']. simpl. split.
  - intros [-> ->]. reflexivity.
  - intros [= -> ->]. split; reflexivity.
Qed.

Lemma is_admin_existsb table c u : is_admin table c u = existsb (is_row c u) table.
Proof.
  unfold is_admin. induction table as [|r table IH]; simpl; [reflexivity|].
  destruct (is_row c u r); [reflexivity|exact IH].
Qed.

End AdminTableFacts.

(** X22. The admin table: after [add_admin], [is_admin] holds for the added
    pair and is unchanged for every other pair, and adding a pair that is
    already there leaves the table as it is (so the table never holds a
    pair twice when it did not before). *)
Theorem admin_table_round_trip :
  forall (table : list AdminTable.AdminRow) (chat_id user_id chat_id' user_id' : Z),
    AdminTable.is_admin (AdminTable.add_admin table chat_id user_id) chat_id' user_id' =
      (AdminTable.is_admin table chat_id' user_id'
       || bool_decide (chat_id = chat_id' /\ user_id = user_id'))
    /\ AdminTable.add_admin (AdminTable.add_admin table chat_id user_id) chat_id user_id
       = AdminTable.add_admin table chat_id user_id
    /\ (NoDup table -> NoDup (AdminTable.add_admin table chat_id user_id)).
Proof.
  intros table c u c' u'.
  assert (Hnew : AdminTable.is_row c' u' {| AdminTable.admin_chat_id := c;
                                            AdminTable.admin_user_id := u |}
                 = bool_decide (c = c' /\ u = u')) by reflexivity.
  split; [|split].
  - rewrite !AdminTableFacts.is_admin_existsb. unfold AdminTable.add_admin.
    destruct (existsb (AdminTable.is_row c u) table) eqn:E.
    + destruct (bool_decide (c = c' /\ u = u')) eqn:D.
      * apply bool_decide_eq_true in D as [<- <-]. rewrite E. reflexivity.
      * rewrite orb_false_r. reflexivity.
    + rewrite List.existsb_app. simpl. rewrite Hnew, orb_false_r. reflexivity.
  - unfold AdminTable.add_admin.
    destruct (existsb (AdminTable.is_row c u) table) eqn:E; [rewrite E; reflexivity|].
    rewrite List.existsb_app. simpl.
    rewrite (proj2 (AdminTableFacts.is_row_true c u _)) by reflexivity.
    rewrite orb_true_r. reflexivity.
  - intros Hnd. unfold AdminTable.add_admin.
    destruct (existsb (AdminTable.is_row c u) table) eqn:E; [exact Hnd|].
    apply NoDup_app. split; [exact Hnd|]. split; [|apply NoDup_singleton].
    intros r Hr Hin. apply list_elem_of_singleton in Hin. subst r.
    assert (Hex : existsb (AdminTable.is_row c u) table = true).
    { apply List.existsb_exists. eexists. split; [apply list_elem_of_In, Hr|].
      apply AdminTableFacts.is_row_true. reflexivity. }
    congruence.
Qed.

Lemma admin_table_round_trip_witness :
  NoDup (AdminTable.add_admin [] (-100) 7).
Proof.
  refine (proj2 (proj2 (admin_table_round_trip [] (-100) 7 0 0)) _). constructor.
Defined.

(** ** File names, authorization at consume time, isolation of users *)

Module SplitFacts.

Lemma split_cons sep c s :
  PyStr.split sep (String c s) =
  if Ascii.eqb c sep then "" :: PyStr.split sep s
  else match PyStr.split sep s with
       | w :: ws => String c w :: ws
       | [] => [String c ""]
       end.
Proof. reflexivity. Qed.

Lemma pieces_without_separator sep s :
  Forall (fun w => ~ has_char sep w) (PyStr.split sep s).
Proof.
  induction s as [|c s IH].
  - repeat constructor. intros [].
  - rewrite split_cons. destruct (Ascii.eqb_spec c sep) as [-> | Hne].
    + constructor; [intros []|exact IH].
    + destruct (PyStr.split sep s) as [|w ws].
      * repeat constructor. intros [H | []]. congruence.
      * apply Forall_cons in IH as [Hw Hws]. constructor; [|exact Hws].
        intros [H | H]; [congruence|exact (Hw H)].
Qed.

Lemma single_piece sep s w : PyStr.split sep s = [w] -> w = s.
Proof.
  revert w. induction s as [|c s IH]; intros w.
  - simpl. congruence.
  - rewrite split_cons. destruct (Ascii.eqb c sep).
    + destruct (CallbackFacts.split_nonempty sep s) as (w' & ws & ->). discriminate.
    + destruct (PyStr.split sep s) as [|w' ws] eqn:E.
      * destruct (CallbackFacts.split_nonempty sep s) as (? & ? & H). congruence.
      * intros [= <- ->]. f_equal. apply IH. reflexivity.
Qed.

Lemma last_is_suffix sep s :
  exists dir, s = dir +:+ List.last (PyStr.split sep s) "".
Proof.
  induction s as [|c s IH].
  - exists "". reflexivity.
  - rewrite split_cons. destruct IH as (dir & Hdir).
    destruct (CallbackFacts.split_nonempty sep s) as (w & ws & Hsplit).
    rewrite Hsplit in *. destruct (Ascii.eqb c sep).
    + exists (String c dir). change (List.last ("" :: w :: ws) "") with (List.last (w :: ws) "").
      rewrite Hdir at 1. reflexivity.
    + destruct ws as [|w' ws].
      * exists "". simpl. apply single_piece in Hsplit. subst w. reflexivity.
      * exists (String c dir).
        change (List.last (String c w :: w' :: ws) "") with (List.last (w :: w' :: ws) "").
        rewrite Hdir at 1. reflexivity.
Qed.

Lemma last_in {A} (w : A) ws d : List.last (w :: ws) d ∈ w :: ws.
Proof.
  revert w. induction ws as [|w' ws IH]; intros w.
  - left.
  - right. apply IH.
Qed.

End SplitFacts.

(** X23. The file name under which a download is stored is the end of the
    path reported by the server and contains no slash: what the server
    sends cannot add a directory to the path of the stored image. *)
Theorem stored_file_name_is_last_component :
  forall file_path : string,
    ~ has_char "/" (TelegramBot.last_segment file_path)
    /\ exists dir, file_path = dir +:+ TelegramBot.last_segment file_path.
Proof.
  intros file_path. unfold TelegramBot.last_segment. split.
  - pose proof (SplitFacts.pieces_without_separator "/" file_path) as Hall.
    destruct (CallbackFacts.split_nonempty "/" file_path) as (w & ws & Hsplit).
    rewrite Hsplit in *. rewrite Forall_forall in Hall. apply Hall.
    apply SplitFacts.last_in.
  - apply SplitFacts.last_is_suffix.
Qed.

Example stored_file_name_sample :
  TelegramBot.last_segment "photos/2024/file_12.jpg" = "file_12.jpg"
  /\ TelegramBot.last_segment "file.jpg" = "file.jpg"
  /\ TelegramBot.last_segment "photos/" = "".
Proof. repeat split; reflexivity. Qed.

Section Isolation.

Variable user_id : option Z.

Lemma touches_ret {A} (a : A) : touches_only user_id (ret a).
Proof. intros b v _. reflexivity. Qed.

Lemma touches_raise {A} : touches_only user_id (@raise A).
Proof. intros b v _. reflexivity. Qed.

Lemma touches_read {A} (f : Bot -> A) : touches_only user_id (read f).
Proof. intros b v _. reflexivity. Qed.

Lemma touches_bind {A B} (m : M A) (k : A -> M B) :
  touches_only user_id m -> (forall a, touches_only user_id (k a)) ->
  touches_only user_id (bind m k).
Proof.
  intros Hm Hk b v Hv. unfold bind. specialize (Hm b v Hv).
  destruct (m b) as [[a|] b1]; simpl in *; [|exact Hm].
  rewrite (Hk a b1 v Hv). exact Hm.
Qed.

Lemma touches_try_except (m : M unit) :
  touches_only user_id m -> touches_only user_id (try_except m).
Proof.
  intros Hm b v Hv. unfold try_except. specialize (Hm b v Hv).
  destruct (m b) as [[a|] b1]; exact Hm.
Qed.

Lemma touches_post W request : touches_only user_id (TelegramBot.post W request).
Proof. intros b v _. reflexivity. Qed.

Lemma touches_send_photo W chat_id path caption :
  touches_only user_id (TelegramBot.send_photo W chat_id path caption).
Proof.
  unfold TelegramBot.send_photo. apply touches_bind; [apply touches_read|].
  intros []; [apply touches_post|apply touches_ret].
Qed.

Lemma touches_download_file W file_id :
  touches_only user_id (TelegramBot.download_file W file_id).
Proof.
  unfold TelegramBot.download_file.
  destruct (get_file W file_id); [apply touches_raise|apply touches_ret|apply touches_ret].
Qed.

Lemma touches_write_file W path content : touches_only user_id (write_file W path content).
Proof. unfold write_file. destruct (disk_up W); intros b v _; reflexivity. Qed.

Lemma touches_db_get_message W chat_id k : touches_only user_id (db_get_message W chat_id k).
Proof. unfold db_get_message. destruct (storage_up W); intros b v _; reflexivity. Qed.

Lemma touches_db_set_message W chat_id k content image :
  touches_only user_id (db_set_message W chat_id k content image).
Proof. unfold db_set_message. destruct (storage_up W); intros b v _; reflexivity. Qed.

Lemma touches_db_delete_settings W chat_id :
  touches_only user_id (db_delete_settings W chat_id).
Proof. unfold db_delete_settings. destruct (storage_up W); intros b v _; reflexivity. Qed.

Lemma touches_second_piece data : touches_only user_id (second_piece data).
Proof.
  unfold second_piece. destruct (PyStr.split "_" data) as [|? [|? ?]];
    [apply touches_raise|apply touches_raise|apply touches_ret].
Qed.

Lemma touches_set_user_state u state :
  user_id = Some u -> touches_only user_id (set_user_state u state).
Proof.
  intros -> b v Hv. unfold set_user_state, modify. simpl.
  apply lookup_insert_ne. congruence.
Qed.

Lemma touches_del_user_state u :
  user_id = Some u -> touches_only user_id (del_user_state u).
Proof.
  intros -> b v Hv. unfold del_user_state.
  destruct (user_states b !! u); simpl; [|reflexivity].
  apply lookup_delete_ne. congruence.
Qed.

(** Takes a handler apart along its control flow. *)
Ltac touches :=
  repeat first
    [ apply touches_try_except
    | apply touches_bind; [|intros ?]
    | apply touches_ret | apply touches_raise | apply touches_read | apply touches_post
    | apply touches_send_photo | apply touches_download_file | apply touches_write_file
    | apply touches_db_get_message | apply touches_db_set_message
    | apply touches_db_delete_settings | apply touches_second_piece
    | apply touches_set_user_state; assumption
    | apply touches_del_user_state; assumption
    | progress unfold TelegramBot.send_message, TelegramBot.send_inline_keyboard,
        TelegramBot.answer_callback_query, TelegramBot.edit_message, path_exists
    | case_match ].

Lemma touches_handle_settings_command W chat_id u message_id :
  touches_only user_id (handle_settings_command W chat_id u message_id).
Proof. unfold handle_settings_command. touches. Qed.

Lemma touches_handle_user_input W chat_id u text message :
  user_id = Some u ->
  touches_only user_id (handle_user_input W chat_id u text message).
Proof. intros Hu. unfold handle_user_input, handle_user_input_body, receive_photo. touches. Qed.

Lemma touches_handle_message W update :
  upd_chat_member update = None ->
  user_id = sender update ->
  touches_only user_id (handle_message W update).
Proof.
  intros Hcm Hu. unfold sender in Hu. rewrite Hcm in Hu.
  unfold handle_message. apply touches_try_except.
  destruct (upd_message update) as [message|]; [|apply touches_ret].
  destruct (usable_id (msg_chat_id message)); [|apply touches_ret].
  destruct (usable_id (msg_from_id message)) as [u|]; [|apply touches_ret].
  case_match; [apply touches_handle_settings_command|].
  apply touches_bind; [apply touches_read|].
  intros []; [apply touches_handle_user_input; exact Hu|apply touches_ret].
Qed.

Lemma touches_handle_callback_query W update :
  upd_chat_member update = None ->
  upd_message update = None ->
  user_id = sender update ->
  touches_only user_id (handle_callback_query W update).
Proof.
  intros Hcm Hmsg Hu. unfold sender in Hu. rewrite Hcm, Hmsg in Hu.
  unfold handle_callback_query, handle_settings_command_edit.
  apply touches_try_except.
  destruct (upd_callback_query update) as [callback|]; [|apply touches_ret].
  destruct (usable_id (cb_chat_id callback)); [|apply touches_ret].
  destruct (usable_id (cb_from_id callback)) as [u|]; [|apply touches_ret].
  touches.
Qed.

Variable str_format : string -> string -> option string.

Lemma touches_handle_chat_member_update W update :
  touches_only user_id (handle_chat_member_update str_format W update).
Proof.
  unfold handle_chat_member_update, notify, resolve_text, format_username, deliver. touches.
Qed.

Lemma touches_process_update W update :
  user_id = sender update ->
  touches_only user_id (process_update str_format W update).
Proof.
  intros Hu. unfold process_update.
  destruct (upd_chat_member update) eqn:Hcm; [apply touches_handle_chat_member_update|].
  destruct (upd_message update) eqn:Hmsg; [apply touches_handle_message; assumption|].
  destruct (upd_callback_query update) eqn:Hcb;
    [apply touches_handle_callback_query; assumption|apply touches_ret].
Qed.

End Isolation.

(** X25. Conversations are isolated per user: whatever the update and the
    world, handling it can change the conversation state of the user it
    comes from only; the state of every other user is as before (and a
    membership change touches no state at all). *)
Theorem other_users_keep_their_state :
  forall (str_format : string -> string -> option string) (W : World) (update : Update)
         (b : Bot) (v : Z),
    sender update <> Some v ->
    user_states (run (process_update str_format W update) b) !! v = user_states b !! v.
Proof.
  intros fmt W update b v Hv. unfold run.
  apply (touches_process_update (sender update) fmt W update eq_refl). congruence.
Qed.

Lemma other_users_keep_their_state_witness :
  user_states (run (process_update simple_format sample_world
                      (update_of (text_message "Bye")))
                   (bot_with [] 8 awaiting_text)) !! 8 = Some awaiting_text.
Proof.
  refine (other_users_keep_their_state simple_format sample_world
            (update_of (text_message "Bye")) (bot_with [] 8 awaiting_text) 8 _).
  vm_compute. discriminate.
Defined.

(** The bot after an administrator's [edit_...] press (storage working). *)
Lemma begin_edit_run W update callback chat_id user_id data k pieces b :
  upd_callback_query update = Some callback ->
  usable_id (cb_chat_id callback) = Some chat_id ->
  usable_id (cb_from_id callback) = Some user_id ->
  cb_data callback = Some data ->
  PyStr.split "_" data = "edit" :: k :: pieces ->
  PyStr.startswith "edit_" data = true ->
  is_chat_admin W chat_id user_id = true ->
  storage_up W = true ->
  let b' := run (handle_callback_query W update) b in
  user_states b' =
    <[user_id := {| action := edit_message; message_type := k; state_chat_id := chat_id |}]>
      (user_states b)
  /\ settings b' = settings b.
Proof.
  intros Hcb Hchat Huser Hdata Hsplit Hprefix Hadmin Hup b'. subst b'. unfold run.
  rewrite (CallbackFacts.callback_start W update callback chat_id user_id) by assumption.
  rewrite Hadmin, Hdata. change (default "" (Some data)) with data. cbv zeta.
  change (negb true) with false. cbv iota. rewrite Hprefix.
  unfold second_piece. rewrite Hsplit. run_handler. rewrite Hup.
  unfold set_user_state, modify. simpl.
  destruct (BotDatabase.get_message (settings b) chat_id k) as [[m|] image]; simpl;
    [destruct (PyStr.truthy m)|]; simpl; split; reflexivity.
Qed.

(** X24. Authorization is checked when the edit begins, not when the input
    is consumed, and the input is applied to the chat it arrives in: an
    edit begun by an administrator of one chat, followed by a message of
    the same user in another chat where the user is not an administrator,
    replaces the template of that other chat and leaves the first chat's
    settings as they were. *)
Theorem edit_begun_elsewhere_is_applied :
  forall (W1 W2 : World) (update1 update2 : Update) (callback : CallbackQuery)
         (message : Message) (chat_a chat_b user_id : Z) (data : string) (b : Bot),
    upd_callback_query update1 = Some callback ->
    usable_id (cb_chat_id callback) = Some chat_a ->
    usable_id (cb_from_id callback) = Some user_id ->
    cb_data callback = Some data ->
    PyStr.startswith "edit_" data = true ->
    is_chat_admin W1 chat_a user_id = true ->
    storage_up W1 = true ->
    upd_message update2 = Some message ->
    usable_id (msg_chat_id message) = Some chat_b ->
    usable_id (msg_from_id message) = Some user_id ->
    ~ is_command (text_of message) ->
    chat_b <> chat_a ->
    is_chat_admin W2 chat_b user_id = false ->
    storage_up W2 = true ->
    let b1 := run (handle_callback_query W1 update1) b in
    let b2 := run (handle_message W2 update2) b1 in
    exists k pieces,
      PyStr.split "_" data = "edit" :: k :: pieces
      /\ BotDatabase.get_message (settings b2) chat_b k =
         (Some (parse_message_entities (text_of message) (default [] (msg_entities message))),
          None)
      /\ (forall k', BotDatabase.get_message (settings b2) chat_a k' =
                     BotDatabase.get_message (settings b) chat_a k').
Proof.
  intros W1 W2 update1 update2 callback message chat_a chat_b user_id data b
    Hcb Hchat Huser Hdata Hprefix Hadmin Hup1 Hmsg Hchat_b Huser_b Hcmd Hne Hnot_admin Hup2
    b1 b2.
  destruct (CallbackFacts.split_edit data Hprefix) as (k & pieces & Hsplit).
  exists k, pieces. split; [exact Hsplit|].
  destruct (begin_edit_run W1 update1 callback chat_a user_id data k pieces b)
    as [Hstates Hsettings]; try assumption.
  fold b1 in Hstates, Hsettings.
  assert (Hstate : user_states b1 !! user_id =
                   Some {| action := edit_message; message_type := k;
                           state_chat_id := chat_a |}).
  { rewrite Hstates. apply lookup_insert_eq. }
  subst b2. unfold run.
  rewrite (handle_message_pending W2 update2 message chat_b user_id) by eauto.
  rewrite (edit_consumed W2 chat_b user_id (text_of message) message _ b1 Hstate)
    by (try reflexivity; assumption).
  simpl. split.
  - apply BotDatabaseFacts.get_set_same.
  - intros k'. rewrite BotDatabaseFacts.get_set_other by congruence.
    rewrite Hsettings. reflexivity.
Qed.

Lemma edit_begun_elsewhere_is_applied_witness :
  let b1 := run (handle_callback_query admin_of_one_chat_world (button_press "edit_ban"))
                (bot_with [other_row] 9 awaiting_photo) in
  let b2 := run (handle_message admin_of_one_chat_world
                   (update_of (text_message_elsewhere "Mine now"))) b1 in
  exists k pieces,
    PyStr.split "_" "edit_ban" = "edit" :: k :: pieces
    /\ BotDatabase.get_message (settings b2) (-200) k = (Some "Mine now", None)
    /\ (forall k', BotDatabase.get_message (settings b2) (-100) k' =
                   BotDatabase.get_message (settings (bot_with [other_row] 9 awaiting_photo))
                     (-100) k').
Proof.
  refine (edit_begun_elsewhere_is_applied admin_of_one_chat_world admin_of_one_chat_world
            (button_press "edit_ban") (update_of (text_message_elsewhere "Mine now"))
            (pressed "edit_ban") (text_message_elsewhere "Mine now") (-100) (-200) 7
            "edit_ban" (bot_with [other_row] 9 awaiting_photo)
            _ _ _ _ _ _ _ _ _ _ _ _ _ _); try reflexivity.
  - intros [H | H]; discriminate H.
  - discriminate.
Defined.

Example edit_begun_elsewhere_sample :
  let b := bot_with [other_row] 9 awaiting_photo in
  let b1 := run (handle_callback_query admin_of_one_chat_world (button_press "edit_ban")) b in
  let b2 := run (handle_message admin_of_one_chat_world
                   (update_of (text_message_elsewhere "Mine now"))) b1 in
  BotDatabase.get_message (settings b) (-200) "ban" = (Some "Out, {username}.", None)
  /\ BotDatabase.get_message (settings b2) (-200) "ban" = (Some "Mine now", None)
  /\ outbox b2 =
     [AnswerCallbackQuery (Some "query") "";
      EditMessage (-100) (Some 40) (edit_prompt "ban" default_ban) back_keyboard;
      SendInlineKeyboard (-200) (message_updated_text "ban" "Mine now") back_keyboard].
Proof. repeat split; reflexivity. Qed.
